(** * Order service: the order / item / payment consistency core

    A shallow embedding of [order_app/models.py] and of the view actions of
    [order_app/views.py] that mutate the store, together with the properties
    of the specification that are about them.

    Conventions of the embedding.
    - The relational store is a record of tables.  A table with a primary
      key is a finite map from the key to the row; the append-only history
      table is a list of rows, oldest first.
    - Monetary columns ([DecimalField] with two decimal places) are integers
      counting hundredths, so [unit_price * quantity] is exact, as it is on
      [Decimal].  The width of a column ([max_digits], [max_length]) and the
      secondary [unique] constraints are enforced by the database and are
      not re-checked by the model.
    - Columns that the ORM fills in on its own ([auto_now], [auto_now_add],
      [order_date], [order_time]) are left out; [payment_date], which
      [Payment.save] assigns itself, is kept and reads the clock [now].
    - A method that can raise is a computation in the monad [M]: it gets the
      store and either returns a value or raises, in both cases together
      with the store as it is at that point.  [atomic] is
      [transaction.atomic()]: it restores the store when its body raises.
    - [while True] loops that sample random values consume a list of raw
      random draws and answer [None] when the list is used up with the loop
      still running. *)

From Stdlib Require Import ZArith Lia Ascii String.
From stdpp Require Import gmap strings list fin_maps.

Local Open Scope Z_scope.

(** ** Python primitives used by the models *)

Module Py.

(** The character of a decimal digit [0 <= d <= 9]. *)
Definition digit_char (d : Z) : ascii := ascii_of_nat (48 + Z.to_nat d).

Definition is_digit (c : ascii) : bool :=
  (48 <=? nat_of_ascii c)%nat && (nat_of_ascii c <=? 57)%nat.

(** The decimal digits of a non-negative integer, most significant first. *)
Fixpoint digits_go (fuel : nat) (n : Z) (acc : list ascii) : list ascii :=
  match fuel with
  | O => acc
  | S fuel' =>
      let acc' := digit_char (n mod 10) :: acc in
      if n <? 10 then acc' else digits_go fuel' (n / 10) acc'
  end.

Definition digits (n : Z) : list ascii :=
  digits_go (S (Z.to_nat (Z.log2 n))) n [].

(** [str(n)] for an [int]. *)
Definition str (n : Z) : string :=
  if n <? 0 then String "-" (string_of_list_ascii (digits (- n)))
  else string_of_list_ascii (digits n).

(** [s[:k]]. *)
Definition slice_to (k : nat) (s : string) : string :=
  string_of_list_ascii (take k (list_ascii_of_string s)).

(** [random.randint(a, b)]: [a + randbelow(b - a + 1)], the raw random
    value [r] reduced to the width of the range. *)
Definition randint (a b : Z) (r : Z) : Z := a + r mod (b - a + 1).

(** [uuid.uuid4().int]: sixteen random bytes [r], with the variant and
    version fields forced as [UUID.__init__] does for [version=4]. *)
Definition uuid4_int (r : Z) : Z :=
  let i := r mod 2 ^ 128 in
  let i := Z.land i (Z.lnot (Z.shiftl 0xc000 48)) in
  let i := Z.lor i (Z.shiftl 0x8000 48) in
  let i := Z.land i (Z.lnot (Z.shiftl 0xf000 64)) in
  Z.lor i (Z.shiftl 4 76).

(** A string made of exactly [k] decimal digits. *)
Definition numeric_string (k : nat) (s : string) : Prop :=
  length (list_ascii_of_string s) = k ∧
  Forall (λ c, is_digit c = true) (list_ascii_of_string s).

End Py.

(** ** The tables ([models.py]) *)

Module Order.
Record t := mk {
  order_id : string;       (* ORDER_ID, primary key *)
  customer_id : string;    (* CUSTOMER_ID *)
  address_id : Z;          (* ADDRESS_ID *)
  total_amount : Z;        (* TOTAL_AMOUNT, hundredths *)
  status : string          (* STATUS *)
}.
Definition STATUS_CHOICES : list (string * string) :=
  [("pending", "Pending"); ("shipped", "Shipped"); ("delivered", "Delivered")]%string.
Definition set_total_amount (v : Z) (o : t) : t :=
  mk (order_id o) (customer_id o) (address_id o) v (status o).
Definition set_status (v : string) (o : t) : t :=
  mk (order_id o) (customer_id o) (address_id o) (total_amount o) v.
End Order.

Module OrderStatusHistory.
Record t := mk {
  order : string;          (* ORDER_ID *)
  status : string          (* STATUS *)
}.
End OrderStatusHistory.

Module OrderItem.
Record t := mk {
  order_item_id : Z;       (* ORDER_ITEM_ID, primary key, a UUID *)
  order : string;          (* ORDER_ID *)
  product_id : string;     (* PRODUCT_ID *)
  quantity : Z;            (* QUANTITY *)
  unit_price : Z;          (* UNIT_PRICE, hundredths *)
  total_price : Z          (* TOTAL_PRICE, hundredths *)
}.
Definition set_total_price (v : Z) (i : t) : t :=
  mk (order_item_id i) (order i) (product_id i) (quantity i) (unit_price i) v.
End OrderItem.

Module Payment.
Record t := mk {
  payment_id : Z;                  (* PAYMENT_ID, primary key, a UUID *)
  order : string;                  (* ORDER_ID, one-to-one *)
  payment_date : option Z;         (* PAYMENT_DATE *)
  payment_method : string;         (* PAYMENT_METHOD *)
  transaction_id : option string;  (* TRANSACTION_ID *)
  amount_paid : option Z;          (* AMOUNT_PAID, hundredths *)
  payment_status : string          (* PAYMENT_STATUS *)
}.
Definition set_payment_status (v : string) (p : t) : t :=
  mk (payment_id p) (order p) (payment_date p) (payment_method p)
     (transaction_id p) (amount_paid p) v.
End Payment.

(** The store.  The customer and product tables belong to other services;
    this application only reads the first and reads and decrements the
    second. *)
Record DB := mkDB {
  CUSTOMERS_CUSTOMER : gset string;               (* the CUSTOMER_ID column *)
  PRODUCT_APP_PRODUCT : gmap string Z;            (* PRODUCT_ID -> STOCK *)
  ORDER_APP_ORDER : gmap string Order.t;
  ORDER_APP_ORDER_ITEM : gmap Z OrderItem.t;
  ORDER_APP_PAYMENT : gmap Z Payment.t;
  ORDER_APP_ORDER_STATUS_HISTORY : list OrderStatusHistory.t
}.

Definition set_products (f : gmap string Z → gmap string Z) (db : DB) : DB :=
  mkDB (CUSTOMERS_CUSTOMER db) (f (PRODUCT_APP_PRODUCT db)) (ORDER_APP_ORDER db)
       (ORDER_APP_ORDER_ITEM db) (ORDER_APP_PAYMENT db) (ORDER_APP_ORDER_STATUS_HISTORY db).
Definition set_orders (f : gmap string Order.t → gmap string Order.t) (db : DB) : DB :=
  mkDB (CUSTOMERS_CUSTOMER db) (PRODUCT_APP_PRODUCT db) (f (ORDER_APP_ORDER db))
       (ORDER_APP_ORDER_ITEM db) (ORDER_APP_PAYMENT db) (ORDER_APP_ORDER_STATUS_HISTORY db).
Definition set_order_items (f : gmap Z OrderItem.t → gmap Z OrderItem.t) (db : DB) : DB :=
  mkDB (CUSTOMERS_CUSTOMER db) (PRODUCT_APP_PRODUCT db) (ORDER_APP_ORDER db)
       (f (ORDER_APP_ORDER_ITEM db)) (ORDER_APP_PAYMENT db) (ORDER_APP_ORDER_STATUS_HISTORY db).
Definition set_payments (f : gmap Z Payment.t → gmap Z Payment.t) (db : DB) : DB :=
  mkDB (CUSTOMERS_CUSTOMER db) (PRODUCT_APP_PRODUCT db) (ORDER_APP_ORDER db)
       (ORDER_APP_ORDER_ITEM db) (f (ORDER_APP_PAYMENT db)) (ORDER_APP_ORDER_STATUS_HISTORY db).
Definition set_status_history
    (f : list OrderStatusHistory.t → list OrderStatusHistory.t) (db : DB) : DB :=
  mkDB (CUSTOMERS_CUSTOMER db) (PRODUCT_APP_PRODUCT db) (ORDER_APP_ORDER db)
       (ORDER_APP_ORDER_ITEM db) (ORDER_APP_PAYMENT db) (f (ORDER_APP_ORDER_STATUS_HISTORY db)).

(** ** Exceptions and the monad of the request handlers *)

Inductive exn :=
| ValueError (msg : string)
| IntegrityError                 (* django.db: duplicate primary key *)
| DoesNotExist                   (* a related row is missing *)
| RelatedObjectDoesNotExist      (* reverse one-to-one accessor, no row *)
| Http404                        (* get_object_or_404 *)
| OrderNotFoundException
| PaymentNotFoundException
| InvalidOrderStatusException
| OrderAlreadyCancelledException
| OrderItemNotFoundException.

Inductive outcome (A : Type) :=
| Return (a : A) (db : DB)       (* normal completion *)
| Raise (e : exn) (db : DB)      (* an exception leaves the handler *)
| Running.                       (* the draws are used up inside a loop *)
Arguments Return {A} a db.
Arguments Raise {A} e db.
Arguments Running {A}.

Definition M (A : Type) : Type := DB → outcome A.

#[global] Instance M_ret : MRet M := λ A a db, Return a db.
#[global] Instance M_bind : MBind M := λ A B f m db,
  match m db with
  | Return a db' => f a db'
  | Raise e db' => Raise e db'
  | Running => Running
  end.

Definition get : M DB := λ db, Return db db.
Definition modify (f : DB → DB) : M () := λ db, Return () (f db).
Definition raise {A} (e : exn) : M A := λ db, Raise e db.
Definition spin {A} : M A := λ _, Running.

(** [with transaction.atomic(): body]. *)
Definition atomic {A} (body : M A) : M A := λ db,
  match body db with
  | Raise e _ => Raise e db
  | r => r
  end.

(** ** [models.py] *)

(** [Order.objects.filter(order_id=order_id).exists()]. *)
Definition Order_exists (order_id : string) (db : DB) : bool :=
  bool_decide (is_Some (ORDER_APP_ORDER db !! order_id)).

(** [generate_order_id]: draw until the identifier is not in the table. *)
Fixpoint generate_order_id (draws : list Z) (db : DB) : option string :=
  match draws with
  | [] => None
  | r :: draws' =>
      let order_id := Py.str (Py.randint 1000000 9999999 r) in
      if negb (Order_exists order_id db) then Some order_id
      else generate_order_id draws' db
  end.

(** [SELECT COUNT( * ) FROM CUSTOMERS_CUSTOMER WHERE CUSTOMER_ID = %s]. *)
Definition count_customers (customer_id : string) (db : DB) : Z :=
  if decide (customer_id ∈ CUSTOMERS_CUSTOMER db) then 1 else 0.

(** [Order.save]: validate the customer, then write the row, as an
    update-or-insert on the primary key. *)
Definition Order_save (self : Order.t) : M () :=
  db ← get;
  if count_customers (Order.customer_id self) db =? 0
  then raise (ValueError "Invalid customer ID")
  else modify (set_orders (insert (Order.order_id self) self)).

(** [order.order_items]: the rows of the item table that point to the order. *)
Definition order_items (order_id : string) (db : DB) : list OrderItem.t :=
  filter (λ i, OrderItem.order i = order_id) (map_to_list (ORDER_APP_ORDER_ITEM db)).*2.

(** [aggregate(total=Sum("total_price"))["total"]]: [None] over no rows. *)
Definition Sum_total_price (rows : list OrderItem.t) : option Z :=
  match rows with
  | [] => None
  | _ => Some (foldr (λ i acc, OrderItem.total_price i + acc) 0 rows)
  end.

(** [x or 0.00] on an optional decimal. *)
Definition or_zero (x : option Z) : Z :=
  match x with
  | Some v => if v =? 0 then 0 else v
  | None => 0
  end.

(** [Order.update_total_amount].  The instance is returned as the method
    leaves it. *)
Definition Order_update_total_amount (self : Order.t) : M Order.t :=
  db ← get;
  let self := Order.set_total_amount
                (or_zero (Sum_total_price (order_items (Order.order_id self) db))) self in
  Order_save self;;
  mret self.

(** [super().save()] of an item: an insert when [force_insert] is set (as
    [objects.create] does), else an update-or-insert on the primary key. *)
Definition OrderItem_super_save (force_insert : bool) (self : OrderItem.t) : M () :=
  db ← get;
  if force_insert && bool_decide (is_Some (ORDER_APP_ORDER_ITEM db !! OrderItem.order_item_id self))
  then raise IntegrityError
  else modify (set_order_items (insert (OrderItem.order_item_id self) self)).

(** [UPDATE PRODUCT_APP_PRODUCT SET STOCK = STOCK - %s WHERE PRODUCT_ID = %s]. *)
Definition decrement_stock (quantity : Z) (product_id : string) : M () :=
  modify (set_products (alter (λ stock, stock - quantity) product_id)).

(** [OrderItem.save].  [order] is [self.order], the related instance the
    item holds; the updated instances are returned. *)
Definition OrderItem_save (force_insert : bool) (self : OrderItem.t) (order : Order.t)
    : M (OrderItem.t * Order.t) :=
  db ← get;
  match PRODUCT_APP_PRODUCT db !! OrderItem.product_id self with
  | None => raise (ValueError "Invalid product ID")
  | Some available_stock =>
      if available_stock <? OrderItem.quantity self
      then raise (ValueError "Insufficient stock for product")
      else
        let self := OrderItem.set_total_price
                      (OrderItem.unit_price self * OrderItem.quantity self) self in
        OrderItem_super_save force_insert self;;
        order ← Order_update_total_amount order;
        decrement_stock (OrderItem.quantity self) (OrderItem.product_id self);;
        mret (self, order)
  end.

(** [Payment.objects.filter(transaction_id=transaction_id).exists()]. *)
Definition transaction_exists (transaction_id : string) (db : DB) : bool :=
  bool_decide (Exists (λ p, Payment.transaction_id p = Some transaction_id)
                      (map_to_list (ORDER_APP_PAYMENT db)).*2).

(** [Payment.generate_transaction_id]. *)
Fixpoint generate_transaction_id (draws : list Z) (db : DB) : option string :=
  match draws with
  | [] => None
  | r :: draws' =>
      let transaction_id := Py.slice_to 12 (Py.str (Py.uuid4_int r)) in
      if negb (transaction_exists transaction_id db) then Some transaction_id
      else generate_transaction_id draws' db
  end.

(** Truth value of an optional string: [None] and [""] are false. *)
Definition truthy (s : option string) : bool :=
  match s with
  | Some s => negb (String.eqb s "")
  | None => false
  end.

(** [self.order] of a payment: the related row. *)
Definition Payment_order (self : Payment.t) : M Order.t :=
  db ← get;
  match ORDER_APP_ORDER db !! Payment.order self with
  | Some order => mret order
  | None => raise DoesNotExist
  end.

(** [Payment.save], called without arguments as the views do: the write is
    an update-or-insert on the primary key.  [now] is the clock, [draws]
    feeds the identifier loop. *)
Definition Payment_save (now : Z) (draws : list Z) (self : Payment.t) : M Payment.t :=
  self ←
    (if String.eqb (Payment.payment_status self) "success" then
       transaction_id ←
         (if negb (truthy (Payment.transaction_id self)) then
            db ← get;
            match generate_transaction_id draws db with
            | Some t => mret (Some t)
            | None => spin
            end
          else mret (Payment.transaction_id self));
       order ← Payment_order self;
       mret (Payment.mk (Payment.payment_id self) (Payment.order self) (Some now)
               (Payment.payment_method self) transaction_id
               (Some (Order.total_amount order)) (Payment.payment_status self))
     else
       mret (Payment.mk (Payment.payment_id self) (Payment.order self) None
               (Payment.payment_method self) None None (Payment.payment_status self)));
  modify (set_payments (insert (Payment.payment_id self) self));;
  mret self.

(** ** [views.py]

    Permission classes, throttling, the serializers' shape validation and
    their rendering of the reply (which refuses a decimal wider than its
    field) are outside the embedding: a view gets the arguments of an
    admitted, validated request and answers with the rows themselves. *)

Inductive body :=
| message (s : string)
| error (s : string)
| items (l : list OrderItem.t).

Record Response := mkResponse { data : body; status : Z }.

Definition HTTP_200_OK : Z := 200.
Definition HTTP_201_CREATED : Z := 201.
Definition HTTP_204_NO_CONTENT : Z := 204.
Definition HTTP_400_BAD_REQUEST : Z := 400.

(** [OrderStatusHistory.objects.create(order=order, status=status)]. *)
Definition OrderStatusHistory_create (order : Order.t) (status : string) : M () :=
  modify (set_status_history
            (λ h, h ++ [OrderStatusHistory.mk (Order.order_id order) status])).

(** [order.payment], the reverse accessor of the one-to-one relation: the
    payment row that points to the order.  The column is unique, so at most
    one row does. *)
Definition payment_of (order_id : string) (db : DB) : option Payment.t :=
  snd <$> list_find (λ p, Payment.order p = order_id) (map_to_list (ORDER_APP_PAYMENT db)).*2.

Definition Order_payment (order : Order.t) : M Payment.t :=
  db ← get;
  match payment_of (Order.order_id order) db with
  | Some payment => mret payment
  | None => raise RelatedObjectDoesNotExist
  end.

(** [OrderViewSet.get_object]. *)
Definition OrderViewSet_get_object (order_id : string) : M Order.t :=
  db ← get;
  match ORDER_APP_ORDER db !! order_id with
  | Some order => mret order
  | None => raise OrderNotFoundException
  end.

(** [new_status not in dict(Order.STATUS_CHOICES)]. *)
Definition in_STATUS_CHOICES (new_status : string) : bool :=
  bool_decide (new_status ∈ Order.STATUS_CHOICES.*1).

(** [OrderViewSet.update_status]; [new_status] is
    [request.data.get("status")]. *)
Definition OrderViewSet_update_status (order_id : string) (new_status : option string)
    : M Response :=
  order ← OrderViewSet_get_object order_id;
  match new_status with
  | None => raise InvalidOrderStatusException
  | Some new_status =>
      if negb (in_STATUS_CHOICES new_status) then raise InvalidOrderStatusException
      else
        refused ←
          (if String.eqb new_status "delivered" then
             payment ← Order_payment order;
             mret (negb (String.eqb (Payment.payment_status payment) "success"))
           else mret false);
        if (refused : bool) then
          mret (mkResponse
                  (error "Order cannot be marked as delivered without successful payment")
                  HTTP_400_BAD_REQUEST)
        else
          let order := Order.set_status new_status order in
          Order_save order;;
          OrderStatusHistory_create order new_status;;
          mret (mkResponse
                  (message ("Order " +:+ Order.order_id order +:+ " updated to " +:+ new_status))
                  HTTP_200_OK)
  end.

(** The validated fields of one item of a request, with the value that
    [uuid.uuid4] gives the new row as its primary key. *)
Record OrderItemData := mkItemData {
  uuid : Z;
  data_product_id : string;
  data_quantity : Z;
  data_unit_price : Z
}.

(** [serializer.save(order=order)]: [OrderItem.objects.create], which
    saves with [force_insert=True]. *)
Definition OrderItem_create (order : Order.t) (d : OrderItemData)
    : M (OrderItem.t * Order.t) :=
  OrderItem_save true
    (OrderItem.mk (uuid d) (Order.order_id order) (data_product_id d)
                  (data_quantity d) (data_unit_price d) 0)
    order.

(** The loop of [OrderItemViewSet.create] over the items of the request. *)
Fixpoint create_items (order : Order.t) (order_items_data : list OrderItemData)
    : M (list OrderItem.t) :=
  match order_items_data with
  | [] => mret []
  | item_data :: rest =>
      '(item, order) ← OrderItem_create order item_data;
      created ← create_items order rest;
      mret (item :: created)
  end.

(** [get_object_or_404(Order, order_id=order_id)]. *)
Definition get_Order_or_404 (order_id : option string) : M Order.t :=
  db ← get;
  match order_id ≫= (ORDER_APP_ORDER db !!.) with
  | Some order => mret order
  | None => raise Http404
  end.

(** [OrderItemViewSet.create]; [order_id] is [self.kwargs.get("order_id")]. *)
Definition OrderItemViewSet_create (order_id : option string)
    (order_items_data : list OrderItemData) : M Response :=
  order ← get_Order_or_404 order_id;
  atomic (
    created_items ← create_items order order_items_data;
    mret (mkResponse (items created_items) HTTP_201_CREATED)).

(** [OrderItemViewSet.get_object] over [get_queryset]: the row with the
    primary key, among the rows of the order when the route names one. *)
Definition OrderItemViewSet_get_object (order_id : option string) (pk : Z) : M OrderItem.t :=
  db ← get;
  match ORDER_APP_ORDER_ITEM db !! pk with
  | Some order_item =>
      if truthy order_id && negb (bool_decide (Some (OrderItem.order order_item) = order_id))
      then raise OrderItemNotFoundException
      else mret order_item
  | None => raise OrderItemNotFoundException
  end.

(** [order_item.order]: the related row. *)
Definition OrderItem_order (self : OrderItem.t) : M Order.t :=
  db ← get;
  match ORDER_APP_ORDER db !! OrderItem.order self with
  | Some order => mret order
  | None => raise DoesNotExist
  end.

(** [order_item.delete()]. *)
Definition OrderItem_delete (self : OrderItem.t) : M () :=
  modify (set_order_items (delete (OrderItem.order_item_id self))).

(** [OrderItemViewSet.destroy]. *)
Definition OrderItemViewSet_destroy (order_id : option string) (pk : Z) : M Response :=
  order_item ← OrderItemViewSet_get_object order_id pk;
  order ← OrderItem_order order_item;
  atomic (
    OrderItem_delete order_item;;
    Order_update_total_amount order);;
  mret (mkResponse (message "Order item deleted") HTTP_204_NO_CONTENT).

(** [get_object_or_404(Payment, order__order_id=order_id)]. *)
Definition get_Payment_or_404 (order_id : string) : M Payment.t :=
  db ← get;
  match payment_of order_id db with
  | Some payment => mret payment
  | None => raise Http404
  end.

(** [PaymentViewSet.confirm_payment].  [payment.order] after the save is the
    instance the save has read and cached; no write to the order table lies
    between the two. *)
Definition PaymentViewSet_confirm_payment (now : Z) (draws : list Z) (order_id : string)
    : M Response :=
  payment ← get_Payment_or_404 order_id;
  if String.eqb (Payment.payment_status payment) "success" then
    mret (mkResponse (message "Payment already marked as successful") HTTP_400_BAD_REQUEST)
  else
    payment ← Payment_save now draws (Payment.set_payment_status "success" payment);
    order ← Payment_order payment;
    let order := Order.set_status "shipped" order in
    Order_save order;;
    OrderStatusHistory_create order "shipped";;
    mret (mkResponse (message "Payment confirmed successfully") HTTP_200_OK).

(** ** Creation and deletion of orders and payments
       ([models.py], [serializers.py], [views.py]) *)

(** [Order.save(force_insert=True)], as [Order.objects.create] calls it:
    the customer is validated, then the row is inserted, and the insert
    fails on a key that is taken. *)
Definition Order_save_force_insert (self : Order.t) : M () :=
  db ← get;
  if count_customers (Order.customer_id self) db =? 0
  then raise (ValueError "Invalid customer ID")
  else if Order_exists (Order.order_id self) db then raise IntegrityError
  else modify (set_orders (insert (Order.order_id self) self)).

(** The body of [Payment.save] before [super().save()]: the fields it
    assigns to the instance. *)
Definition Payment_assign (now : Z) (draws : list Z) (self : Payment.t) : M Payment.t :=
  if String.eqb (Payment.payment_status self) "success" then
    transaction_id ←
      (if negb (truthy (Payment.transaction_id self)) then
         db ← get;
         match generate_transaction_id draws db with
         | Some t => mret (Some t)
         | None => spin
         end
       else mret (Payment.transaction_id self));
    order ← Payment_order self;
    mret (Payment.mk (Payment.payment_id self) (Payment.order self) (Some now)
            (Payment.payment_method self) transaction_id
            (Some (Order.total_amount order)) (Payment.payment_status self))
  else
    mret (Payment.mk (Payment.payment_id self) (Payment.order self) None
            (Payment.payment_method self) None None (Payment.payment_status self)).

(** [Payment.save(force_insert=True)], as [Payment.objects.create] calls
    it: the same assignments, then an insert that fails on a key that is
    taken. *)
Definition Payment_save_force_insert (now : Z) (draws : list Z) (self : Payment.t)
    : M Payment.t :=
  self ← Payment_assign now draws self;
  db ← get;
  if bool_decide (is_Some (ORDER_APP_PAYMENT db !! Payment.payment_id self))
  then raise IntegrityError
  else modify (set_payments (insert (Payment.payment_id self) self));; mret self.

(** The validated fields of a payment in a request, with the value that
    [uuid.uuid4] gives the new row as its primary key.  The data carry no
    [order] of their own: the views pass it. *)
Record PaymentData := mkPaymentData {
  payment_uuid : Z;
  data_payment_method : string;
  data_payment_status : string;
  data_transaction_id : option string;
  data_payment_date : option Z;
  data_amount_paid : option Z
}.

(** [Payment.objects.create(order=order, **payment_data)]. *)
Definition Payment_create (now : Z) (draws : list Z) (order : Order.t) (d : PaymentData)
    : M Payment.t :=
  Payment_save_force_insert now draws
    (Payment.mk (payment_uuid d) (Order.order_id order) (data_payment_date d)
                (data_payment_method d) (data_transaction_id d) (data_amount_paid d)
                (data_payment_status d)).

(** The validated fields of an order in a request.  The identifier, the
    total and the status are optional; the model has defaults for them. *)
Record OrderData := mkOrderData {
  data_order_id : option string;
  data_customer_id : string;
  data_address_id : Z;
  data_total_amount : option Z;
  data_status : option string;
  data_order_items : list OrderItemData;
  data_payment : option PaymentData
}.

(** The identifier of a new order: the one of the request, else the
    default of the field, [generate_order_id]. *)
Definition new_order_id (order_draws : list Z) (d : OrderData) (db : DB) : option string :=
  match data_order_id d with
  | Some order_id => Some order_id
  | None => generate_order_id order_draws db
  end.

(** [Order.objects.create] on the validated fields. *)
Definition Order_create (order_draws : list Z) (d : OrderData) : M Order.t :=
  db ← get;
  match new_order_id order_draws d db with
  | None => spin
  | Some order_id =>
      let order := Order.mk order_id (data_customer_id d) (data_address_id d)
                     (default 0 (data_total_amount d)) (default "pending"%string (data_status d)) in
      Order_save_force_insert order;;
      mret order
  end.

(** The loop of [OrderSerializer.create] over the items; the order instance
    is returned as the saves leave it. *)
Fixpoint create_order_items (order : Order.t) (order_items_data : list OrderItemData)
    : M Order.t :=
  match order_items_data with
  | [] => mret order
  | item_data :: rest =>
      '(_, order) ← OrderItem_create order item_data;
      create_order_items order rest
  end.

(** [OrderSerializer.create]. *)
Definition OrderSerializer_create (now : Z) (order_draws draws : list Z) (d : OrderData)
    : M Order.t :=
  order ← Order_create order_draws d;
  order ← create_order_items order (data_order_items d);
  match data_payment d with
  | Some payment_data => Payment_create now draws order payment_data;; mret order
  | None => mret order
  end.

(** What a view answers with, beside the plain bodies. *)
Inductive content :=
| of_order (o : Order.t)
| of_payment (p : Payment.t)
| of_history (l : list OrderStatusHistory.t)
| of_body (b : body).

Record Reply := mkReply { content_of : content; code : Z }.

(** [OrderViewSet.create], the second definition of the class body, which
    is the one the class keeps. *)
Definition OrderViewSet_create (now : Z) (order_draws draws : list Z) (d : OrderData)
    : M Reply :=
  atomic (
    order ← OrderSerializer_create now order_draws draws d;
    OrderStatusHistory_create order (Order.status order);;
    mret (mkReply (of_order order) HTTP_201_CREATED)).

(** [order.delete()]: the row goes, and with it, by [on_delete=CASCADE],
    the items, the payment and the history rows that point to it. *)
Definition Order_delete (self : Order.t) : M () :=
  modify (λ db,
    mkDB (CUSTOMERS_CUSTOMER db) (PRODUCT_APP_PRODUCT db)
         (delete (Order.order_id self) (ORDER_APP_ORDER db))
         (filter (λ kv, OrderItem.order kv.2 ≠ Order.order_id self) (ORDER_APP_ORDER_ITEM db))
         (filter (λ kv, Payment.order kv.2 ≠ Order.order_id self) (ORDER_APP_PAYMENT db))
         (filter (λ h, OrderStatusHistory.order h ≠ Order.order_id self)
                 (ORDER_APP_ORDER_STATUS_HISTORY db))).

(** [OrderViewSet.destroy]. *)
Definition OrderViewSet_destroy (order_id : string) : M Response :=
  order ← OrderViewSet_get_object order_id;
  Order_delete order;;
  mret (mkResponse (message "Order deleted successfully") HTTP_204_NO_CONTENT).

(** [order.status_history.all()]: the history rows of the order.  The model
    declares no ordering; the rows come here in the order of insertion. *)
Definition Order_status_history (order_id : string) (db : DB) : list OrderStatusHistory.t :=
  filter (λ h, OrderStatusHistory.order h = order_id) (ORDER_APP_ORDER_STATUS_HISTORY db).

(** [OrderViewSet.status_history]. *)
Definition OrderViewSet_status_history (order_id : string) : M Reply :=
  order ← OrderViewSet_get_object order_id;
  db ← get;
  mret (mkReply (of_history (Order_status_history (Order.order_id order) db)) HTTP_200_OK).

(** [Payment.objects.filter(order=order).exists()]. *)
Definition Payment_exists_for (order : Order.t) (db : DB) : bool :=
  bool_decide (Exists (λ p, Payment.order p = Order.order_id order)
                      (map_to_list (ORDER_APP_PAYMENT db)).*2).

(** [PaymentViewSet.create]; [order_id] is [request.data.get("order")]. *)
Definition PaymentViewSet_create (now : Z) (draws : list Z) (order_id : option string)
    (d : PaymentData) : M Reply :=
  order ← get_Order_or_404 order_id;
  db ← get;
  if Payment_exists_for order db then
    mret (mkReply (of_body (error "Payment for this order already exists"))
                  HTTP_400_BAD_REQUEST)
  else
    payment ← Payment_create now draws order d;
    mret (mkReply (of_payment payment) HTTP_201_CREATED).

(** ** Vocabulary of the properties *)

(** The sum of [total_price] over the live items of an order. *)
Definition live_total (order_id : string) (db : DB) : Z :=
  foldr Z.add 0 (OrderItem.total_price <$> order_items order_id db).

(** The order is in the store and its [total_amount] is that sum. *)
Definition total_consistent (order_id : string) (db : DB) : Prop :=
  ∃ order, ORDER_APP_ORDER db !! order_id = Some order ∧
           Order.total_amount order = live_total order_id db.

(** The store a handler leaves behind, whether it returned or raised. *)
Definition leaves {A} (o : outcome A) (db' : DB) : Prop :=
  match o with
  | Return _ db | Raise _ db => db = db'
  | Running => False
  end.

(** The instance [update_total_amount] leaves: the order with the sum of
    its live items as its total. *)
Definition recomputed (self : Order.t) (db : DB) : Order.t :=
  Order.set_total_amount (live_total (Order.order_id self) db) self.

(** The item [OrderItem.save] writes: the instance with its price computed. *)
Definition priced (self : OrderItem.t) : OrderItem.t :=
  OrderItem.set_total_price (OrderItem.unit_price self * OrderItem.quantity self) self.

(** The store once [OrderItem.save] has written the item row. *)
Definition item_written (self : OrderItem.t) (db : DB) : DB :=
  set_order_items (insert (OrderItem.order_item_id self) (priced self)) db.

(** The store once [OrderItem.save] has run to its end. *)
Definition item_added (self : OrderItem.t) (order : Order.t) (db : DB) : DB :=
  set_products (alter (λ stock, stock - OrderItem.quantity self) (OrderItem.product_id self))
    (set_orders (insert (Order.order_id order) (recomputed order (item_written self db)))
       (item_written self db)).

(** The store once [OrderItemViewSet.destroy] has deleted the item and
    recomputed the order. *)
Definition item_removed (item : OrderItem.t) (order : Order.t) (db : DB) : DB :=
  let db1 := set_order_items (delete (OrderItem.order_item_id item)) db in
  set_orders (insert (Order.order_id order) (recomputed order db1)) db1.

(** Every item row is stored under its own identifier. *)
Definition keyed_by_order_item_id (db : DB) : Prop :=
  ∀ pk item, ORDER_APP_ORDER_ITEM db !! pk = Some item → OrderItem.order_item_id item = pk.

(** What [Payment.save] makes of the instance on the success branch, with
    the transaction identifier it settled on, and on the other branch. *)
Definition paid (now : Z) (transaction_id : option string) (order : Order.t)
    (self : Payment.t) : Payment.t :=
  Payment.mk (Payment.payment_id self) (Payment.order self) (Some now)
    (Payment.payment_method self) transaction_id
    (Some (Order.total_amount order)) (Payment.payment_status self).

Definition cleared (self : Payment.t) : Payment.t :=
  Payment.mk (Payment.payment_id self) (Payment.order self) None
    (Payment.payment_method self) None None (Payment.payment_status self).

(** A computation that never changes the part [proj] of the store, whether
    it returns or raises. *)
Definition preserves {A T} (proj : DB → T) (m : M A) : Prop :=
  ∀ db db', leaves (m db) db' → proj db' = proj db.

(** The exceptions the application raises on purpose: those that
    [exceptions.py] declares, the [ValueError]s of the models and the 404 of
    [get_object_or_404].  The others come out of the ORM. *)
Definition domain_error (e : exn) : bool :=
  match e with
  | ValueError _ | Http404 | OrderNotFoundException | PaymentNotFoundException
  | InvalidOrderStatusException | OrderAlreadyCancelledException
  | OrderItemNotFoundException => true
  | IntegrityError | DoesNotExist | RelatedObjectDoesNotExist => false
  end.

(** Every order row is stored under its own identifier: the key of the
    table is the primary-key column of the row. *)
Definition keyed_by_order_id (db : DB) : Prop :=
  ∀ order_id order, ORDER_APP_ORDER db !! order_id = Some order → Order.order_id order = order_id.

(** No product has a negative stock. *)
Definition stock_nonneg (db : DB) : Prop :=
  ∀ product_id stock, PRODUCT_APP_PRODUCT db !! product_id = Some stock → 0 ≤ stock.

(** Every payment row is stored under its own identifier. *)
Definition keyed_by_payment_id (db : DB) : Prop :=
  ∀ pk payment, ORDER_APP_PAYMENT db !! pk = Some payment → Payment.payment_id payment = pk.

(** No two payment rows point to the same order. *)
Definition one_payment_per_order (db : DB) : Prop :=
  ∀ pk1 pk2 p1 p2,
    ORDER_APP_PAYMENT db !! pk1 = Some p1 → ORDER_APP_PAYMENT db !! pk2 = Some p2 →
    Payment.order p1 = Payment.order p2 → pk1 = pk2.

(** No two payment rows carry the same transaction identifier. *)
Definition transaction_ids_unique (db : DB) : Prop :=
  ∀ pk1 pk2 p1 p2 t,
    ORDER_APP_PAYMENT db !! pk1 = Some p1 → ORDER_APP_PAYMENT db !! pk2 = Some p2 →
    Payment.transaction_id p1 = Some t → Payment.transaction_id p2 = Some t → pk1 = pk2.

(** A payment row has its identifier, date and amount when its status is
    success, and none of them otherwise. *)
Definition payment_shape (p : Payment.t) : Prop :=
  if String.eqb (Payment.payment_status p) "success"
  then truthy (Payment.transaction_id p) = true ∧
       is_Some (Payment.payment_date p) ∧ is_Some (Payment.amount_paid p)
  else Payment.transaction_id p = None ∧
       Payment.payment_date p = None ∧ Payment.amount_paid p = None.

(** Every item, payment and history row points to an order of the store. *)
Definition no_dangling (db : DB) : Prop :=
  (∀ pk item, ORDER_APP_ORDER_ITEM db !! pk = Some item →
     is_Some (ORDER_APP_ORDER db !! OrderItem.order item)) ∧
  (∀ pk payment, ORDER_APP_PAYMENT db !! pk = Some payment →
     is_Some (ORDER_APP_ORDER db !! Payment.order payment)) ∧
  Forall (λ h, is_Some (ORDER_APP_ORDER db !! OrderStatusHistory.order h))
         (ORDER_APP_ORDER_STATUS_HISTORY db).

(** The units of a product that the items of a request ask for. *)
Definition requested (product_id : string) (order_items_data : list OrderItemData) : Z :=
  foldr (λ d acc, if decide (data_product_id d = product_id)
                  then data_quantity d + acc else acc) 0 order_items_data.

(** The price of the items of a request. *)
Definition priced_total (order_items_data : list OrderItemData) : Z :=
  foldr (λ d acc, data_unit_price d * data_quantity d + acc) 0 order_items_data.

(** The item row that [OrderItem.objects.create] writes for an order. *)
Definition item_of (order_id : string) (d : OrderItemData) : OrderItem.t :=
  OrderItem.mk (uuid d) order_id (data_product_id d) (data_quantity d) (data_unit_price d)
               (data_unit_price d * data_quantity d).

(** The twelve characters [generate_transaction_id] makes of a draw. *)
Definition transaction_candidate (r : Z) : string :=
  Py.slice_to 12 (Py.str (Py.uuid4_int r)).

(** A computation that keeps the property [P] of the store, whether it
    returns or raises. *)
Definition keeps {A} (P : DB → Prop) (m : M A) : Prop :=
  ∀ db db', P db → leaves (m db) db' → P db'.

(** Every payment row has the shape its status asks for. *)
Definition payments_shaped (db : DB) : Prop :=
  ∀ pk payment, ORDER_APP_PAYMENT db !! pk = Some payment → payment_shape payment.

(** Every order of the store has, as [total_amount], the sum over its live
    items. *)
Definition totals_consistent (db : DB) : Prop :=
  ∀ order_id order, ORDER_APP_ORDER db !! order_id = Some order →
                    Order.total_amount order = live_total order_id db.

(** ** Stores used as concrete inputs

    The scenario of the specification: one customer, one product with ten
    units in stock, one pending order; then the same store after an item of
    three units has been added, after a pending payment has been attached,
    and after the payment has been confirmed.  [customer_gone] is a store
    whose customer table no longer has any row, as after the customer
    service deleted them. *)

Definition order_1 : Order.t := Order.mk "1000000" "c1" 1 0 "pending".
Definition item_7 : OrderItem.t := OrderItem.mk 7 "1000000" "p1" 3 250 750.
Definition payment_9 : Payment.t := Payment.mk 9 "1000000" None "upi" None None "pending".
Definition payment_9_paid : Payment.t :=
  Payment.mk 9 "1000000" (Some 1700000000) "upi" (Some "302240678275"%string) (Some 750) "success".

Definition shop : DB :=
  mkDB {[ "c1"%string ]} {[ "p1"%string := 10 ]} {[ "1000000"%string := order_1 ]} ∅ ∅
       [OrderStatusHistory.mk "1000000" "pending"].

Definition shop_with_item : DB :=
  mkDB {[ "c1"%string ]} {[ "p1"%string := 7 ]}
       {[ "1000000"%string := Order.set_total_amount 750 order_1 ]}
       {[ 7 := item_7 ]} ∅
       [OrderStatusHistory.mk "1000000" "pending"].

Definition shop_with_payment : DB := set_payments (insert 9 payment_9) shop_with_item.

Definition shop_paid : DB :=
  set_orders (insert "1000000"%string (Order.mk "1000000" "c1" 1 750 "shipped"))
    (set_payments (insert 9 payment_9_paid) shop_with_item).

Definition shop_after_removal : DB :=
  mkDB {[ "c1"%string ]} {[ "p1"%string := 7 ]} {[ "1000000"%string := order_1 ]} ∅ ∅
       [OrderStatusHistory.mk "1000000" "pending"].

Definition shop_confirmed : DB :=
  mkDB {[ "c1"%string ]} {[ "p1"%string := 7 ]}
       {[ "1000000"%string := Order.mk "1000000" "c1" 1 750 "shipped" ]}
       {[ 7 := item_7 ]} {[ 9 := payment_9_paid ]}
       [OrderStatusHistory.mk "1000000" "pending"; OrderStatusHistory.mk "1000000" "shipped"].

Definition shop_confirmed_emptied : DB :=
  mkDB {[ "c1"%string ]} {[ "p1"%string := 7 ]}
       {[ "1000000"%string := Order.mk "1000000" "c1" 1 0 "shipped" ]}
       ∅ {[ 9 := payment_9_paid ]}
       [OrderStatusHistory.mk "1000000" "pending"; OrderStatusHistory.mk "1000000" "shipped"].

Definition shop_delivered : DB :=
  mkDB {[ "c1"%string ]} {[ "p1"%string := 7 ]}
       {[ "1000000"%string := Order.mk "1000000" "c1" 1 750 "delivered" ]}
       {[ 7 := item_7 ]} {[ 9 := payment_9_paid ]}
       [OrderStatusHistory.mk "1000000" "pending"; OrderStatusHistory.mk "1000000" "shipped";
        OrderStatusHistory.mk "1000000" "delivered"].

Definition item_8 : OrderItem.t := OrderItem.mk 8 "1000000" "p1" 4 100 400.

Definition shop_with_two_items : DB :=
  mkDB {[ "c1"%string ]} {[ "p1"%string := 3 ]}
       {[ "1000000"%string := Order.set_total_amount 1150 order_1 ]}
       {[ 7 := item_7; 8 := item_8 ]} ∅
       [OrderStatusHistory.mk "1000000" "pending"].

Definition order_2 : Order.t := Order.mk "1000005" "c1" 2 200 "pending".

Definition shop_with_second_order : DB :=
  mkDB {[ "c1"%string ]} {[ "p1"%string := 8 ]}
       {[ "1000000"%string := order_1; "1000005"%string := order_2 ]}
       {[ 11 := OrderItem.mk 11 "1000005" "p1" 2 100 200 ]} ∅
       [OrderStatusHistory.mk "1000000" "pending"; OrderStatusHistory.mk "1000005" "pending"].

Definition customer_gone (db : DB) : DB :=
  mkDB ∅ (PRODUCT_APP_PRODUCT db) (ORDER_APP_ORDER db)
       (ORDER_APP_ORDER_ITEM db) (ORDER_APP_PAYMENT db) (ORDER_APP_ORDER_STATUS_HISTORY db).

(** * Properties *)

(** ** Decimal rendering and the identifier spaces *)

Section PyFacts.

Example str_7 : Py.str 1000000 = "1000000"%string. Proof. reflexivity. Qed.
Example str_neg : Py.str (-42) = "-42"%string. Proof. reflexivity. Qed.
Example str_0 : Py.str 0 = "0"%string. Proof. reflexivity. Qed.
Example uuid_ex : Py.slice_to 12 (Py.str (Py.uuid4_int 0)) = "302240678275"%string.
Proof. vm_compute. reflexivity. Qed.

Lemma digit_char_is_digit (d : Z) : 0 ≤ d < 10 → Py.is_digit (Py.digit_char d) = true.
Proof.
  intros Hd.
  assert (d = 0 ∨ d = 1 ∨ d = 2 ∨ d = 3 ∨ d = 4 ∨ d = 5 ∨ d = 6 ∨ d = 7 ∨ d = 8 ∨ d = 9)
    as Hcases by lia.
  repeat (destruct Hcases as [-> | Hcases]; [reflexivity |]).
  subst d. reflexivity.
Qed.

Lemma digits_go_all_digits (fuel : nat) : ∀ (n : Z) (acc : list ascii),
  0 ≤ n →
  Forall (λ c, Py.is_digit c = true) acc →
  Forall (λ c, Py.is_digit c = true) (Py.digits_go fuel n acc).
Proof.
  induction fuel as [| fuel IH]; intros n acc Hn Hacc; cbn [Py.digits_go]; [done |].
  assert (Forall (λ c, Py.is_digit c = true) (Py.digit_char (n mod 10) :: acc)) as Hacc'.
  { constructor; [| done]. apply digit_char_is_digit. apply Z.mod_pos_bound. lia. }
  destruct (n <? 10); [done |].
  apply IH; [| done]. apply Z.div_pos; lia.
Qed.

(** A number with [k + 1] digits is rendered by [k + 1] characters, given
    fuel for them. *)
Lemma digits_go_length (k : nat) : ∀ (fuel : nat) (n : Z) (acc : list ascii),
  (k < fuel)%nat →
  10 ^ Z.of_nat k ≤ n < 10 ^ Z.of_nat (S k) ∨ (k = O ∧ 0 ≤ n < 10) →
  length (Py.digits_go fuel n acc) = (S k + length acc)%nat.
Proof.
  induction k as [| k IH]; intros fuel n acc Hfuel Hn.
  - destruct fuel as [| fuel]; [lia |]. cbn [Py.digits_go].
    assert (n < 10) as Hlt by (change (10 ^ Z.of_nat 1) with 10 in Hn; lia).
    apply Z.ltb_lt in Hlt. rewrite Hlt. reflexivity.
  - destruct Hn as [Hn | [? _]]; [| done].
    destruct fuel as [| fuel]; [lia |]. cbn [Py.digits_go].
    rewrite !Nat2Z.inj_succ, !Z.pow_succ_r in Hn by lia.
    assert (1 ≤ 10 ^ Z.of_nat k) as Hpos by (apply Z.lt_pred_le, Z.pow_pos_nonneg; lia).
    assert (¬ n < 10) as Hge by lia.
    apply Z.ltb_nlt in Hge. rewrite Hge.
    rewrite IH; [cbn [length]; lia | lia |].
    left. rewrite Nat2Z.inj_succ, Z.pow_succ_r by lia. split.
    + apply Z.div_le_lower_bound; lia.
    + apply Z.div_lt_upper_bound; lia.
Qed.

Lemma digits_go_length_acc (fuel : nat) : ∀ (n : Z) (acc : list ascii),
  (length acc ≤ length (Py.digits_go fuel n acc))%nat.
Proof.
  induction fuel as [| fuel IH]; intros n acc; cbn [Py.digits_go]; [done |].
  destruct (n <? 10); [cbn [length]; lia |].
  etrans; [| apply IH]. cbn [length]. lia.
Qed.

(** A number of at least [k + 1] digits is rendered by at least [k + 1]
    characters. *)
Lemma digits_go_length_ge (k : nat) : ∀ (fuel : nat) (n : Z) (acc : list ascii),
  (k < fuel)%nat →
  10 ^ Z.of_nat k ≤ n →
  (S k + length acc ≤ length (Py.digits_go fuel n acc))%nat.
Proof.
  induction k as [| k IH]; intros fuel n acc Hfuel Hn.
  - destruct fuel as [| fuel]; [lia |]. cbn [Py.digits_go].
    destruct (n <? 10); [cbn [length]; lia |].
    etrans; [| apply digits_go_length_acc]. cbn [length]. lia.
  - destruct fuel as [| fuel]; [lia |]. cbn [Py.digits_go].
    rewrite Nat2Z.inj_succ, Z.pow_succ_r in Hn by lia.
    assert (1 ≤ 10 ^ Z.of_nat k) as Hpos by (apply Z.lt_pred_le, Z.pow_pos_nonneg; lia).
    assert (¬ n < 10) as Hge by lia.
    apply Z.ltb_nlt in Hge. rewrite Hge.
    etrans; [| apply IH; [lia | apply Z.div_le_lower_bound; lia]].
    cbn [length]. lia.
Qed.

Lemma log2_fuel (k : Z) (n : Z) : 0 < k → k ≤ n → (Z.to_nat (Z.log2 k) ≤ Z.to_nat (Z.log2 n))%nat.
Proof. intros Hk Hn. apply Z2Nat.inj_le; [apply Z.log2_nonneg.. |]. by apply Z.log2_le_mono. Qed.

(** [str] of a seven-digit number is a seven-digit string. *)
Lemma str_7_digits (n : Z) : 1000000 ≤ n ≤ 9999999 → Py.numeric_string 7 (Py.str n).
Proof.
  intros Hn. unfold Py.numeric_string, Py.str.
  assert ((n <? 0) = false) as -> by (apply Z.ltb_nlt; lia).
  rewrite list_ascii_of_string_of_list_ascii. unfold Py.digits. split.
  - rewrite (digits_go_length 6); [reflexivity | |].
    + pose proof (log2_fuel 1000000 n ltac:(lia) ltac:(lia)) as Hf.
      change (Z.to_nat (Z.log2 1000000)) with 19%nat in Hf. lia.
    + left. change (10 ^ Z.of_nat 6) with 1000000. change (10 ^ Z.of_nat 7) with 10000000. lia.
  - apply digits_go_all_digits; [lia | constructor].
Qed.

(** [random.randint(a, b)] lies in [[a, b]]. *)
Lemma randint_range (a b r : Z) : a ≤ b → a ≤ Py.randint a b r ≤ b.
Proof.
  intros Hab. unfold Py.randint.
  pose proof (Z.mod_pos_bound r (b - a + 1) ltac:(lia)). lia.
Qed.

Lemma testbit_lower_bound (a k : Z) : 0 ≤ a → 0 ≤ k → Z.testbit a k = true → 2 ^ k ≤ a.
Proof.
  intros Ha Hk Hbit.
  destruct (Z.le_gt_cases (2 ^ k) a) as [| Hlt]; [done |].
  destruct (Z.eq_dec a 0) as [-> | Hne].
  - by rewrite Z.bits_0 in Hbit.
  - rewrite Z.bits_above_log2 in Hbit; [done | done |].
    apply Z.log2_lt_pow2; lia.
Qed.

(** The version field makes the integer of a version-4 UUID at least
    [2 ^ 78], which has 24 decimal digits. *)
Lemma uuid4_int_lower (r : Z) : 2 ^ 78 ≤ Py.uuid4_int r.
Proof.
  unfold Py.uuid4_int.
  pose proof (Z.mod_pos_bound r (2 ^ 128) ltac:(lia)) as Hr.
  set (i := r mod 2 ^ 128) in *.
  apply testbit_lower_bound; [| lia |].
  - apply Z.lor_nonneg. split; [| by apply Z.shiftl_nonneg].
    apply Z.land_nonneg. left.
    apply Z.lor_nonneg. split; [| by apply Z.shiftl_nonneg].
    apply Z.land_nonneg. left. lia.
  - rewrite Z.lor_spec. apply orb_true_iff. right. reflexivity.
Qed.

(** The first twelve characters of the rendering of a version-4 UUID are
    twelve digits. *)
Lemma uuid4_prefix_12_digits (r : Z) :
  Py.numeric_string 12 (Py.slice_to 12 (Py.str (Py.uuid4_int r))).
Proof.
  pose proof (uuid4_int_lower r) as Hlow.
  assert (10 ^ 11 ≤ Py.uuid4_int r) as Hn by (etrans; [| exact Hlow]; done).
  generalize dependent (Py.uuid4_int r). intros n _ Hn.
  unfold Py.numeric_string, Py.slice_to, Py.str.
  assert ((n <? 0) = false) as -> by (apply Z.ltb_nlt; lia).
  rewrite !list_ascii_of_string_of_list_ascii. unfold Py.digits. split.
  - rewrite length_take. apply Nat.min_l.
    etrans; [| apply (digits_go_length_ge 11); [| exact Hn]].
    + cbn [length]. lia.
    + pose proof (log2_fuel (10 ^ 11) n ltac:(lia) Hn) as Hf.
      change (Z.to_nat (Z.log2 (10 ^ 11))) with 36%nat in Hf. lia.
  - apply Forall_take, digits_go_all_digits; [lia | constructor].
Qed.

End PyFacts.

(** ** The order identifier generator *)

Lemma Order_exists_false (order_id : string) (db : DB) :
  Order_exists order_id db = false ↔ order_id ∉ dom (ORDER_APP_ORDER db).
Proof.
  unfold Order_exists. rewrite bool_decide_eq_false, elem_of_dom. done.
Qed.

(** C9.  Every identifier that [generate_order_id] returns is the decimal
    rendering of a number between 1000000 and 9999999, hence a string of
    seven digits, and is not the identifier of any order in the store; and
    the generator does return as soon as one of its draws is free. *)
Theorem generate_order_id_seven_digits_fresh (draws : list Z) (db : DB) :
  (∀ order_id, generate_order_id draws db = Some order_id →
     Py.numeric_string 7 order_id ∧
     (∃ n, 1000000 ≤ n ≤ 9999999 ∧ order_id = Py.str n) ∧
     order_id ∉ dom (ORDER_APP_ORDER db)) ∧
  (Exists (λ r, Py.str (Py.randint 1000000 9999999 r) ∉ dom (ORDER_APP_ORDER db)) draws →
     is_Some (generate_order_id draws db)).
Proof.
  split.
  - induction draws as [| r draws IH]; intros order_id Hgen; cbn [generate_order_id] in Hgen.
    + discriminate.
    + destruct (Order_exists _ db) eqn:Hex; cbn [negb] in Hgen; [by apply IH |].
      injection Hgen as <-.
      pose proof (randint_range 1000000 9999999 r ltac:(lia)) as Hr.
      split_and!; [by apply str_7_digits | by eexists | by apply Order_exists_false].
  - induction 1 as [r draws Hfree | r draws _ IH]; cbn [generate_order_id].
    + apply Order_exists_false in Hfree. rewrite Hfree. by eexists.
    + destruct (Order_exists _ db); cbn [negb]; [done | by eexists].
Qed.

Lemma generate_order_id_retries :
  generate_order_id [0; 5] shop = Some "1000005"%string ∧
  Py.numeric_string 7 "1000005" ∧
  "1000005"%string ∉ dom (ORDER_APP_ORDER shop).
Proof.
  assert (generate_order_id [0; 5] shop = Some "1000005"%string) as Hgen
    by (vm_compute; reflexivity).
  destruct (generate_order_id_seven_digits_fresh [0; 5] shop) as [Hret _].
  destruct (Hret _ Hgen) as (Hdigits & _ & Hfresh).
  exact (conj Hgen (conj Hdigits Hfresh)).
Defined.

(** ** Evaluation of the model methods *)

Ltac munfold :=
  unfold mbind, M_bind, mret, M_ret, get, modify, raise, spin in *; cbn beta in *.

Lemma count_customers_zero (customer_id : string) (db : DB) :
  (count_customers customer_id db =? 0) = bool_decide (customer_id ∉ CUSTOMERS_CUSTOMER db).
Proof. unfold count_customers. case_decide; by rewrite ?bool_decide_true, ?bool_decide_false by tauto. Qed.

Lemma Order_save_ok (self : Order.t) (db : DB) :
  Order.customer_id self ∈ CUSTOMERS_CUSTOMER db →
  Order_save self db = Return () (set_orders (insert (Order.order_id self) self) db).
Proof.
  intros Hc. unfold Order_save. munfold.
  rewrite count_customers_zero, bool_decide_false by tauto. done.
Qed.

Lemma Order_save_invalid_customer (self : Order.t) (db : DB) :
  Order.customer_id self ∉ CUSTOMERS_CUSTOMER db →
  Order_save self db = Raise (ValueError "Invalid customer ID") db.
Proof.
  intros Hc. unfold Order_save. munfold.
  rewrite count_customers_zero, bool_decide_true by tauto. done.
Qed.

Lemma Order_save_cases (self : Order.t) (db : DB) :
  (Order.customer_id self ∈ CUSTOMERS_CUSTOMER db ∧
   Order_save self db = Return () (set_orders (insert (Order.order_id self) self) db)) ∨
  ((Order.customer_id self ∉ CUSTOMERS_CUSTOMER db) ∧
   Order_save self db = Raise (ValueError "Invalid customer ID") db).
Proof.
  destruct (decide (Order.customer_id self ∈ CUSTOMERS_CUSTOMER db)).
  - left. eauto using Order_save_ok.
  - right. eauto using Order_save_invalid_customer.
Qed.

Lemma or_zero_Sum (rows : list OrderItem.t) :
  or_zero (Sum_total_price rows) = foldr Z.add 0 (OrderItem.total_price <$> rows).
Proof.
  assert (∀ l, foldr (λ i acc, OrderItem.total_price i + acc) 0 l
               = foldr Z.add 0 (OrderItem.total_price <$> l)) as Hfold.
  { induction l as [| i l IH]; cbn; [done | by rewrite IH]. }
  destruct rows as [| i rows]; [done |].
  unfold Sum_total_price, or_zero. rewrite Hfold.
  destruct (_ =? 0) eqn:Hz; [| done]. apply Z.eqb_eq in Hz. by rewrite Hz.
Qed.

Lemma Order_update_total_amount_ok (self : Order.t) (db : DB) :
  Order.customer_id self ∈ CUSTOMERS_CUSTOMER db →
  Order_update_total_amount self db =
    Return (recomputed self db)
           (set_orders (insert (Order.order_id self) (recomputed self db)) db).
Proof.
  intros Hc. unfold Order_update_total_amount. munfold.
  rewrite or_zero_Sum. fold (live_total (Order.order_id self) db).
  fold (recomputed self db). by rewrite Order_save_ok.
Qed.

Lemma Order_update_total_amount_invalid_customer (self : Order.t) (db : DB) :
  Order.customer_id self ∉ CUSTOMERS_CUSTOMER db →
  Order_update_total_amount self db = Raise (ValueError "Invalid customer ID") db.
Proof.
  intros Hc. unfold Order_update_total_amount. munfold.
  by rewrite Order_save_invalid_customer.
Qed.

(** [OrderItem.save], branch by branch. *)
Lemma OrderItem_save_cases (force_insert : bool) (self : OrderItem.t) (order : Order.t) (db : DB) :
  OrderItem_save force_insert self order db =
  match PRODUCT_APP_PRODUCT db !! OrderItem.product_id self with
  | None => Raise (ValueError "Invalid product ID") db
  | Some available_stock =>
      if available_stock <? OrderItem.quantity self
      then Raise (ValueError "Insufficient stock for product") db
      else if force_insert &&
              bool_decide (is_Some (ORDER_APP_ORDER_ITEM db !! OrderItem.order_item_id self))
      then Raise IntegrityError db
      else if decide (Order.customer_id order ∈ CUSTOMERS_CUSTOMER db)
      then Return (priced self, recomputed order (item_written self db))
                  (item_added self order db)
      else Raise (ValueError "Invalid customer ID") (item_written self db)
  end.
Proof.
  unfold OrderItem_save. munfold.
  destruct (PRODUCT_APP_PRODUCT db !! _) as [stock |]; [| done].
  destruct (stock <? _); [done |].
  unfold OrderItem_super_save. munfold. fold (priced self).
  destruct (force_insert && _); [done |].
  fold (item_written self db).
  case_decide as Hc.
  - rewrite Order_update_total_amount_ok by done. done.
  - rewrite Order_update_total_amount_invalid_customer by done. done.
Qed.

(** ** Sums over the item table *)

Lemma foldr_add_Permutation (l1 l2 : list Z) : l1 ≡ₚ l2 → foldr Z.add 0 l1 = foldr Z.add 0 l2.
Proof. induction 1; cbn; lia. Qed.

Lemma live_total_Permutation (order_id : string) (db1 db2 : DB) :
  order_items order_id db1 ≡ₚ order_items order_id db2 →
  live_total order_id db1 = live_total order_id db2.
Proof. intros Hp. unfold live_total. apply foldr_add_Permutation. by rewrite Hp. Qed.

Lemma order_items_insert_fresh (order_id : string) (pk : Z) (item : OrderItem.t) (db : DB) :
  ORDER_APP_ORDER_ITEM db !! pk = None →
  order_items order_id (set_order_items (insert pk item) db) ≡ₚ
    (if decide (OrderItem.order item = order_id) then [item] else []) ++ order_items order_id db.
Proof.
  intros Hfresh. unfold order_items. cbn [ORDER_APP_ORDER_ITEM set_order_items].
  rewrite map_to_list_insert by done. rewrite fmap_cons, filter_cons. cbn [snd].
  by case_decide.
Qed.

Lemma order_items_delete (order_id : string) (pk : Z) (item : OrderItem.t) (db : DB) :
  ORDER_APP_ORDER_ITEM db !! pk = Some item →
  order_items order_id db ≡ₚ
    (if decide (OrderItem.order item = order_id) then [item] else [])
      ++ order_items order_id (set_order_items (delete pk) db).
Proof.
  intros Hitem. unfold order_items. cbn [ORDER_APP_ORDER_ITEM set_order_items].
  rewrite <- (map_to_list_delete _ _ _ Hitem). rewrite fmap_cons, filter_cons. cbn [snd].
  by case_decide.
Qed.

Lemma live_total_insert_other (order_id : string) (pk : Z) (item : OrderItem.t) (db : DB) :
  ORDER_APP_ORDER_ITEM db !! pk = None →
  OrderItem.order item ≠ order_id →
  live_total order_id (set_order_items (insert pk item) db) = live_total order_id db.
Proof.
  intros Hfresh Hne. apply live_total_Permutation.
  rewrite order_items_insert_fresh by done. by rewrite decide_False.
Qed.

Lemma live_total_insert_own (pk : Z) (item : OrderItem.t) (db : DB) :
  ORDER_APP_ORDER_ITEM db !! pk = None →
  live_total (OrderItem.order item) (set_order_items (insert pk item) db)
    = OrderItem.total_price item + live_total (OrderItem.order item) db.
Proof.
  intros Hfresh. unfold live_total.
  rewrite (foldr_add_Permutation _ (OrderItem.total_price item ::
             (OrderItem.total_price <$> order_items (OrderItem.order item) db))); [done |].
  rewrite order_items_insert_fresh by done. by rewrite decide_True.
Qed.

Lemma live_total_delete_other (order_id : string) (pk : Z) (item : OrderItem.t) (db : DB) :
  ORDER_APP_ORDER_ITEM db !! pk = Some item →
  OrderItem.order item ≠ order_id →
  live_total order_id (set_order_items (delete pk) db) = live_total order_id db.
Proof.
  intros Hitem Hne. apply live_total_Permutation.
  rewrite (order_items_delete order_id pk item db) by done. by rewrite decide_False.
Qed.

Lemma live_total_delete_own (pk : Z) (item : OrderItem.t) (db : DB) :
  ORDER_APP_ORDER_ITEM db !! pk = Some item →
  live_total (OrderItem.order item) (set_order_items (delete pk) db)
    = live_total (OrderItem.order item) db - OrderItem.total_price item.
Proof.
  intros Hitem. unfold live_total at 2.
  rewrite (foldr_add_Permutation _ (OrderItem.total_price item ::
             (OrderItem.total_price <$>
                order_items (OrderItem.order item) (set_order_items (delete pk) db)))).
  - cbn [foldr]. unfold live_total. lia.
  - rewrite (order_items_delete _ pk item db) by done. by rewrite decide_True.
Qed.

(** ** Adding and removing items *)

Lemma bind_Return_inv {A B} (m : M A) (f : A → M B) (db db'' : DB) (b : B) :
  (m ≫= f) db = Return b db'' → ∃ a db', m db = Return a db' ∧ f a db' = Return b db''.
Proof. munfold. destruct (m db) as [a db' | |]; [eauto | done..]. Qed.

Lemma OrderItem_save_insufficient_stock
    (force_insert : bool) (self : OrderItem.t) (order : Order.t) (db : DB) (stock : Z) :
  PRODUCT_APP_PRODUCT db !! OrderItem.product_id self = Some stock →
  stock < OrderItem.quantity self →
  OrderItem_save force_insert self order db
    = Raise (ValueError "Insufficient stock for product") db.
Proof.
  intros Hstock Hlt. rewrite OrderItem_save_cases, Hstock.
  apply Z.ltb_lt in Hlt. by rewrite Hlt.
Qed.

(** C3.  When the stock of the product is below the requested quantity,
    adding the item raises the insufficient-stock error and the store it
    leaves is the store it found: same stock, no item row, same totals.
    This holds for the save itself and for the view around it; and the
    view, whatever the items of the request and whatever it raises, leaves
    the store it found. *)
Theorem insufficient_stock_fails_atomically
    (order : Order.t) (d : OrderItemData) (db : DB) (stock : Z) :
  PRODUCT_APP_PRODUCT db !! data_product_id d = Some stock →
  stock < data_quantity d →
  OrderItem_create order d db = Raise (ValueError "Insufficient stock for product") db ∧
  (∀ order_id, ORDER_APP_ORDER db !! order_id = Some order →
     OrderItemViewSet_create (Some order_id) [d] db
       = Raise (ValueError "Insufficient stock for product") db) ∧
  (∀ order_id order_items_data e db',
     OrderItemViewSet_create order_id order_items_data db = Raise e db' → db' = db).
Proof.
  intros Hstock Hlt.
  assert (OrderItem_create order d db = Raise (ValueError "Insufficient stock for product") db)
    as Hcreate by (by eapply OrderItem_save_insufficient_stock).
  split_and!; [done | |].
  - intros order_id Horder.
    unfold OrderItemViewSet_create, get_Order_or_404, atomic. munfold.
    cbn [option_bind create_items]. rewrite Horder. munfold. by rewrite Hcreate.
  - intros order_id data e db'.
    unfold OrderItemViewSet_create, get_Order_or_404, atomic. munfold.
    destruct (option_bind _ _ _ order_id) as [o |]; [| by intros [= _ <-]].
    destruct (create_items o data db) as [created db1 | e1 db1 |]; [done | | done].
    by intros [= _ <-].
Qed.

Lemma insufficient_stock_in_shop :
  OrderItem_create order_1 (mkItemData 7 "p1" 11 250) shop
    = Raise (ValueError "Insufficient stock for product") shop ∧
  OrderItemViewSet_create (Some "1000000"%string) [mkItemData 7 "p1" 11 250] shop
    = Raise (ValueError "Insufficient stock for product") shop.
Proof.
  destruct (insufficient_stock_fails_atomically order_1 (mkItemData 7 "p1" 11 250) shop 10)
    as (Hsave & Hview & _); [reflexivity | reflexivity |].
  exact (conj Hsave (Hview "1000000"%string eq_refl)).
Defined.



Lemma OrderItemViewSet_destroy_cases (order_id : option string) (pk : Z) (db : DB) :
  OrderItemViewSet_destroy order_id pk db =
  match ORDER_APP_ORDER_ITEM db !! pk with
  | None => Raise OrderItemNotFoundException db
  | Some item =>
      if truthy order_id && negb (bool_decide (Some (OrderItem.order item) = order_id))
      then Raise OrderItemNotFoundException db
      else match ORDER_APP_ORDER db !! OrderItem.order item with
           | None => Raise DoesNotExist db
           | Some order =>
               if decide (Order.customer_id order ∈ CUSTOMERS_CUSTOMER db)
               then Return (mkResponse (message "Order item deleted") HTTP_204_NO_CONTENT)
                           (item_removed item order db)
               else Raise (ValueError "Invalid customer ID") db
           end
  end.
Proof.
  unfold OrderItemViewSet_destroy, OrderItemViewSet_get_object, OrderItem_order,
    OrderItem_delete, atomic.
  munfold.
  destruct (ORDER_APP_ORDER_ITEM db !! pk) as [item |]; [| done].
  destruct (truthy order_id && _); [done |]. munfold.
  destruct (ORDER_APP_ORDER db !! _) as [order |]; [| done]. munfold.
  case_decide as Hc.
  - rewrite Order_update_total_amount_ok by done. done.
  - rewrite Order_update_total_amount_invalid_customer by done. done.
Qed.

Lemma OrderItem_create_consistent
    (order : Order.t) (d : OrderItemData) (db : DB)
    (item : OrderItem.t) (order' : Order.t) (db' : DB) :
  OrderItem_create order d db = Return (item, order') db' →
  Order.order_id order' = Order.order_id order ∧
  total_consistent (Order.order_id order) db' ∧
  (∀ order_id, total_consistent order_id db → total_consistent order_id db').
Proof.
  unfold OrderItem_create. rewrite OrderItem_save_cases.
  set (self := OrderItem.mk _ _ _ _ _ _).
  destruct (PRODUCT_APP_PRODUCT db !! _) as [stock |]; [| done].
  destruct (stock <? _); [done |]. cbn [andb].
  case_bool_decide as Hfresh; [done |].
  case_decide; [| done]. intros [= <- <- <-].
  assert (ORDER_APP_ORDER_ITEM db !! OrderItem.order_item_id self = None) as Hnone.
  { destruct (ORDER_APP_ORDER_ITEM db !! _) eqn:E; [| done]. destruct Hfresh. by eexists. }
  assert (total_consistent (Order.order_id order) (item_added self order db)) as Hown.
  { eexists. split; [apply lookup_insert_eq | done]. }
  split_and!; [done.. |].
  intros order_id (o & Ho & Htotal).
  destruct (decide (order_id = Order.order_id order)) as [-> | Hne]; [done |].
  exists o. split.
  - unfold item_added; cbn [ORDER_APP_ORDER set_products set_orders].
    rewrite lookup_insert_ne by done. done.
  - rewrite Htotal. symmetry.
    apply (live_total_insert_other order_id _ (priced self) db); [done |].
    cbn. congruence.
Qed.

Lemma create_items_consistent (order_items_data : list OrderItemData) :
  ∀ (order : Order.t) (db : DB) (created : list OrderItem.t) (db' : DB),
  create_items order order_items_data db = Return created db' →
  (order_items_data ≠ [] → total_consistent (Order.order_id order) db') ∧
  (∀ order_id, total_consistent order_id db → total_consistent order_id db').
Proof.
  induction order_items_data as [| d rest IH]; intros order db created db' Hrun.
  - cbn [create_items] in Hrun. munfold. injection Hrun as <- <-. done.
  - cbn [create_items] in Hrun.
    apply bind_Return_inv in Hrun as ([item order1] & db1 & Hone & Hrun).
    apply bind_Return_inv in Hrun as (created' & db2 & Hrest & Hret).
    munfold. injection Hret as <- <-.
    apply OrderItem_create_consistent in Hone as (Hid & Hown & Hframe).
    apply IH in Hrest as [Hlast Hframe']. split; [| by auto].
    intros _. by apply Hframe'.
Qed.

(** C2.  After an item is added ([OrderItem.objects.create], and the view
    that adds the items of a request) and after an item is removed
    ([OrderItemViewSet.destroy]), the [total_amount] of the parent order is
    the sum of [total_price] over its live items, and every other order
    whose total was that sum before still has it; the sum, and so the
    total, is 0 for an order without items. *)
Theorem total_amount_is_sum_of_live_items :
  (∀ order d db item order' db',
     OrderItem_create order d db = Return (item, order') db' →
     total_consistent (Order.order_id order) db' ∧
     (∀ order_id, total_consistent order_id db → total_consistent order_id db')) ∧
  (∀ order_id order_items_data db r db',
     keyed_by_order_id db →
     order_items_data ≠ [] →
     OrderItemViewSet_create (Some order_id) order_items_data db = Return r db' →
     total_consistent order_id db' ∧
     (∀ order_id', total_consistent order_id' db → total_consistent order_id' db')) ∧
  (∀ kwarg pk db r db',
     keyed_by_order_id db →
     keyed_by_order_item_id db →
     OrderItemViewSet_destroy kwarg pk db = Return r db' →
     ∃ item, ORDER_APP_ORDER_ITEM db !! pk = Some item ∧
       total_consistent (OrderItem.order item) db' ∧
       (∀ order_id, total_consistent order_id db → total_consistent order_id db')) ∧
  (∀ order_id order db,
     ORDER_APP_ORDER db !! order_id = Some order →
     total_consistent order_id db →
     order_items order_id db = [] →
     Order.total_amount order = 0).
Proof.
  split_and!.
  - intros order d db item order' db' Hrun.
    by apply OrderItem_create_consistent in Hrun as (_ & ? & ?).
  - intros order_id data db r db' Hkeyed Hne.
    unfold OrderItemViewSet_create, get_Order_or_404, atomic. munfold. cbn [option_bind].
    destruct (ORDER_APP_ORDER db !! order_id) as [order |] eqn:Horder; [| done]. munfold.
    destruct (create_items order data db) as [created db1 | |] eqn:Hloop; [| done..].
    intros [= <- <-].
    apply create_items_consistent in Hloop as [Hown Hframe].
    rewrite (Hkeyed _ _ Horder) in Hown. auto.
  - intros kwarg pk db r db' Hkeyed Hkeyed_items. rewrite OrderItemViewSet_destroy_cases.
    destruct (ORDER_APP_ORDER_ITEM db !! pk) as [item |] eqn:Hitem; [| done].
    destruct (truthy kwarg && _); [done |].
    destruct (ORDER_APP_ORDER db !! _) as [order |] eqn:Horder; [| done].
    case_decide; [| done]. intros [= <- <-].
    pose proof (Hkeyed _ _ Horder) as Hid. pose proof (Hkeyed_items _ _ Hitem) as Hpk.
    assert (total_consistent (OrderItem.order item) (item_removed item order db)) as Hown.
    { exists (recomputed order (set_order_items (delete (OrderItem.order_item_id item)) db)).
      unfold item_removed; cbn [ORDER_APP_ORDER set_orders]. rewrite Hid.
      split; [apply lookup_insert_eq |]. cbn. by rewrite Hid. }
    exists item. split_and!; [done.. |].
    intros order_id (o & Ho & Htotal).
    destruct (decide (order_id = OrderItem.order item)) as [-> | Hne]; [done |].
    exists o. split.
    + unfold item_removed; cbn [ORDER_APP_ORDER set_orders].
      rewrite lookup_insert_ne by congruence. done.
    + rewrite Htotal. symmetry.
      change (live_total order_id (item_removed item order db))
        with (live_total order_id (set_order_items (delete (OrderItem.order_item_id item)) db)).
      rewrite Hpk.
      apply (live_total_delete_other order_id pk item db); [done | congruence].
  - intros order_id order db Horder (o & Ho & Htotal) Hnone.
    assert (o = order) as -> by congruence.
    rewrite Htotal. unfold live_total. by rewrite Hnone.
Qed.

Lemma keyed_shop_with_item :
  keyed_by_order_id shop_with_item ∧ keyed_by_order_item_id shop_with_item.
Proof.
  split.
  - intros k o H. cbv beta iota delta [shop_with_item ORDER_APP_ORDER] in H.
    apply lookup_singleton_Some in H as [<- <-]. reflexivity.
  - intros k i H. cbv beta iota delta [shop_with_item ORDER_APP_ORDER_ITEM] in H.
    apply lookup_singleton_Some in H as [<- <-]. reflexivity.
Defined.

Lemma totals_in_shop :
  total_consistent "1000000" shop_with_item ∧
  total_consistent "1000000" shop_after_removal ∧
  Order.total_amount order_1 = 0.
Proof.
  destruct total_amount_is_sum_of_live_items as (Hadd & _ & Hremove & Hempty).
  destruct (Hadd order_1 (mkItemData 7 "p1" 3 250) shop item_7
              (Order.set_total_amount 750 order_1) shop_with_item) as [Hitem _];
    [vm_compute; reflexivity |].
  destruct (Hremove None 7 shop_with_item
              (mkResponse (message "Order item deleted") HTTP_204_NO_CONTENT)
              shop_after_removal (proj1 keyed_shop_with_item) (proj2 keyed_shop_with_item))
    as (item & Hlookup & Hremoved & _); [vm_compute; reflexivity |].
  assert (OrderItem.order item = "1000000"%string) as Horder
    by (vm_compute in Hlookup; injection Hlookup as <-; reflexivity).
  rewrite Horder in Hremoved.
  split_and!; [exact Hitem | exact Hremoved |].
  apply (Hempty "1000000"%string order_1 shop_after_removal);
    [reflexivity | exact Hremoved | vm_compute; reflexivity].
Defined.

(** ** Parts of the store a handler leaves alone *)

Section Frame.
Context {T : Type} (proj : DB → T).

Lemma preserves_ret {A} (a : A) : preserves proj (mret a).
Proof. intros db db' H. cbn in H. by subst. Qed.

Lemma preserves_raise {A} (e : exn) : preserves proj (raise e : M A).
Proof. intros db db' H. cbn in H. by subst. Qed.

Lemma preserves_spin {A} : preserves proj (spin : M A).
Proof. intros db db' H. done. Qed.

Lemma preserves_get : preserves proj get.
Proof. intros db db' H. cbn in H. by subst. Qed.

Lemma preserves_modify (f : DB → DB) :
  (∀ db, proj (f db) = proj db) → preserves proj (modify f).
Proof. intros Hf db db' H. cbn in H. by subst. Qed.

Lemma preserves_bind {A B} (m : M A) (f : A → M B) :
  preserves proj m → (∀ a, preserves proj (f a)) → preserves proj (m ≫= f).
Proof.
  intros Hm Hf db db'. munfold.
  destruct (m db) as [a db1 | e db1 |] eqn:Em; [| | done].
  - intros H. rewrite (Hf a db1 db' H). apply Hm. by rewrite Em.
  - intros H. apply Hm. by rewrite Em.
Qed.

Lemma preserves_atomic {A} (m : M A) : preserves proj m → preserves proj (atomic m).
Proof.
  intros Hm db db'. unfold atomic.
  destruct (m db) as [a db1 | e db1 |] eqn:Em; [| | done].
  - intros H. apply Hm. by rewrite Em.
  - intros H. cbn in H. by subst.
Qed.

Lemma preserves_if {A} (b : bool) (m1 m2 : M A) :
  preserves proj m1 → preserves proj m2 → preserves proj (if b then m1 else m2).
Proof. by destruct b. Qed.
End Frame.

Ltac frame_step :=
  lazymatch goal with
  | |- preserves _ (mret _) => apply preserves_ret
  | |- preserves _ (raise _) => apply preserves_raise
  | |- preserves _ spin => apply preserves_spin
  | |- preserves _ get => apply preserves_get
  | |- preserves _ (atomic _) => apply preserves_atomic
  | |- preserves _ (modify _) => apply preserves_modify; intros; first [reflexivity | auto]
  | |- preserves _ (_ ≫= _) => apply preserves_bind; [| intros ?; cbn beta]
  | |- preserves _ (if _ then _ else _) => apply preserves_if
  | |- preserves _ (match ?x with _ => _ end) => destruct x
  end.

Ltac frame := repeat frame_step.

Lemma Order_save_preserves {T} (proj : DB → T) (self : Order.t) :
  (∀ f db, proj (set_orders f db) = proj db) → preserves proj (Order_save self).
Proof. intros Hp. unfold Order_save. frame. Qed.

Lemma Order_update_total_amount_preserves {T} (proj : DB → T) (self : Order.t) :
  (∀ f db, proj (set_orders f db) = proj db) → preserves proj (Order_update_total_amount self).
Proof. intros Hp. unfold Order_update_total_amount. frame. by apply Order_save_preserves. Qed.

Lemma OrderItem_save_preserves_payments
    (force_insert : bool) (self : OrderItem.t) (order : Order.t) :
  preserves ORDER_APP_PAYMENT (OrderItem_save force_insert self order).
Proof.
  unfold OrderItem_save, OrderItem_super_save, decrement_stock. frame.
  by apply Order_update_total_amount_preserves.
Qed.

Lemma create_items_preserves_payments (order_items_data : list OrderItemData) :
  ∀ order, preserves ORDER_APP_PAYMENT (create_items order order_items_data).
Proof.
  induction order_items_data as [| d rest IH]; intros order; cbn [create_items]; frame.
  - apply OrderItem_save_preserves_payments.
  - apply IH.
Qed.

Lemma OrderItemViewSet_create_preserves_payments
    (order_id : option string) (order_items_data : list OrderItemData) :
  preserves ORDER_APP_PAYMENT (OrderItemViewSet_create order_id order_items_data).
Proof.
  unfold OrderItemViewSet_create, get_Order_or_404. frame.
  apply create_items_preserves_payments.
Qed.

Lemma OrderItemViewSet_destroy_preserves {T} (proj : DB → T) (order_id : option string) (pk : Z) :
  (∀ f db, proj (set_orders f db) = proj db) →
  (∀ f db, proj (set_order_items f db) = proj db) →
  preserves proj (OrderItemViewSet_destroy order_id pk).
Proof.
  intros Ho Hi.
  unfold OrderItemViewSet_destroy, OrderItemViewSet_get_object, OrderItem_order,
    OrderItem_delete.
  frame.
  by apply Order_update_total_amount_preserves.
Qed.

(** ** Removing an item *)

(** C8, as the specification states it, fails on this store: the item is
    there, but the customer of its order has left the customer table, so
    the recomputation cannot save the order, the transaction is rolled back
    and the item stays. *)
Lemma remove_item_refused_when_customer_gone :
  ORDER_APP_ORDER_ITEM (customer_gone shop_with_item) !! 7 = Some item_7 ∧
  OrderItemViewSet_destroy None 7 (customer_gone shop_with_item)
    = Raise (ValueError "Invalid customer ID") (customer_gone shop_with_item).
Proof. split; vm_compute; reflexivity. Qed.

(** C8, amended.  For an item in the store whose parent order still has its
    customer in the customer table, [OrderItemViewSet.destroy] answers 204,
    the item row is gone, every other item row is as before, the parent
    order carries the total recomputed over the remaining items, which is
    the former sum less the price of the item, and the product table, stock
    included, is as before.  Whatever the outcome, the product table is
    never written. *)
Theorem remove_item_deletes_recomputes_keeps_stock
    (kwarg : option string) (pk : Z) (db : DB) (item : OrderItem.t) (order : Order.t) :
  ORDER_APP_ORDER_ITEM db !! pk = Some item →
  OrderItem.order_item_id item = pk →
  kwarg = None ∨ kwarg = Some (OrderItem.order item) →
  ORDER_APP_ORDER db !! OrderItem.order item = Some order →
  Order.order_id order = OrderItem.order item →
  Order.customer_id order ∈ CUSTOMERS_CUSTOMER db →
  (∃ db',
     OrderItemViewSet_destroy kwarg pk db
       = Return (mkResponse (message "Order item deleted") HTTP_204_NO_CONTENT) db' ∧
     ORDER_APP_ORDER_ITEM db' = delete pk (ORDER_APP_ORDER_ITEM db) ∧
     ORDER_APP_ORDER_ITEM db' !! pk = None ∧
     total_consistent (OrderItem.order item) db' ∧
     live_total (OrderItem.order item) db'
       = live_total (OrderItem.order item) db - OrderItem.total_price item ∧
     PRODUCT_APP_PRODUCT db' = PRODUCT_APP_PRODUCT db) ∧
  preserves PRODUCT_APP_PRODUCT (OrderItemViewSet_destroy kwarg pk).
Proof.
  intros Hitem Hpk Hkwarg Horder Hid Hcustomer.
  split; [| by apply OrderItemViewSet_destroy_preserves].
  rewrite OrderItemViewSet_destroy_cases, Hitem.
  assert (truthy kwarg && negb (bool_decide (Some (OrderItem.order item) = kwarg)) = false)
    as ->.
  { destruct Hkwarg as [-> | ->]; [done |].
    rewrite bool_decide_true by done. apply andb_false_r. }
  rewrite Horder, decide_True by done.
  eexists. split; [reflexivity |].
  unfold item_removed; cbn [ORDER_APP_ORDER_ITEM PRODUCT_APP_PRODUCT set_orders set_order_items].
  rewrite Hpk. split_and!; [done | apply lookup_delete_eq | | | done].
  - eexists. cbn [ORDER_APP_ORDER set_orders set_order_items]. rewrite Hid.
    split; [apply lookup_insert_eq |]. cbn. by rewrite Hid.
  - by apply (live_total_delete_own pk item db).
Qed.

Lemma remove_item_in_shop :
  OrderItemViewSet_destroy None 7 shop_with_item
    = Return (mkResponse (message "Order item deleted") HTTP_204_NO_CONTENT) shop_after_removal ∧
  ORDER_APP_ORDER_ITEM shop_after_removal !! 7 = None ∧
  live_total "1000000" shop_after_removal = 0 ∧
  PRODUCT_APP_PRODUCT shop_after_removal !! "p1"%string = Some 7.
Proof.
  destruct (remove_item_deletes_recomputes_keeps_stock None 7 shop_with_item item_7
              (Order.set_total_amount 750 order_1))
    as [(db' & Hrun & _ & Hgone & _ & Htotal & Hstock) _];
    [reflexivity | reflexivity | by left | reflexivity | reflexivity
    | vm_compute; reflexivity |].
  assert (db' = shop_after_removal) as ->.
  { assert (OrderItemViewSet_destroy None 7 shop_with_item
            = Return (mkResponse (message "Order item deleted") HTTP_204_NO_CONTENT)
                     shop_after_removal) as Hrun' by (vm_compute; reflexivity).
    rewrite Hrun in Hrun'. by injection Hrun'. }
  split_and!; [exact Hrun | exact Hgone | exact Htotal | by rewrite Hstock].
Defined.

(** ** Payments *)

Lemma Payment_save_cases (now : Z) (draws : list Z) (self : Payment.t) (db : DB) :
  Payment_save now draws self db =
  if String.eqb (Payment.payment_status self) "success" then
    match (if truthy (Payment.transaction_id self)
           then Some (Payment.transaction_id self)
           else Some <$> generate_transaction_id draws db) with
    | None => Running
    | Some transaction_id =>
        match ORDER_APP_ORDER db !! Payment.order self with
        | None => Raise DoesNotExist db
        | Some order =>
            Return (paid now transaction_id order self)
                   (set_payments (insert (Payment.payment_id self)
                                         (paid now transaction_id order self)) db)
        end
    end
  else
    Return (cleared self) (set_payments (insert (Payment.payment_id self) (cleared self)) db).
Proof.
  unfold Payment_save, Payment_order. munfold.
  destruct (String.eqb _ "success"); [| done].
  destruct (truthy _); cbn [negb]; munfold.
  - destruct (ORDER_APP_ORDER db !! _); done.
  - destruct (generate_transaction_id draws db); cbn [fmap option_fmap option_map]; [| done].
    destruct (ORDER_APP_ORDER db !! _); done.
Qed.

Lemma transaction_exists_false (transaction_id : string) (db : DB) :
  transaction_exists transaction_id db = false ↔
  ∀ pk p, ORDER_APP_PAYMENT db !! pk = Some p → Payment.transaction_id p ≠ Some transaction_id.
Proof.
  unfold transaction_exists. rewrite bool_decide_eq_false, <- Forall_Exists_neg, Forall_forall.
  split.
  - intros Hall pk p Hp. apply Hall, list_elem_of_fmap. exists (pk, p).
    split; [done |]. by apply elem_of_map_to_list.
  - intros Hall p Hin. apply list_elem_of_fmap in Hin as ([pk p'] & -> & Hin).
    apply elem_of_map_to_list in Hin. by eapply Hall.
Qed.

(** The transaction identifier generator returns twelve digits that no
    payment in the store carries, and returns as soon as a draw is free. *)
Lemma generate_transaction_id_twelve_digits_fresh (draws : list Z) (db : DB) :
  (∀ t, generate_transaction_id draws db = Some t →
        Py.numeric_string 12 t ∧ transaction_exists t db = false) ∧
  (Exists (λ r, transaction_exists (Py.slice_to 12 (Py.str (Py.uuid4_int r))) db = false) draws →
   is_Some (generate_transaction_id draws db)).
Proof.
  split.
  - induction draws as [| r draws IH]; intros t Hgen; cbn [generate_transaction_id] in Hgen.
    + discriminate.
    + destruct (transaction_exists _ db) eqn:Hex; cbn [negb] in Hgen; [by apply IH |].
      injection Hgen as <-. split; [apply uuid4_prefix_12_digits | done].
  - induction 1 as [r draws Hfree | r draws _ IH]; cbn [generate_transaction_id].
    + rewrite Hfree. by eexists.
    + destruct (transaction_exists _ db); cbn [negb]; [done | by eexists].
Qed.

Lemma truthy_Some (t : string) : t ≠ ""%string → truthy (Some t) = true.
Proof. intros Ht. cbn. apply negb_true_iff, String.eqb_neq. done. Qed.

(** C1, as the specification states it, fails on this payment: it carries
    the identifier assigned when it was confirmed, and saving it with the
    status pending writes it back without identifier. *)
Lemma transaction_id_cleared_by_pending_save :
  ORDER_APP_PAYMENT shop_paid !! 9 = Some payment_9_paid ∧
  Payment.transaction_id payment_9_paid = Some "302240678275"%string ∧
  Payment_save 1700000001 [] (Payment.set_payment_status "pending" payment_9_paid) shop_paid
    = Return (Payment.mk 9 "1000000" None "upi" None None "pending")
             (set_payments (insert 9 (Payment.mk 9 "1000000" None "upi" None None "pending"))
                shop_paid) ∧
  Payment.transaction_id (Payment.mk 9 "1000000" None "upi" None None "pending")
    ≠ Some "302240678275"%string.
Proof. split_and!; [vm_compute; reflexivity.. | discriminate]. Qed.

(** C1, amended.  For a payment that carries a transaction identifier,
    a save with the status success keeps the identifier, in the instance
    and in the row it writes, and draws no new one; a save with any other
    status (pending, failed) sets it to null. *)
Theorem transaction_id_kept_by_success_cleared_otherwise
    (now : Z) (draws : list Z) (payment : Payment.t) (t new_status : string)
    (db : DB) (saved : Payment.t) (db' : DB) :
  Payment.transaction_id payment = Some t →
  t ≠ ""%string →
  Payment_save now draws (Payment.set_payment_status new_status payment) db
    = Return saved db' →
  ORDER_APP_PAYMENT db' !! Payment.payment_id payment = Some saved ∧
  (new_status = "success"%string → Payment.transaction_id saved = Some t) ∧
  (new_status ≠ "success"%string → Payment.transaction_id saved = None).
Proof.
  intros Ht Hne. rewrite Payment_save_cases.
  cbn [Payment.set_payment_status Payment.payment_status Payment.transaction_id
       Payment.payment_id Payment.order].
  rewrite Ht, truthy_Some by done.
  destruct (String.eqb new_status "success") eqn:Hs.
  - apply String.eqb_eq in Hs.
    destruct (ORDER_APP_ORDER db !! _); [| done]. intros [= <- <-].
    cbn [ORDER_APP_PAYMENT set_payments]. rewrite lookup_insert_eq. done.
  - apply String.eqb_neq in Hs. intros [= <- <-].
    cbn [ORDER_APP_PAYMENT set_payments]. rewrite lookup_insert_eq. done.
Qed.

Lemma transaction_id_in_shop :
  Payment_save 1700000001 [] (Payment.set_payment_status "success" payment_9_paid) shop_paid
    = Return (Payment.mk 9 "1000000" (Some 1700000001) "upi" (Some "302240678275"%string)
                (Some 750) "success")
             (set_payments
                (insert 9 (Payment.mk 9 "1000000" (Some 1700000001) "upi"
                             (Some "302240678275"%string) (Some 750) "success"))
                shop_paid) ∧
  Payment.transaction_id
    (Payment.mk 9 "1000000" (Some 1700000001) "upi" (Some "302240678275"%string) (Some 750)
       "success")
    = Some "302240678275"%string ∧
  Payment.transaction_id (Payment.mk 9 "1000000" None "upi" None None "failed") = None.
Proof.
  assert (Payment_save 1700000001 []
            (Payment.set_payment_status "success" payment_9_paid) shop_paid
          = Return (Payment.mk 9 "1000000" (Some 1700000001) "upi"
                      (Some "302240678275"%string) (Some 750) "success")
                   (set_payments
                      (insert 9 (Payment.mk 9 "1000000" (Some 1700000001) "upi"
                                   (Some "302240678275"%string) (Some 750) "success"))
                      shop_paid)) as Hsuccess by (vm_compute; reflexivity).
  assert (Payment_save 1700000001 []
            (Payment.set_payment_status "failed" payment_9_paid) shop_paid
          = Return (Payment.mk 9 "1000000" None "upi" None None "failed")
                   (set_payments
                      (insert 9 (Payment.mk 9 "1000000" None "upi" None None "failed"))
                      shop_paid)) as Hfailed by (vm_compute; reflexivity).
  assert ("302240678275"%string ≠ ""%string) as Hne by discriminate.
  destruct (transaction_id_kept_by_success_cleared_otherwise 1700000001 [] payment_9_paid
              "302240678275" "success" shop_paid _ _ eq_refl Hne Hsuccess) as (_ & Hkept & _).
  destruct (transaction_id_kept_by_success_cleared_otherwise 1700000001 [] payment_9_paid
              "302240678275" "failed" shop_paid _ _ eq_refl Hne Hfailed) as (_ & _ & Hcleared).
  split_and!; [exact Hsuccess | exact (Hkept eq_refl) | apply Hcleared; discriminate].
Defined.

Lemma payment_of_Some (order_id : string) (db : DB) (payment : Payment.t) :
  payment_of order_id db = Some payment →
  Payment.order payment = order_id ∧
  ∃ pk, ORDER_APP_PAYMENT db !! pk = Some payment.
Proof.
  unfold payment_of. intros Hfind.
  apply fmap_Some in Hfind as ([i p] & Hfind & ->).
  apply list_find_Some in Hfind as (Hlookup & Horder & _). split; [done |].
  apply list_elem_of_lookup_2, list_elem_of_fmap in Hlookup as ([pk p'] & -> & Hin).
  exists pk. by apply elem_of_map_to_list.
Qed.

Lemma Payment_save_preserves {T} (proj : DB → T) (now : Z) (draws : list Z) (self : Payment.t) :
  (∀ f db, proj (set_payments f db) = proj db) →
  preserves proj (Payment_save now draws self).
Proof.
  intros Hp. unfold Payment_save, Payment_order. frame.
Qed.

Lemma PaymentViewSet_confirm_payment_cases
    (now : Z) (draws : list Z) (order_id : string) (db : DB) :
  PaymentViewSet_confirm_payment now draws order_id db =
  match payment_of order_id db with
  | None => Raise Http404 db
  | Some payment =>
      if String.eqb (Payment.payment_status payment) "success" then
        Return (mkResponse (message "Payment already marked as successful")
                           HTTP_400_BAD_REQUEST) db
      else
        match (if truthy (Payment.transaction_id payment)
               then Some (Payment.transaction_id payment)
               else Some <$> generate_transaction_id draws db) with
        | None => Running
        | Some t =>
            match ORDER_APP_ORDER db !! Payment.order payment with
            | None => Raise DoesNotExist db
            | Some order =>
                let saved := paid now t order (Payment.set_payment_status "success" payment) in
                let db1 := set_payments (insert (Payment.payment_id payment) saved) db in
                if decide (Order.customer_id order ∈ CUSTOMERS_CUSTOMER db) then
                  Return (mkResponse (message "Payment confirmed successfully") HTTP_200_OK)
                    (set_status_history
                       (λ h, h ++ [OrderStatusHistory.mk (Order.order_id order) "shipped"])
                       (set_orders
                          (insert (Order.order_id order) (Order.set_status "shipped" order))
                          db1))
                else Raise (ValueError "Invalid customer ID") db1
            end
        end
  end.
Proof.
  unfold PaymentViewSet_confirm_payment, get_Payment_or_404. munfold.
  destruct (payment_of order_id db) as [payment |]; [| done]. munfold.
  destruct (String.eqb _ "success"); [done |].
  rewrite Payment_save_cases.
  change (Payment.payment_status (Payment.set_payment_status "success" payment))
    with "success"%string.
  change (Payment.order (Payment.set_payment_status "success" payment))
    with (Payment.order payment).
  change (Payment.payment_id (Payment.set_payment_status "success" payment))
    with (Payment.payment_id payment).
  change (Payment.transaction_id (Payment.set_payment_status "success" payment))
    with (Payment.transaction_id payment).
  cbn [String.eqb Ascii.eqb Bool.eqb andb].
  destruct (if truthy _ then _ else _) as [t |]; [| done].
  destruct (ORDER_APP_ORDER db !! Payment.order payment) as [order |] eqn:Ho; [| done].
  cbv zeta. unfold Payment_order. munfold.
  change (Payment.order (paid now t order (Payment.set_payment_status "success" payment)))
    with (Payment.order payment).
  change (ORDER_APP_ORDER (set_payments ?f db)) with (ORDER_APP_ORDER db).
  rewrite Ho. munfold.
  case_decide as Hc.
  - rewrite Order_save_ok by done. done.
  - rewrite Order_save_invalid_customer by done. done.
Qed.

(** C7.  A save of a payment with the status success stores, as
    [amount_paid], the [total_amount] the order has in the store at that
    moment; so does the confirmation view for the payment it confirms.
    Adding and removing items, through the save, the create view or the
    destroy view, and whether they return or raise, never write the payment
    table, so the stored [amount_paid] stays what it was. *)
Theorem amount_paid_is_a_snapshot :
  (∀ now draws self db saved db',
     Payment.payment_status self = "success"%string →
     Payment_save now draws self db = Return saved db' →
     ∃ order, ORDER_APP_ORDER db !! Payment.order self = Some order ∧
       Payment.amount_paid saved = Some (Order.total_amount order) ∧
       ORDER_APP_PAYMENT db' !! Payment.payment_id self = Some saved) ∧
  (∀ now draws order_id db r db',
     PaymentViewSet_confirm_payment now draws order_id db = Return r db' →
     status r = HTTP_200_OK →
     ∃ payment order saved,
       payment_of order_id db = Some payment ∧
       ORDER_APP_ORDER db !! order_id = Some order ∧
       ORDER_APP_PAYMENT db' !! Payment.payment_id payment = Some saved ∧
       Payment.payment_status saved = "success"%string ∧
       Payment.amount_paid saved = Some (Order.total_amount order)) ∧
  (∀ force_insert self order, preserves ORDER_APP_PAYMENT (OrderItem_save force_insert self order)) ∧
  (∀ order_id order_items_data,
     preserves ORDER_APP_PAYMENT (OrderItemViewSet_create order_id order_items_data)) ∧
  (∀ order_id pk, preserves ORDER_APP_PAYMENT (OrderItemViewSet_destroy order_id pk)).
Proof.
  split_and!.
  - intros now draws self db saved db' Hstatus. rewrite Payment_save_cases, Hstatus.
    cbn [String.eqb Ascii.eqb Bool.eqb andb].
    destruct (if truthy _ then _ else _) as [t |]; [| done].
    destruct (ORDER_APP_ORDER db !! _) as [order |]; [| done]. intros [= <- <-].
    exists order. split_and!; [done.. |].
    cbn [ORDER_APP_PAYMENT set_payments]. apply lookup_insert_eq.
  - intros now draws order_id db r db'.
    rewrite PaymentViewSet_confirm_payment_cases.
    destruct (payment_of order_id db) as [payment |] eqn:Hpayment; [| done].
    destruct (String.eqb _ "success"); [by intros [= <- <-] |].
    destruct (if truthy _ then _ else _) as [t |]; [| done].
    apply payment_of_Some in Hpayment as Hp. destruct Hp as [Horder _]. rewrite Horder.
    destruct (ORDER_APP_ORDER db !! order_id) as [order |] eqn:Ho; [| done].
    cbv zeta. case_decide; [| done]. intros [= <- <-] _.
    eexists payment, order, _.
    split_and!; [done | done | apply lookup_insert_eq | done | done].
  - apply OrderItem_save_preserves_payments.
  - apply OrderItemViewSet_create_preserves_payments.
  - intros order_id pk. by apply OrderItemViewSet_destroy_preserves.
Qed.

Lemma amount_paid_in_shop :
  PaymentViewSet_confirm_payment 1700000000 [0] "1000000" shop_with_payment
    = Return (mkResponse (message "Payment confirmed successfully") HTTP_200_OK)
             shop_confirmed ∧
  Payment.amount_paid payment_9_paid = Some 750 ∧
  OrderItemViewSet_destroy None 7 shop_confirmed
    = Return (mkResponse (message "Order item deleted") HTTP_204_NO_CONTENT)
             shop_confirmed_emptied ∧
  ORDER_APP_PAYMENT shop_confirmed_emptied = ORDER_APP_PAYMENT shop_confirmed.
Proof.
  destruct amount_paid_is_a_snapshot as (_ & Hconfirm & _ & _ & Hdestroy).
  assert (PaymentViewSet_confirm_payment 1700000000 [0] "1000000" shop_with_payment
          = Return (mkResponse (message "Payment confirmed successfully") HTTP_200_OK)
                   shop_confirmed) as Hrun by (vm_compute; reflexivity).
  assert (OrderItemViewSet_destroy None 7 shop_confirmed
          = Return (mkResponse (message "Order item deleted") HTTP_204_NO_CONTENT)
                   shop_confirmed_emptied) as Hrun' by (vm_compute; reflexivity).
  destruct (Hconfirm _ _ _ _ _ _ Hrun eq_refl)
    as (payment & order & saved & Hp & Ho & Hsaved & _ & Hamount).
  vm_compute in Hp. injection Hp as <-.
  vm_compute in Ho. injection Ho as <-.
  vm_compute in Hsaved. injection Hsaved as <-.
  split_and!; [exact Hrun | exact Hamount | exact Hrun' |].
  apply (Hdestroy None 7 shop_confirmed shop_confirmed_emptied).
  rewrite Hrun'. reflexivity.
Defined.

(** Every row [Payment.save] writes without the status success has no
    transaction identifier, no date and no amount. *)
Lemma Payment_save_clears_unless_success
    (now : Z) (draws : list Z) (self saved : Payment.t) (db db' : DB) :
  Payment_save now draws self db = Return saved db' →
  Payment.payment_status saved ≠ "success"%string →
  Payment.transaction_id saved = None ∧ Payment.payment_date saved = None ∧
  Payment.amount_paid saved = None.
Proof.
  rewrite Payment_save_cases.
  destruct (String.eqb _ "success") eqn:Hs.
  - apply String.eqb_eq in Hs.
    destruct (if truthy _ then _ else _) as [t |]; [| done].
    destruct (ORDER_APP_ORDER db !! _); [| done]. by intros [= <- <-].
  - by intros [= <- <-].
Qed.

(** C5, as the specification states it, fails on this store: the payment
    is pending, but the customer of the order has left the customer table.
    The payment is saved as successful, then saving the order raises; the
    store left behind has the successful payment, the order still pending
    and no new history row. *)
Lemma confirm_payment_half_done_when_customer_gone :
  payment_of "1000000" (customer_gone shop_with_payment) = Some payment_9 ∧
  PaymentViewSet_confirm_payment 1700000000 [0] "1000000" (customer_gone shop_with_payment)
    = Raise (ValueError "Invalid customer ID")
            (set_payments (insert 9 payment_9_paid) (customer_gone shop_with_payment)) ∧
  ORDER_APP_PAYMENT (set_payments (insert 9 payment_9_paid) (customer_gone shop_with_payment))
    !! 9 = Some payment_9_paid ∧
  Order.status <$>
    ORDER_APP_ORDER (set_payments (insert 9 payment_9_paid) (customer_gone shop_with_payment))
      !! "1000000"%string = Some "pending"%string ∧
  ORDER_APP_ORDER_STATUS_HISTORY
    (set_payments (insert 9 payment_9_paid) (customer_gone shop_with_payment))
    = [OrderStatusHistory.mk "1000000" "pending"].
Proof. split_and!; vm_compute; reflexivity. Qed.

(** C5, amended.  [confirm_payment] answers 400, and writes nothing, when
    the payment of the order is already successful.  Otherwise, for a
    payment without transaction identifier (as every payment that is not
    successful is) whose order still has its customer in the customer
    table, and given a draw that no payment carries, it answers 200 and
    leaves the store with exactly three writes: the payment is successful
    with a fresh identifier of twelve digits, the current time and the
    order's total; the order is shipped; the history has one more row, for
    that order, with the status shipped. *)
Theorem confirm_payment_effects
    (now : Z) (draws : list Z) (order_id : string) (db : DB)
    (payment : Payment.t) (order : Order.t) :
  payment_of order_id db = Some payment →
  ORDER_APP_ORDER db !! order_id = Some order →
  Order.order_id order = order_id →
  (Payment.payment_status payment = "success"%string →
   PaymentViewSet_confirm_payment now draws order_id db
     = Return (mkResponse (message "Payment already marked as successful")
                          HTTP_400_BAD_REQUEST) db) ∧
  (Payment.payment_status payment ≠ "success"%string →
   Payment.transaction_id payment = None →
   Order.customer_id order ∈ CUSTOMERS_CUSTOMER db →
   Exists (λ r, transaction_exists (Py.slice_to 12 (Py.str (Py.uuid4_int r))) db = false)
          draws →
   ∃ t,
     generate_transaction_id draws db = Some t ∧
     Py.numeric_string 12 t ∧
     transaction_exists t db = false ∧
     PaymentViewSet_confirm_payment now draws order_id db
       = Return (mkResponse (message "Payment confirmed successfully") HTTP_200_OK)
           (set_status_history (λ h, h ++ [OrderStatusHistory.mk order_id "shipped"])
              (set_orders (insert order_id (Order.set_status "shipped" order))
                 (set_payments
                    (insert (Payment.payment_id payment)
                       (Payment.mk (Payment.payment_id payment) order_id (Some now)
                          (Payment.payment_method payment) (Some t)
                          (Some (Order.total_amount order)) "success"))
                    db)))).
Proof.
  intros Hpayment Horder Hid.
  pose proof (payment_of_Some _ _ _ Hpayment) as [Hfk _].
  rewrite PaymentViewSet_confirm_payment_cases, Hpayment. split.
  - intros ->. reflexivity.
  - intros Hstatus Hnone Hcustomer Hdraw.
    apply String.eqb_neq in Hstatus. rewrite Hstatus, Hnone. cbn [truthy].
    destruct (generate_transaction_id_twelve_digits_fresh draws db) as [Hgen Hterm].
    destruct (Hterm Hdraw) as [t Ht]. destruct (Hgen t Ht) as [Hdigits Hfresh].
    exists t. rewrite Ht. cbn [fmap option_fmap option_map].
    rewrite Hfk, Horder. cbv zeta. rewrite decide_True by done.
    rewrite Hid. unfold paid. cbn [Payment.set_payment_status Payment.payment_id
      Payment.order Payment.payment_method Payment.payment_status].
    rewrite Hfk. done.
Qed.

Lemma confirm_payment_in_shop :
  PaymentViewSet_confirm_payment 1700000000 [0] "1000000" shop_confirmed
    = Return (mkResponse (message "Payment already marked as successful")
                         HTTP_400_BAD_REQUEST) shop_confirmed ∧
  generate_transaction_id [0] shop_with_payment = Some "302240678275"%string ∧
  Py.numeric_string 12 "302240678275" ∧
  PaymentViewSet_confirm_payment 1700000000 [0] "1000000" shop_with_payment
    = Return (mkResponse (message "Payment confirmed successfully") HTTP_200_OK)
             shop_confirmed.
Proof.
  destruct (confirm_payment_effects 1700000000 [0] "1000000" shop_confirmed payment_9_paid
              (Order.mk "1000000" "c1" 1 750 "shipped")) as [Halready _];
    [vm_compute; reflexivity | reflexivity | reflexivity |].
  destruct (confirm_payment_effects 1700000000 [0] "1000000" shop_with_payment payment_9
              (Order.set_total_amount 750 order_1)) as [_ Hconfirm];
    [vm_compute; reflexivity | reflexivity | reflexivity |].
  destruct Hconfirm as (t & Ht & Hdigits & _ & Hrun);
    [discriminate | reflexivity | vm_compute; reflexivity
    | constructor; vm_compute; reflexivity |].
  assert (t = "302240678275"%string) as ->.
  { assert (generate_transaction_id [0] shop_with_payment = Some "302240678275"%string) as Ht'
      by (vm_compute; reflexivity).
    rewrite Ht in Ht'. by injection Ht'. }
  split_and!; [exact (Halready eq_refl) | exact Ht | exact Hdigits |].
  rewrite Hrun. vm_compute. reflexivity.
Defined.

(** ** Status transitions *)

Lemma OrderViewSet_update_status_delivered (order_id : string) (db : DB) :
  OrderViewSet_update_status order_id (Some "delivered"%string) db =
  match ORDER_APP_ORDER db !! order_id with
  | None => Raise OrderNotFoundException db
  | Some order =>
      match payment_of (Order.order_id order) db with
      | None => Raise RelatedObjectDoesNotExist db
      | Some payment =>
          if String.eqb (Payment.payment_status payment) "success" then
            if decide (Order.customer_id order ∈ CUSTOMERS_CUSTOMER db) then
              Return (mkResponse
                        (message ("Order " +:+ Order.order_id order
                                    +:+ " updated to " +:+ "delivered"))
                        HTTP_200_OK)
                (set_status_history
                   (λ h, h ++ [OrderStatusHistory.mk (Order.order_id order) "delivered"])
                   (set_orders
                      (insert (Order.order_id order) (Order.set_status "delivered" order))
                      db))
            else Raise (ValueError "Invalid customer ID") db
          else
            Return (mkResponse
                      (error "Order cannot be marked as delivered without successful payment")
                      HTTP_400_BAD_REQUEST) db
      end
  end.
Proof.
  unfold OrderViewSet_update_status, OrderViewSet_get_object, Order_payment. munfold.
  destruct (ORDER_APP_ORDER db !! order_id) as [order |]; [| done]. munfold.
  assert (in_STATUS_CHOICES "delivered" = true) as -> by (vm_compute; reflexivity).
  cbn [negb String.eqb Ascii.eqb Bool.eqb andb]. munfold.
  destruct (payment_of (Order.order_id order) db) as [payment |]; [| done]. munfold.
  destruct (String.eqb _ "success"); cbn [negb]; [| done].
  case_decide as Hc.
  - rewrite Order_save_ok by done. done.
  - rewrite Order_save_invalid_customer by done. done.
Qed.

(** C4, as the specification states it, fails on these two stores.  In the
    first the payment of the order is successful, but the customer of the
    order has left the customer table, so saving the order raises and the
    order is not delivered.  In the second the order has no payment at all:
    the transition fails, but with the [RelatedObjectDoesNotExist] of
    [order.payment], which is not one of the errors of the application. *)
Lemma delivered_refused_when_customer_gone :
  payment_of "1000000" (customer_gone shop_confirmed) = Some payment_9_paid ∧
  Payment.payment_status payment_9_paid = "success"%string ∧
  OrderViewSet_update_status "1000000" (Some "delivered"%string) (customer_gone shop_confirmed)
    = Raise (ValueError "Invalid customer ID") (customer_gone shop_confirmed) ∧
  payment_of "1000000" shop_with_item = None ∧
  OrderViewSet_update_status "1000000" (Some "delivered"%string) shop_with_item
    = Raise RelatedObjectDoesNotExist shop_with_item ∧
  domain_error RelatedObjectDoesNotExist = false.
Proof. split_and!; vm_compute; reflexivity. Qed.

(** C4, amended.  The transition to delivered fails, with the store and so
    the status of the order as before, whenever the payment of the order is
    not successful: it is answered 400 when the order has a payment whose
    status is not success, and it raises the [RelatedObjectDoesNotExist] of
    [order.payment], which is not one of the errors of the application,
    when the order has no payment.  When the payment is successful and the
    customer of the order is still in the customer table, it is answered
    200, the order is stored with the status delivered and the history has
    exactly one more row, for that order, with the status delivered. *)
Theorem delivered_requires_successful_payment
    (order_id : string) (db : DB) (order : Order.t) :
  ORDER_APP_ORDER db !! order_id = Some order →
  Order.order_id order = order_id →
  (∀ payment,
     payment_of order_id db = Some payment →
     Payment.payment_status payment ≠ "success"%string →
     OrderViewSet_update_status order_id (Some "delivered"%string) db
       = Return (mkResponse
                   (error "Order cannot be marked as delivered without successful payment")
                   HTTP_400_BAD_REQUEST) db) ∧
  (payment_of order_id db = None →
   OrderViewSet_update_status order_id (Some "delivered"%string) db
     = Raise RelatedObjectDoesNotExist db ∧
   domain_error RelatedObjectDoesNotExist = false) ∧
  (∀ payment,
     payment_of order_id db = Some payment →
     Payment.payment_status payment = "success"%string →
     Order.customer_id order ∈ CUSTOMERS_CUSTOMER db →
     OrderViewSet_update_status order_id (Some "delivered"%string) db
       = Return (mkResponse (message ("Order " +:+ order_id +:+ " updated to delivered"))
                            HTTP_200_OK)
           (set_status_history (λ h, h ++ [OrderStatusHistory.mk order_id "delivered"])
              (set_orders (insert order_id (Order.set_status "delivered" order)) db))).
Proof.
  intros Horder Hid.
  rewrite OrderViewSet_update_status_delivered, Horder, Hid. split_and!.
  - intros payment -> Hstatus. apply String.eqb_neq in Hstatus. by rewrite Hstatus.
  - by intros ->.
  - intros payment -> Hstatus Hcustomer. rewrite Hstatus.
    cbn [String.eqb Ascii.eqb Bool.eqb andb]. by rewrite decide_True.
Qed.

Lemma delivered_in_shop :
  OrderViewSet_update_status "1000000" (Some "delivered"%string) shop_with_payment
    = Return (mkResponse
                (error "Order cannot be marked as delivered without successful payment")
                HTTP_400_BAD_REQUEST) shop_with_payment ∧
  OrderViewSet_update_status "1000000" (Some "delivered"%string) shop_with_item
    = Raise RelatedObjectDoesNotExist shop_with_item ∧
  OrderViewSet_update_status "1000000" (Some "delivered"%string) shop_confirmed
    = Return (mkResponse (message "Order 1000000 updated to delivered") HTTP_200_OK)
             shop_delivered.
Proof.
  destruct (delivered_requires_successful_payment "1000000" shop_with_payment
              (Order.set_total_amount 750 order_1)) as (Hrefused & _ & _);
    [reflexivity | reflexivity |].
  destruct (delivered_requires_successful_payment "1000000" shop_with_item
              (Order.set_total_amount 750 order_1)) as (_ & Hnone & _);
    [reflexivity | reflexivity |].
  destruct (delivered_requires_successful_payment "1000000" shop_confirmed
              (Order.mk "1000000" "c1" 1 750 "shipped")) as (_ & _ & Hdelivered);
    [reflexivity | reflexivity |].
  split_and!.
  - apply (Hrefused payment_9); [vm_compute; reflexivity | discriminate].
  - apply Hnone. vm_compute. reflexivity.
  - rewrite (Hdelivered payment_9_paid);
      [vm_compute; reflexivity | vm_compute; reflexivity | reflexivity
      | vm_compute; reflexivity].
Defined.

(** C10.  For an order without payment, the transition to delivered raises
    the [RelatedObjectDoesNotExist] of the reverse accessor [order.payment],
    which is not one of the errors the application raises on purpose, and
    the store, with the status of the order and the history, is as before. *)
Theorem delivered_without_payment_raises
    (order_id : string) (db : DB) (order : Order.t) :
  ORDER_APP_ORDER db !! order_id = Some order →
  payment_of (Order.order_id order) db = None →
  OrderViewSet_update_status order_id (Some "delivered"%string) db
    = Raise RelatedObjectDoesNotExist db ∧
  domain_error RelatedObjectDoesNotExist = false.
Proof.
  intros Horder Hnone.
  by rewrite OrderViewSet_update_status_delivered, Horder, Hnone.
Qed.

Lemma delivered_without_payment_in_shop :
  OrderViewSet_update_status "1000000" (Some "delivered"%string) shop_with_item
    = Raise RelatedObjectDoesNotExist shop_with_item.
Proof.
  refine (proj1 (delivered_without_payment_raises "1000000" shop_with_item
                   (Order.set_total_amount 750 order_1) _ _)).
  - reflexivity.
  - vm_compute. reflexivity.
Defined.

(** * Further properties of the handlers *)

(** ** Properties of the store a handler keeps *)

Section Keeps.
Context (P : DB → Prop).

Lemma keeps_ret {A} (a : A) : keeps P (mret a).
Proof. intros db db' HP H. cbn in H. by subst. Qed.

Lemma keeps_raise {A} (e : exn) : keeps P (raise e : M A).
Proof. intros db db' HP H. cbn in H. by subst. Qed.

Lemma keeps_spin {A} : keeps P (spin : M A).
Proof. intros db db' HP H. done. Qed.

Lemma keeps_get : keeps P get.
Proof. intros db db' HP H. cbn in H. by subst. Qed.

Lemma keeps_modify (f : DB → DB) : (∀ db, P db → P (f db)) → keeps P (modify f).
Proof. intros Hf db db' HP H. cbn in H. subst. by apply Hf. Qed.

Lemma keeps_bind {A B} (m : M A) (f : A → M B) :
  keeps P m → (∀ a, keeps P (f a)) → keeps P (m ≫= f).
Proof.
  intros Hm Hf db db' HP. munfold.
  destruct (m db) as [a db1 | e db1 |] eqn:Em; [| | done].
  - intros H. apply (Hf a db1 db'); [| done]. apply (Hm db db1 HP). by rewrite Em.
  - intros H. apply (Hm db db' HP). by rewrite Em.
Qed.

Lemma keeps_atomic {A} (m : M A) : keeps P m → keeps P (atomic m).
Proof.
  intros Hm db db' HP. unfold atomic.
  destruct (m db) as [a db1 | e db1 |] eqn:Em; [| | done].
  - intros H. apply (Hm db db' HP). by rewrite Em.
  - intros H. cbn in H. by subst.
Qed.

Lemma keeps_if {A} (b : bool) (m1 m2 : M A) :
  keeps P m1 → keeps P m2 → keeps P (if b then m1 else m2).
Proof. by destruct b. Qed.

Lemma preserves_keeps {A T} (proj : DB → T) (m : M A) :
  (∀ db db', proj db' = proj db → P db → P db') → preserves proj m → keeps P m.
Proof. intros HP Hm db db' Hdb H. apply (HP db db'); [by apply Hm | done]. Qed.
End Keeps.

Ltac keeps_step :=
  lazymatch goal with
  | |- keeps _ (mret _) => apply keeps_ret
  | |- keeps _ (raise _) => apply keeps_raise
  | |- keeps _ spin => apply keeps_spin
  | |- keeps _ get => apply keeps_get
  | |- keeps _ (atomic _) => apply keeps_atomic
  | |- keeps _ (_ ≫= _) => apply keeps_bind; [| intros ?; cbn beta]
  | |- keeps _ (if _ then _ else _) => apply keeps_if
  | |- keeps _ (match ?x with _ => _ end) => destruct x
  end.

Ltac keeps_all := repeat keeps_step.

(** ** Items: errors and edges *)

(** X1.  An item whose product is not in the product table is refused with
    the invalid-product error before anything is written: by the save, and
    by the create view for a request of that one item. *)
Theorem unknown_product_is_refused (order : Order.t) (d : OrderItemData) (db : DB) :
  PRODUCT_APP_PRODUCT db !! data_product_id d = None →
  OrderItem_create order d db = Raise (ValueError "Invalid product ID") db ∧
  (∀ order_id, ORDER_APP_ORDER db !! order_id = Some order →
     OrderItemViewSet_create (Some order_id) [d] db
       = Raise (ValueError "Invalid product ID") db).
Proof.
  intros Hnone.
  assert (OrderItem_create order d db = Raise (ValueError "Invalid product ID") db) as Hcreate.
  { unfold OrderItem_create. rewrite OrderItem_save_cases. cbn [OrderItem.product_id].
    by rewrite Hnone. }
  split; [done |]. intros order_id Horder.
  unfold OrderItemViewSet_create, get_Order_or_404, atomic. munfold.
  cbn [option_bind create_items]. rewrite Horder. munfold. by rewrite Hcreate.
Qed.

Lemma unknown_product_in_shop :
  OrderItem_create order_1 (mkItemData 7 "p2" 1 250) shop
    = Raise (ValueError "Invalid product ID") shop ∧
  OrderItemViewSet_create (Some "1000000"%string) [mkItemData 7 "p2" 1 250] shop
    = Raise (ValueError "Invalid product ID") shop.
Proof.
  destruct (unknown_product_is_refused order_1 (mkItemData 7 "p2" 1 250) shop)
    as [Hsave Hview]; [reflexivity |].
  exact (conj Hsave (Hview "1000000"%string eq_refl)).
Defined.



(** X3.  [OrderItem.save] does not tell an update from an insert: saving
    again an item that is already stored, unchanged, checks the stock and
    decrements it by the quantity once more, while the item table stays as
    it is and the order is rewritten with the sum over its items. *)
Theorem saving_again_decrements_again
    (item : OrderItem.t) (order : Order.t) (db : DB) (stock : Z) :
  ORDER_APP_ORDER_ITEM db !! OrderItem.order_item_id item = Some item →
  OrderItem.total_price item = OrderItem.unit_price item * OrderItem.quantity item →
  PRODUCT_APP_PRODUCT db !! OrderItem.product_id item = Some stock →
  OrderItem.quantity item ≤ stock →
  Order.customer_id order ∈ CUSTOMERS_CUSTOMER db →
  ∃ db',
    OrderItem_save false item order db = Return (item, recomputed order db) db' ∧
    ORDER_APP_ORDER_ITEM db' = ORDER_APP_ORDER_ITEM db ∧
    PRODUCT_APP_PRODUCT db' !! OrderItem.product_id item
      = Some (stock - OrderItem.quantity item) ∧
    ORDER_APP_ORDER db' !! Order.order_id order = Some (recomputed order db).
Proof.
  intros Hitem Hprice Hstock Hle Hcustomer.
  assert (priced item = item) as Hpriced.
  { destruct item; cbn in *. unfold priced. cbn. by rewrite Hprice. }
  assert (ORDER_APP_ORDER_ITEM (item_written item db) = ORDER_APP_ORDER_ITEM db) as Hsame.
  { unfold item_written. cbn [ORDER_APP_ORDER_ITEM set_order_items].
    rewrite Hpriced. by apply insert_id. }
  assert (recomputed order (item_written item db) = recomputed order db) as Hrec.
  { unfold recomputed, live_total, order_items. by rewrite Hsame. }
  rewrite OrderItem_save_cases, Hstock. apply Z.ltb_ge in Hle. rewrite Hle. cbn [andb].
  rewrite decide_True by done. rewrite Hpriced, Hrec.
  eexists. split; [reflexivity |].
  unfold item_added. cbn [ORDER_APP_ORDER_ITEM PRODUCT_APP_PRODUCT ORDER_APP_ORDER
    set_products set_orders].
  split_and!; [done | | by rewrite Hrec, lookup_insert_eq].
  unfold item_written. cbn [PRODUCT_APP_PRODUCT set_order_items].
  by rewrite lookup_alter_eq, Hstock.
Qed.

Lemma saving_again_in_shop :
  ORDER_APP_ORDER_ITEM shop_with_item !! 7 = Some item_7 ∧
  PRODUCT_APP_PRODUCT shop_with_item !! "p1"%string = Some 7 ∧
  ∃ db', OrderItem_save false item_7 (Order.set_total_amount 750 order_1) shop_with_item
           = Return (item_7, Order.set_total_amount 750 order_1) db' ∧
         ORDER_APP_ORDER_ITEM db' = ORDER_APP_ORDER_ITEM shop_with_item ∧
         PRODUCT_APP_PRODUCT db' !! "p1"%string = Some 4.
Proof.
  split_and!; [reflexivity | reflexivity |].
  destruct (saving_again_decrements_again item_7 (Order.set_total_amount 750 order_1)
              shop_with_item 7) as (db' & Hrun & Hitems & Hstock & _);
    [reflexivity | reflexivity | reflexivity | cbn; lia | vm_compute; reflexivity |].
  exists db'. split_and!; [| exact Hitems | exact Hstock].
  rewrite Hrun. vm_compute. reflexivity.
Defined.

(** X4.  [OrderItemViewSet.destroy] answers not-found, and writes nothing,
    for a key that no item has, and for an item of another order than the
    one the route names. *)
Theorem destroy_of_a_missing_item_is_not_found (kwarg : option string) (pk : Z) (db : DB) :
  (ORDER_APP_ORDER_ITEM db !! pk = None →
   OrderItemViewSet_destroy kwarg pk db = Raise OrderItemNotFoundException db) ∧
  (∀ item other,
     ORDER_APP_ORDER_ITEM db !! pk = Some item →
     kwarg = Some other → other ≠ ""%string → other ≠ OrderItem.order item →
     OrderItemViewSet_destroy kwarg pk db = Raise OrderItemNotFoundException db).
Proof.
  split.
  - intros Hnone. by rewrite OrderItemViewSet_destroy_cases, Hnone.
  - intros item other Hitem -> Hne Hother.
    rewrite OrderItemViewSet_destroy_cases, Hitem.
    rewrite truthy_Some by done. rewrite bool_decide_false by congruence. done.
Qed.

Lemma destroy_missing_in_shop :
  OrderItemViewSet_destroy None 8 shop_with_item
    = Raise OrderItemNotFoundException shop_with_item ∧
  OrderItemViewSet_destroy (Some "1000001"%string) 7 shop_with_item
    = Raise OrderItemNotFoundException shop_with_item.
Proof.
  destruct (destroy_of_a_missing_item_is_not_found None 8 shop_with_item) as [Hnone _].
  destruct (destroy_of_a_missing_item_is_not_found (Some "1000001"%string) 7 shop_with_item)
    as [_ Hother].
  split.
  - apply Hnone. reflexivity.
  - apply (Hother item_7 "1000001"%string); [reflexivity | reflexivity | discriminate..].
Defined.

(** ** Requests of several items *)

Lemma OrderItem_create_effects
    (order : Order.t) (d : OrderItemData) (db : DB)
    (item : OrderItem.t) (order' : Order.t) (db' : DB) :
  OrderItem_create order d db = Return (item, order') db' →
  item = item_of (Order.order_id order) d ∧
  Order.order_id order' = Order.order_id order ∧
  ORDER_APP_ORDER_ITEM db !! uuid d = None ∧
  ORDER_APP_ORDER_ITEM db' = <[uuid d := item]> (ORDER_APP_ORDER_ITEM db) ∧
  PRODUCT_APP_PRODUCT db'
    = alter (λ stock, stock - data_quantity d) (data_product_id d) (PRODUCT_APP_PRODUCT db) ∧
  (∃ stock, PRODUCT_APP_PRODUCT db !! data_product_id d = Some stock ∧
            data_quantity d ≤ stock) ∧
  live_total (Order.order_id order) db'
    = data_unit_price d * data_quantity d + live_total (Order.order_id order) db.
Proof.
  unfold OrderItem_create. rewrite OrderItem_save_cases.
  set (self := OrderItem.mk _ _ _ _ _ _).
  destruct (PRODUCT_APP_PRODUCT db !! _) as [stock |] eqn:Hstock; [| done].
  destruct (stock <? _) eqn:Hlt; [done |]. apply Z.ltb_ge in Hlt. cbn [andb].
  case_bool_decide as Hfresh; [done |].
  case_decide; [| done]. intros [= <- <- <-].
  assert (ORDER_APP_ORDER_ITEM db !! uuid d = None) as Hnone.
  { destruct (ORDER_APP_ORDER_ITEM db !! uuid d) eqn:E; [| done]. destruct Hfresh. by eexists. }
  split_and!; [done | done | done | done | done | by exists stock |].
  change (live_total (Order.order_id order) (item_added self order db))
    with (live_total (OrderItem.order (priced self))
            (set_order_items (insert (uuid d) (priced self)) db)).
  by rewrite live_total_insert_own.
Qed.

Lemma requested_cons (product_id : string) (d : OrderItemData) (rest : list OrderItemData) :
  requested product_id (d :: rest)
  = (if decide (data_product_id d = product_id) then data_quantity d else 0)
    + requested product_id rest.
Proof. unfold requested. cbn [foldr]. case_decide; lia. Qed.

Lemma create_items_effects (order_items_data : list OrderItemData) :
  ∀ (order : Order.t) (db : DB) (created : list OrderItem.t) (db' : DB),
  create_items order order_items_data db = Return created db' →
  created = item_of (Order.order_id order) <$> order_items_data ∧
  (∀ product_id,
     PRODUCT_APP_PRODUCT db' !! product_id
     = (λ stock, stock - requested product_id order_items_data)
         <$> PRODUCT_APP_PRODUCT db !! product_id) ∧
  live_total (Order.order_id order) db'
    = live_total (Order.order_id order) db + priced_total order_items_data ∧
  (∀ pk item, ORDER_APP_ORDER_ITEM db !! pk = Some item →
              ORDER_APP_ORDER_ITEM db' !! pk = Some item) ∧
  Forall (λ d, ORDER_APP_ORDER_ITEM db' !! uuid d = Some (item_of (Order.order_id order) d))
         order_items_data.
Proof.
  induction order_items_data as [| d rest IH]; intros order db created db' Hrun.
  - cbn [create_items] in Hrun. munfold. injection Hrun as <- <-.
    split_and!; [done | | cbn; lia | done | done].
    intros p. destruct (PRODUCT_APP_PRODUCT db !! p); cbn; [f_equal; lia | done].
  - cbn [create_items] in Hrun.
    apply bind_Return_inv in Hrun as ([item order1] & db1 & Hone & Hrun).
    apply bind_Return_inv in Hrun as (created' & db2 & Hrest & Hret).
    munfold. injection Hret as <- <-.
    apply OrderItem_create_effects in Hone
      as (-> & Hid & Hfresh & Hitems & Hproducts & _ & Htotal).
    apply IH in Hrest as (-> & Hstock & Htotal' & Hkept & Hstored).
    rewrite Hid in *. split_and!.
    + done.
    + intros p. rewrite Hstock, Hproducts, requested_cons.
      destruct (decide (data_product_id d = p)) as [-> | Hne].
      * rewrite lookup_alter_eq. destruct (PRODUCT_APP_PRODUCT db !! p); cbn; [f_equal; lia | done].
      * rewrite lookup_alter_ne by done.
        destruct (PRODUCT_APP_PRODUCT db !! p); cbn; [f_equal; lia | done].
    + rewrite Htotal', Htotal. cbn [priced_total foldr]. fold (priced_total rest). lia.
    + intros pk item Hitem. apply Hkept. rewrite Hitems.
      rewrite lookup_insert_ne; [done |]. intros <-. congruence.
    + constructor; [| done]. apply Hkept. rewrite Hitems. apply lookup_insert_eq.
Qed.

(** X5.  A request of several items that the create view answers has taken
    from the stock of every product the sum of the quantities the request
    asks of that product, and nothing from the products it does not name. *)
Theorem a_request_takes_the_sum_from_stock
    (order_id : option string) (order_items_data : list OrderItemData)
    (db : DB) (r : Response) (db' : DB) :
  OrderItemViewSet_create order_id order_items_data db = Return r db' →
  ∀ product_id,
    PRODUCT_APP_PRODUCT db' !! product_id
    = (λ stock, stock - requested product_id order_items_data)
        <$> PRODUCT_APP_PRODUCT db !! product_id.
Proof.
  unfold OrderItemViewSet_create, get_Order_or_404, atomic. munfold.
  destruct (option_bind _ _ _ order_id) as [order |]; [| done].
  destruct (create_items order order_items_data db) as [created db1 | |] eqn:Hloop; [| done..].
  intros [= <- <-]. by apply create_items_effects in Hloop as (_ & Hstock & _).
Qed.

Lemma two_items_in_shop :
  OrderItemViewSet_create (Some "1000000"%string)
    [mkItemData 7 "p1" 3 250; mkItemData 8 "p1" 4 100] shop
  = Return (mkResponse (items [item_7; item_8]) HTTP_201_CREATED) shop_with_two_items ∧
  PRODUCT_APP_PRODUCT shop_with_two_items !! "p1"%string = Some (10 - (3 + 4)).
Proof.
  assert (OrderItemViewSet_create (Some "1000000"%string)
            [mkItemData 7 "p1" 3 250; mkItemData 8 "p1" 4 100] shop
          = Return (mkResponse (items [item_7; item_8]) HTTP_201_CREATED)
                   shop_with_two_items) as Hrun
    by (vm_compute; reflexivity).
  split; [exact Hrun |].
  rewrite (a_request_takes_the_sum_from_stock _ _ _ _ _ Hrun "p1"%string).
  vm_compute. reflexivity.
Defined.

(** X6.  A request of several items that the create view answers has
    stored one row per item of the request, priced
    [unit_price * quantity], answers with those rows in the order of the
    request, keeps the rows that were there, and has raised the sum over the
    live items of the order by the price of the request. *)
Theorem a_request_stores_and_prices_its_items
    (order_id : string) (order_items_data : list OrderItemData)
    (db : DB) (r : Response) (db' : DB) :
  keyed_by_order_id db →
  OrderItemViewSet_create (Some order_id) order_items_data db = Return r db' →
  r = mkResponse (items (item_of order_id <$> order_items_data)) HTTP_201_CREATED ∧
  Forall (λ d, ORDER_APP_ORDER_ITEM db' !! uuid d = Some (item_of order_id d))
         order_items_data ∧
  (∀ pk item, ORDER_APP_ORDER_ITEM db !! pk = Some item →
              ORDER_APP_ORDER_ITEM db' !! pk = Some item) ∧
  live_total order_id db' = live_total order_id db + priced_total order_items_data.
Proof.
  intros Hkeyed.
  unfold OrderItemViewSet_create, get_Order_or_404, atomic. munfold. cbn [option_bind].
  destruct (ORDER_APP_ORDER db !! order_id) as [order |] eqn:Horder; [| done]. munfold.
  destruct (create_items order order_items_data db) as [created db1 | |] eqn:Hloop; [| done..].
  intros [= <- <-].
  apply create_items_effects in Hloop as (-> & _ & Htotal & Hkept & Hstored).
  rewrite (Hkeyed _ _ Horder) in *. done.
Qed.

Lemma two_items_priced_in_shop :
  ORDER_APP_ORDER_ITEM shop_with_two_items !! 8 = Some item_8 ∧
  live_total "1000000" shop_with_two_items = 0 + (250 * 3 + (100 * 4 + 0)).
Proof.
  assert (keyed_by_order_id shop) as Hkeyed.
  { intros k o H. cbv beta iota delta [shop ORDER_APP_ORDER] in H.
    apply lookup_singleton_Some in H as [<- <-]. reflexivity. }
  destruct (a_request_stores_and_prices_its_items "1000000"
              [mkItemData 7 "p1" 3 250; mkItemData 8 "p1" 4 100] shop
              (mkResponse (items [item_7; item_8]) HTTP_201_CREATED) shop_with_two_items
              Hkeyed) as (_ & Hstored & _ & Htotal); [vm_compute; reflexivity |].
  split; [| exact Htotal].
  apply Forall_cons_1 in Hstored as [_ Hstored].
  apply Forall_cons_1 in Hstored as [Hstored _]. exact Hstored.
Defined.




(** ** The stock never goes below zero *)

Lemma OrderItem_save_keeps_stock_nonneg
    (force_insert : bool) (self : OrderItem.t) (order : Order.t) :
  keeps stock_nonneg (OrderItem_save force_insert self order).
Proof.
  intros db db' Hnonneg. rewrite OrderItem_save_cases.
  destruct (PRODUCT_APP_PRODUCT db !! _) as [stock |] eqn:Hstock; [| by intros <-].
  destruct (stock <? _) eqn:Hlt; [by intros <- |]. apply Z.ltb_ge in Hlt.
  destruct (force_insert && _); [by intros <- |].
  case_decide; cbn [leaves]; intros <-; [| done].
  intros p s. unfold item_added, item_written.
  cbn [PRODUCT_APP_PRODUCT set_products set_orders set_order_items].
  destruct (decide (OrderItem.product_id self = p)) as [<- | Hne].
  - rewrite lookup_alter_eq, Hstock. cbn. intros [= <-]. lia.
  - rewrite lookup_alter_ne by done. apply Hnonneg.
Qed.

Lemma create_items_keeps_stock_nonneg (order_items_data : list OrderItemData) :
  ∀ order, keeps stock_nonneg (create_items order order_items_data).
Proof.
  induction order_items_data as [| d rest IH]; intros order; cbn [create_items]; keeps_all.
  - apply OrderItem_save_keeps_stock_nonneg.
  - apply IH.
Qed.

Lemma create_order_items_keeps_stock_nonneg (order_items_data : list OrderItemData) :
  ∀ order, keeps stock_nonneg (create_order_items order order_items_data).
Proof.
  induction order_items_data as [| d rest IH]; intros order; cbn [create_order_items];
    keeps_all.
  - apply OrderItem_save_keeps_stock_nonneg.
  - apply IH.
Qed.

Lemma stock_nonneg_same_products (db db' : DB) :
  PRODUCT_APP_PRODUCT db' = PRODUCT_APP_PRODUCT db → stock_nonneg db → stock_nonneg db'.
Proof. unfold stock_nonneg. by intros ->. Qed.

Lemma Order_create_preserves_products (order_draws : list Z) (d : OrderData) :
  preserves PRODUCT_APP_PRODUCT (Order_create order_draws d).
Proof. unfold Order_create, Order_save_force_insert. frame. Qed.

Lemma Payment_create_preserves {T} (proj : DB → T)
    (now : Z) (draws : list Z) (order : Order.t) (d : PaymentData) :
  (∀ f db, proj (set_payments f db) = proj db) →
  preserves proj (Payment_create now draws order d).
Proof.
  intros Hp.
  unfold Payment_create, Payment_save_force_insert, Payment_assign, Payment_order. frame.
Qed.

(** X8.  No handler that touches the stock drives it below zero: if no
    product has a negative stock before, none has one after
    [OrderItem.save], the item create view, the item destroy view and the
    order create view, whether they return or raise. *)
Theorem stock_never_goes_negative :
  (∀ force_insert self order, keeps stock_nonneg (OrderItem_save force_insert self order)) ∧
  (∀ order_id order_items_data,
     keeps stock_nonneg (OrderItemViewSet_create order_id order_items_data)) ∧
  (∀ order_id pk, keeps stock_nonneg (OrderItemViewSet_destroy order_id pk)) ∧
  (∀ now order_draws draws d, keeps stock_nonneg (OrderViewSet_create now order_draws draws d)).
Proof.
  split_and!.
  - apply OrderItem_save_keeps_stock_nonneg.
  - intros order_id data. unfold OrderItemViewSet_create, get_Order_or_404. keeps_all.
    apply create_items_keeps_stock_nonneg.
  - intros order_id pk. apply (preserves_keeps _ PRODUCT_APP_PRODUCT).
    + apply stock_nonneg_same_products.
    + by apply OrderItemViewSet_destroy_preserves.
  - intros now order_draws draws d.
    unfold OrderViewSet_create, OrderSerializer_create, OrderStatusHistory_create. keeps_all.
    all: first
      [ apply create_order_items_keeps_stock_nonneg
      | by apply keeps_modify
      | apply (preserves_keeps _ PRODUCT_APP_PRODUCT);
        [ apply stock_nonneg_same_products
        | first [ apply Order_create_preserves_products
                | by apply Payment_create_preserves ] ] ].
Qed.

Lemma stock_nonneg_in_shop :
  stock_nonneg shop ∧ stock_nonneg shop_with_two_items.
Proof.
  assert (stock_nonneg shop) as Hshop.
  { intros p s H. cbv beta iota delta [shop PRODUCT_APP_PRODUCT] in H.
    apply lookup_singleton_Some in H as [_ <-]. lia. }
  split; [exact Hshop |].
  destruct stock_never_goes_negative as (_ & Hview & _).
  apply (Hview (Some "1000000"%string)
           [mkItemData 7 "p1" 3 250; mkItemData 8 "p1" 4 100] shop shop_with_two_items Hshop).
  vm_compute. reflexivity.
Defined.

(** ** Status transitions: the other branches *)

Lemma in_STATUS_CHOICES_true (s : string) :
  in_STATUS_CHOICES s = true ↔
  s = "pending"%string ∨ s = "shipped"%string ∨ s = "delivered"%string.
Proof.
  unfold in_STATUS_CHOICES. rewrite bool_decide_eq_true. cbn.
  rewrite !elem_of_cons, elem_of_nil. tauto.
Qed.

Lemma OrderViewSet_update_status_cases
    (order_id : string) (new_status : option string) (db : DB) :
  OrderViewSet_update_status order_id new_status db =
  match ORDER_APP_ORDER db !! order_id with
  | None => Raise OrderNotFoundException db
  | Some order =>
      match new_status with
      | None => Raise InvalidOrderStatusException db
      | Some s =>
          if negb (in_STATUS_CHOICES s) then Raise InvalidOrderStatusException db
          else
            match (if String.eqb s "delivered" then
                     match payment_of (Order.order_id order) db with
                     | None => inl RelatedObjectDoesNotExist
                     | Some payment =>
                         inr (negb (String.eqb (Payment.payment_status payment) "success"))
                     end
                   else inr false) with
            | inl e => Raise e db
            | inr true =>
                Return (mkResponse
                          (error "Order cannot be marked as delivered without successful payment")
                          HTTP_400_BAD_REQUEST) db
            | inr false =>
                if decide (Order.customer_id order ∈ CUSTOMERS_CUSTOMER db) then
                  Return (mkResponse
                            (message ("Order " +:+ Order.order_id order
                                        +:+ " updated to " +:+ s))
                            HTTP_200_OK)
                    (set_status_history
                       (λ h, h ++ [OrderStatusHistory.mk (Order.order_id order) s])
                       (set_orders (insert (Order.order_id order) (Order.set_status s order))
                          db))
                else Raise (ValueError "Invalid customer ID") db
            end
      end
  end.
Proof.
  unfold OrderViewSet_update_status, OrderViewSet_get_object, Order_payment. munfold.
  destruct (ORDER_APP_ORDER db !! order_id) as [order |]; [| done]. munfold.
  destruct new_status as [s |]; [| done].
  destruct (in_STATUS_CHOICES s); cbn [negb]; [| done]. munfold.
  assert (∀ db0, Order_save (Order.set_status s order) db0 =
                 if decide (Order.customer_id order ∈ CUSTOMERS_CUSTOMER db0)
                 then Return () (set_orders (insert (Order.order_id order)
                                               (Order.set_status s order)) db0)
                 else Raise (ValueError "Invalid customer ID") db0) as Hsave.
  { intros db0. case_decide.
    - by rewrite Order_save_ok.
    - by rewrite Order_save_invalid_customer. }
  destruct (String.eqb s "delivered").
  - destruct (payment_of (Order.order_id order) db) as [payment |]; [| done]. munfold.
    destruct (String.eqb _ "success"); cbn [negb]; [| done].
    rewrite Hsave. by case_decide.
  - munfold. rewrite Hsave. by case_decide.
Qed.

(** X9.  [update_status] looks the order up first and answers not-found for
    an unknown one; for a known one, a request without status, or with one
    that is not pending, shipped or delivered, is refused with the
    invalid-status error.  Nothing is written in either case. *)
Theorem a_status_outside_the_choices_is_refused
    (order_id : string) (new_status : option string) (db : DB) :
  (ORDER_APP_ORDER db !! order_id = None →
   OrderViewSet_update_status order_id new_status db = Raise OrderNotFoundException db) ∧
  (is_Some (ORDER_APP_ORDER db !! order_id) →
   (∀ s, new_status = Some s →
         s ≠ "pending"%string ∧ s ≠ "shipped"%string ∧ s ≠ "delivered"%string) →
   OrderViewSet_update_status order_id new_status db = Raise InvalidOrderStatusException db).
Proof.
  rewrite OrderViewSet_update_status_cases. split.
  - by intros ->.
  - intros [order ->] Hout. destruct new_status as [s |]; [| done].
    destruct (in_STATUS_CHOICES s) eqn:Hin; [| done].
    apply in_STATUS_CHOICES_true in Hin. destruct (Hout s eq_refl) as (? & ? & ?).
    destruct Hin as [? | [? | ?]]; done.
Qed.

Lemma status_outside_in_shop :
  OrderViewSet_update_status "1000001" (Some "shipped"%string) shop
    = Raise OrderNotFoundException shop ∧
  OrderViewSet_update_status "1000000" (Some "cancelled"%string) shop
    = Raise InvalidOrderStatusException shop ∧
  OrderViewSet_update_status "1000000" None shop = Raise InvalidOrderStatusException shop.
Proof.
  destruct (a_status_outside_the_choices_is_refused "1000001" (Some "shipped"%string) shop)
    as [Hmissing _].
  destruct (a_status_outside_the_choices_is_refused "1000000" (Some "cancelled"%string) shop)
    as [_ Hbad].
  destruct (a_status_outside_the_choices_is_refused "1000000" None shop) as [_ Hnone].
  split_and!.
  - apply Hmissing. reflexivity.
  - apply Hbad; [by eexists |]. intros s [= <-]. by split_and!.
  - apply Hnone; [by eexists |]. intros s [=].
Defined.

(** X10.  A transition to pending or to shipped does not look at the
    payment and does not look at the current status either: for any order
    whose customer is in the customer table it is answered 200, the order
    is stored with the new status and its other fields as they were, one
    history row is appended, and nothing else changes.  So an order that is
    delivered can be set back to pending, and an order without payment can
    be shipped. *)
Theorem pending_and_shipped_need_no_payment
    (order_id s : string) (db : DB) (order : Order.t) :
  ORDER_APP_ORDER db !! order_id = Some order →
  s = "pending"%string ∨ s = "shipped"%string →
  Order.customer_id order ∈ CUSTOMERS_CUSTOMER db →
  OrderViewSet_update_status order_id (Some s) db
    = Return (mkResponse
                (message ("Order " +:+ Order.order_id order +:+ " updated to " +:+ s))
                HTTP_200_OK)
        (set_status_history (λ h, h ++ [OrderStatusHistory.mk (Order.order_id order) s])
           (set_orders (insert (Order.order_id order) (Order.set_status s order)) db)).
Proof.
  intros Horder Hs Hcustomer. rewrite OrderViewSet_update_status_cases, Horder.
  destruct Hs as [-> | ->]; cbn; by rewrite decide_True.
Qed.

Lemma delivered_back_to_pending_in_shop :
  OrderViewSet_update_status "1000000" (Some "pending"%string) shop_delivered
    = Return (mkResponse (message "Order 1000000 updated to pending") HTTP_200_OK)
        (set_status_history (λ h, h ++ [OrderStatusHistory.mk "1000000" "pending"])
           (set_orders (insert "1000000"%string (Order.mk "1000000" "c1" 1 750 "pending"))
              shop_delivered)) ∧
  OrderViewSet_update_status "1000000" (Some "shipped"%string) shop_with_item
    = Return (mkResponse (message "Order 1000000 updated to shipped") HTTP_200_OK)
        (set_status_history (λ h, h ++ [OrderStatusHistory.mk "1000000" "shipped"])
           (set_orders (insert "1000000"%string (Order.mk "1000000" "c1" 1 750 "shipped"))
              shop_with_item)).
Proof.
  split.
  - apply (pending_and_shipped_need_no_payment "1000000" "pending" shop_delivered
             (Order.mk "1000000" "c1" 1 750 "delivered"));
      [reflexivity | by left | vm_compute; reflexivity].
  - apply (pending_and_shipped_need_no_payment "1000000" "shipped" shop_with_item
             (Order.set_total_amount 750 order_1));
      [reflexivity | by right | vm_compute; reflexivity].
Defined.

(** X11.  Reading the history after a transition: the history view writes
    nothing, and once [update_status] has answered 200 for a status, the
    view lists for that order the rows it listed before followed by one row
    with that status. *)
Theorem the_history_view_shows_the_transition
    (order_id s : string) (db : DB) (l : list OrderStatusHistory.t) (c : Z) (db0 : DB)
    (r : Response) (db' : DB) :
  keyed_by_order_id db →
  OrderViewSet_status_history order_id db = Return (mkReply (of_history l) c) db0 →
  OrderViewSet_update_status order_id (Some s) db = Return r db' →
  status r = HTTP_200_OK →
  db0 = db ∧
  OrderViewSet_status_history order_id db'
    = Return (mkReply (of_history (l ++ [OrderStatusHistory.mk order_id s])) HTTP_200_OK) db'.
Proof.
  intros Hkeyed. unfold OrderViewSet_status_history at 1, OrderViewSet_get_object. munfold.
  rewrite OrderViewSet_update_status_cases.
  destruct (ORDER_APP_ORDER db !! order_id) as [order |] eqn:Horder; [| done]. munfold.
  pose proof (Hkeyed _ _ Horder) as Hid. rewrite Hid.
  intros [= <- <- <-].
  destruct (negb (in_STATUS_CHOICES s)); [done |].
  destruct (if String.eqb s "delivered" then _ else _) as [e | [|]]; [done | |].
  { intros [= <- <-]. done. }
  case_decide; [| done]. intros [= <- <-] _. split; [done |].
  unfold OrderViewSet_status_history, OrderViewSet_get_object. munfold.
  cbn [ORDER_APP_ORDER set_status_history set_orders]. rewrite lookup_insert_eq. munfold.
  cbn [Order.set_status Order.order_id]. rewrite Hid.
  unfold Order_status_history.
  cbn [ORDER_APP_ORDER_STATUS_HISTORY set_status_history set_orders].
  rewrite filter_app, filter_cons_True by done. done.
Qed.

Lemma history_view_in_shop :
  OrderViewSet_status_history "1000000" shop_confirmed
    = Return (mkReply (of_history [OrderStatusHistory.mk "1000000" "pending";
                                   OrderStatusHistory.mk "1000000" "shipped"]) HTTP_200_OK)
             shop_confirmed ∧
  OrderViewSet_status_history "1000000" shop_delivered
    = Return (mkReply (of_history ([OrderStatusHistory.mk "1000000" "pending";
                                    OrderStatusHistory.mk "1000000" "shipped"]
                                   ++ [OrderStatusHistory.mk "1000000" "delivered"]))
                      HTTP_200_OK)
             shop_delivered.
Proof.
  assert (keyed_by_order_id shop_confirmed) as Hkeyed.
  { intros k o H. cbv beta iota delta [shop_confirmed ORDER_APP_ORDER] in H.
    apply lookup_singleton_Some in H as [<- <-]. reflexivity. }
  assert (OrderViewSet_status_history "1000000" shop_confirmed
          = Return (mkReply (of_history [OrderStatusHistory.mk "1000000" "pending";
                                         OrderStatusHistory.mk "1000000" "shipped"])
                            HTTP_200_OK) shop_confirmed) as Hread
    by (vm_compute; reflexivity).
  split; [exact Hread |].
  apply (the_history_view_shows_the_transition "1000000" "delivered" shop_confirmed
           _ _ _ (mkResponse (message "Order 1000000 updated to delivered") HTTP_200_OK)
           shop_delivered Hkeyed Hread); [vm_compute; reflexivity | reflexivity].
Defined.

(** ** Payments: the generator, the shape of a row, uniqueness *)

Lemma payment_of_None (order_id : string) (db : DB) :
  payment_of order_id db = None ↔
  ∀ pk p, ORDER_APP_PAYMENT db !! pk = Some p → Payment.order p ≠ order_id.
Proof.
  unfold payment_of. rewrite fmap_None, list_find_None, Forall_forall. split.
  - intros Hall pk p Hp. apply Hall, list_elem_of_fmap. exists (pk, p).
    split; [done |]. by apply elem_of_map_to_list.
  - intros Hall p Hin. apply list_elem_of_fmap in Hin as ([pk p'] & -> & Hin).
    apply elem_of_map_to_list in Hin. by eapply Hall.
Qed.

Lemma payment_of_unique (pk : Z) (p : Payment.t) (db : DB) :
  one_payment_per_order db →
  ORDER_APP_PAYMENT db !! pk = Some p →
  payment_of (Payment.order p) db = Some p.
Proof.
  intros Hone Hp. destruct (payment_of (Payment.order p) db) as [p' |] eqn:Hfind.
  - apply payment_of_Some in Hfind as [Horder [pk' Hp']].
    assert (pk' = pk) as -> by (by eapply Hone). congruence.
  - exfalso. by eapply payment_of_None.
Qed.

Lemma Payment_exists_for_true (order : Order.t) (db : DB) :
  Payment_exists_for order db = true ↔
  ∃ pk p, ORDER_APP_PAYMENT db !! pk = Some p ∧ Payment.order p = Order.order_id order.
Proof.
  unfold Payment_exists_for. rewrite bool_decide_eq_true, Exists_exists. split.
  - intros (p & Hin & Horder). apply list_elem_of_fmap in Hin as ([pk p'] & -> & Hin).
    apply elem_of_map_to_list in Hin. by exists pk, p'.
  - intros (pk & p & Hp & Horder). exists p. split; [| done].
    apply list_elem_of_fmap. exists (pk, p). split; [done |]. by apply elem_of_map_to_list.
Qed.

Lemma Payment_exists_for_false (order : Order.t) (db : DB) :
  Payment_exists_for order db = false ↔ payment_of (Order.order_id order) db = None.
Proof.
  rewrite payment_of_None, <- not_true_iff_false, Payment_exists_for_true. split.
  - intros Hnone pk p Hp Horder. apply Hnone. by exists pk, p.
  - intros Hall (pk & p & Hp & Horder). by eapply Hall.
Qed.

Lemma Payment_assign_cases (now : Z) (draws : list Z) (self : Payment.t) (db : DB) :
  Payment_assign now draws self db =
  if String.eqb (Payment.payment_status self) "success" then
    match (if truthy (Payment.transaction_id self)
           then Some (Payment.transaction_id self)
           else Some <$> generate_transaction_id draws db) with
    | None => Running
    | Some transaction_id =>
        match ORDER_APP_ORDER db !! Payment.order self with
        | None => Raise DoesNotExist db
        | Some order => Return (paid now transaction_id order self) db
        end
    end
  else Return (cleared self) db.
Proof.
  unfold Payment_assign, Payment_order. munfold.
  destruct (String.eqb _ "success"); [| done].
  destruct (truthy _); cbn [negb]; munfold.
  - destruct (ORDER_APP_ORDER db !! _); done.
  - destruct (generate_transaction_id draws db); cbn [fmap option_fmap option_map]; [| done].
    destruct (ORDER_APP_ORDER db !! _); done.
Qed.

Lemma numeric_string_12_truthy (t : string) : Py.numeric_string 12 t → truthy (Some t) = true.
Proof.
  intros [Hlen _]. apply truthy_Some. intros ->. cbn in Hlen. lia.
Qed.

(** What the assignments of [Payment.save] make of an instance: the key and
    the order are kept, the row has the shape its status asks for, and the
    transaction identifier is null, or the truthy one the instance had, or
    twelve digits that no payment carries. *)
Lemma Payment_assign_result
    (now : Z) (draws : list Z) (self saved : Payment.t) (db db' : DB) :
  Payment_assign now draws self db = Return saved db' →
  db' = db ∧
  Payment.payment_id saved = Payment.payment_id self ∧
  Payment.order saved = Payment.order self ∧
  Payment.payment_status saved = Payment.payment_status self ∧
  Payment.payment_method saved = Payment.payment_method self ∧
  payment_shape saved ∧
  (Payment.transaction_id saved = None ∨
   (Payment.transaction_id saved = Payment.transaction_id self ∧
    truthy (Payment.transaction_id self) = true) ∨
   (∃ t, Payment.transaction_id saved = Some t ∧ truthy (Payment.transaction_id self) = false ∧
         transaction_exists t db = false ∧ Py.numeric_string 12 t)).
Proof.
  rewrite Payment_assign_cases. unfold payment_shape.
  destruct (String.eqb (Payment.payment_status self) "success") eqn:Hs.
  - destruct (truthy (Payment.transaction_id self)) eqn:Htruthy.
    + destruct (ORDER_APP_ORDER db !! _); [| done]. intros [= <- <-].
      cbn [paid Payment.payment_status Payment.transaction_id Payment.payment_date
           Payment.amount_paid Payment.payment_id Payment.order Payment.payment_method].
      rewrite Hs. split_and!; try done; eauto.
    + destruct (generate_transaction_id draws db) as [t |] eqn:Hgen;
        cbn [fmap option_fmap option_map]; [| done].
      destruct (ORDER_APP_ORDER db !! _); [| done]. intros [= <- <-].
      destruct (generate_transaction_id_twelve_digits_fresh draws db) as [Hspec _].
      destruct (Hspec t Hgen) as [Hdigits Hfresh].
      cbn [paid Payment.payment_status Payment.transaction_id Payment.payment_date
           Payment.amount_paid Payment.payment_id Payment.order Payment.payment_method].
      rewrite Hs. split_and!; try done; eauto using numeric_string_12_truthy.
      right. right. by exists t.
  - intros [= <- <-].
    cbn [cleared Payment.payment_status Payment.transaction_id Payment.payment_date
         Payment.amount_paid Payment.payment_id Payment.order Payment.payment_method].
    rewrite Hs. split_and!; try done; eauto.
Qed.

Lemma Payment_save_assign (now : Z) (draws : list Z) (self : Payment.t) (db : DB) :
  Payment_save now draws self db =
  match Payment_assign now draws self db with
  | Return saved db1 =>
      Return saved (set_payments (insert (Payment.payment_id saved) saved) db1)
  | Raise e db1 => Raise e db1
  | Running => Running
  end.
Proof.
  rewrite Payment_save_cases, Payment_assign_cases.
  destruct (String.eqb _ "success"); [| done].
  destruct (if truthy _ then _ else _); [| done].
  destruct (ORDER_APP_ORDER db !! _); done.
Qed.

Lemma Payment_save_force_insert_assign
    (now : Z) (draws : list Z) (self : Payment.t) (db : DB) :
  Payment_save_force_insert now draws self db =
  match Payment_assign now draws self db with
  | Return saved db1 =>
      if bool_decide (is_Some (ORDER_APP_PAYMENT db1 !! Payment.payment_id saved))
      then Raise IntegrityError db1
      else Return saved (set_payments (insert (Payment.payment_id saved) saved) db1)
  | Raise e db1 => Raise e db1
  | Running => Running
  end.
Proof.
  unfold Payment_save_force_insert. munfold.
  destruct (Payment_assign now draws self db) as [saved db1 | |]; [| done..].
  by case_bool_decide.
Qed.

(** X12.  [generate_transaction_id] retries exactly as long as its draws
    are taken: it returns the twelve characters of the first draw that no
    payment carries, they are twelve digits, and with every draw taken the
    loop is still running. *)
Theorem the_transaction_id_is_the_first_free_draw
    (taken : list Z) (r : Z) (rest : list Z) (db : DB) :
  Forall (λ r', transaction_exists (transaction_candidate r') db = true) taken →
  (transaction_exists (transaction_candidate r) db = false →
   generate_transaction_id (taken ++ r :: rest) db = Some (transaction_candidate r) ∧
   Py.numeric_string 12 (transaction_candidate r) ∧
   (∀ pk p, ORDER_APP_PAYMENT db !! pk = Some p →
            Payment.transaction_id p ≠ Some (transaction_candidate r))) ∧
  generate_transaction_id taken db = None.
Proof.
  intros Htaken. split.
  - intros Hfree. split_and!.
    + induction Htaken as [| r' taken Hr' _ IH]; cbn [generate_transaction_id app].
      * fold (transaction_candidate r). by rewrite Hfree.
      * fold (transaction_candidate r'). by rewrite Hr'.
    + apply uuid4_prefix_12_digits.
    + by apply transaction_exists_false.
  - induction Htaken as [| r' taken Hr' _ IH]; cbn [generate_transaction_id]; [done |].
    fold (transaction_candidate r'). by rewrite Hr'.
Qed.

Lemma first_free_draw_in_shop :
  generate_transaction_id ([0; 1] ++ 2 ^ 127 :: [2]) shop_confirmed
    = Some (transaction_candidate (2 ^ 127)) ∧
  transaction_candidate (2 ^ 127) = "170141183460"%string ∧
  generate_transaction_id [0; 1] shop_confirmed = None.
Proof.
  destruct (the_transaction_id_is_the_first_free_draw [0; 1] (2 ^ 127) [2] shop_confirmed)
    as [Hfree Hnone].
  - repeat constructor; vm_compute; reflexivity.
  - destruct Hfree as (Hgen & _ & _); [vm_compute; reflexivity |].
    split_and!; [exact Hgen | vm_compute; reflexivity | exact Hnone].
Defined.

Lemma leaves_bind {A B} (m : M A) (f : A → M B) (db db' : DB) :
  leaves ((m ≫= f) db) db' →
  (∃ e, m db = Raise e db') ∨ (∃ a db1, m db = Return a db1 ∧ leaves (f a db1) db').
Proof.
  munfold. destruct (m db) as [a db1 | e db1 |]; [| | done].
  - intros H. right. by exists a, db1.
  - intros <-. left. by exists e.
Qed.

Lemma Payment_save_leaves (now : Z) (draws : list Z) (self : Payment.t) (db db' : DB) :
  leaves (Payment_save now draws self db) db' →
  db' = db ∨
  ∃ saved, Payment_assign now draws self db = Return saved db ∧
           db' = set_payments (insert (Payment.payment_id self) saved) db.
Proof.
  rewrite Payment_save_assign.
  destruct (Payment_assign now draws self db) as [saved db1 | e db1 |] eqn:Hassign; [| | done].
  - destruct (Payment_assign_result _ _ _ _ _ _ Hassign) as (-> & Hid & _).
    cbn [leaves]. intros <-. right. exists saved. by rewrite Hid.
  - rewrite Payment_assign_cases in Hassign.
    destruct (String.eqb _ "success"); [| done].
    destruct (if truthy _ then _ else _); [| done].
    destruct (ORDER_APP_ORDER db !! _); [done |]. injection Hassign as _ <-.
    cbn [leaves]. intros <-. by left.
Qed.

Lemma Payment_save_force_insert_leaves
    (now : Z) (draws : list Z) (self : Payment.t) (db db' : DB) :
  leaves (Payment_save_force_insert now draws self db) db' →
  db' = db ∨
  ∃ saved, Payment_assign now draws self db = Return saved db ∧
           ORDER_APP_PAYMENT db !! Payment.payment_id self = None ∧
           db' = set_payments (insert (Payment.payment_id self) saved) db.
Proof.
  rewrite Payment_save_force_insert_assign.
  destruct (Payment_assign now draws self db) as [saved db1 | e db1 |] eqn:Hassign; [| | done].
  - destruct (Payment_assign_result _ _ _ _ _ _ Hassign) as (-> & Hid & _).
    rewrite Hid. case_bool_decide as Htaken; cbn [leaves]; intros <-; [by left |].
    right. exists saved. split_and!; [done | | done].
    destruct (ORDER_APP_PAYMENT db !! _) eqn:E; [| done]. destruct Htaken. by eexists.
  - rewrite Payment_assign_cases in Hassign.
    destruct (String.eqb _ "success"); [| done].
    destruct (if truthy _ then _ else _); [| done].
    destruct (ORDER_APP_ORDER db !! _); [done |]. injection Hassign as _ <-.
    cbn [leaves]. intros <-. by left.
Qed.

Lemma payments_shaped_insert (pk : Z) (saved : Payment.t) (db : DB) :
  payments_shaped db → payment_shape saved →
  payments_shaped (set_payments (insert pk saved) db).
Proof.
  intros Hdb Hsaved pk' p. cbn [ORDER_APP_PAYMENT set_payments].
  destruct (decide (pk = pk')) as [<- | Hne].
  - rewrite lookup_insert_eq. by intros [= <-].
  - rewrite lookup_insert_ne by done. apply Hdb.
Qed.

Lemma payments_shaped_same (db db' : DB) :
  ORDER_APP_PAYMENT db' = ORDER_APP_PAYMENT db → payments_shaped db → payments_shaped db'.
Proof. unfold payments_shaped. by intros ->. Qed.

Lemma Payment_save_keeps_shape (now : Z) (draws : list Z) (self : Payment.t) :
  keeps payments_shaped (Payment_save now draws self).
Proof.
  intros db db' Hdb Hleaves.
  apply Payment_save_leaves in Hleaves as [-> | (saved & Hassign & ->)]; [done |].
  apply payments_shaped_insert; [done |].
  by apply Payment_assign_result in Hassign as (_ & _ & _ & _ & _ & ? & _).
Qed.

Lemma Payment_create_keeps_shape
    (now : Z) (draws : list Z) (order : Order.t) (d : PaymentData) :
  keeps payments_shaped (Payment_create now draws order d).
Proof.
  intros db db' Hdb Hleaves. unfold Payment_create in Hleaves.
  apply Payment_save_force_insert_leaves in Hleaves as [-> | (saved & Hassign & _ & ->)];
    [done |].
  apply payments_shaped_insert; [done |].
  by apply Payment_assign_result in Hassign as (_ & _ & _ & _ & _ & ? & _).
Qed.

Lemma create_order_items_preserves_payments (order_items_data : list OrderItemData) :
  ∀ order, preserves ORDER_APP_PAYMENT (create_order_items order order_items_data).
Proof.
  induction order_items_data as [| d rest IH]; intros order; cbn [create_order_items]; frame.
  - apply OrderItem_save_preserves_payments.
  - apply IH.
Qed.

Lemma Order_create_preserves_payments (order_draws : list Z) (d : OrderData) :
  preserves ORDER_APP_PAYMENT (Order_create order_draws d).
Proof. unfold Order_create, Order_save_force_insert. frame. Qed.

(** X13.  Every payment row the handlers write has the shape its status
    asks for: with the status success it has a non-empty transaction
    identifier, a date and an amount, with any other status it has none of
    the three.  If every row of the store has that shape before
    [Payment.save], the confirmation view, the payment create view or the
    order create view, every row has it after, whether they return or
    raise. *)
Theorem payment_rows_keep_their_shape :
  (∀ now draws self, keeps payments_shaped (Payment_save now draws self)) ∧
  (∀ now draws order_id,
     keeps payments_shaped (PaymentViewSet_confirm_payment now draws order_id)) ∧
  (∀ now draws order_id d, keeps payments_shaped (PaymentViewSet_create now draws order_id d)) ∧
  (∀ now order_draws draws d,
     keeps payments_shaped (OrderViewSet_create now order_draws draws d)).
Proof.
  split_and!.
  - apply Payment_save_keeps_shape.
  - intros now draws order_id.
    unfold PaymentViewSet_confirm_payment, get_Payment_or_404, Payment_order,
      OrderStatusHistory_create.
    keeps_all.
    all: first
      [ apply Payment_save_keeps_shape
      | by apply keeps_modify
      | apply (preserves_keeps _ ORDER_APP_PAYMENT);
        [ apply payments_shaped_same | by apply Order_save_preserves ] ].
  - intros now draws order_id d. unfold PaymentViewSet_create, get_Order_or_404. keeps_all.
    apply Payment_create_keeps_shape.
  - intros now order_draws draws d.
    unfold OrderViewSet_create, OrderSerializer_create, OrderStatusHistory_create. keeps_all.
    all: first
      [ apply Payment_create_keeps_shape
      | by apply keeps_modify
      | apply (preserves_keeps _ ORDER_APP_PAYMENT);
        [ apply payments_shaped_same
        | first [ apply Order_create_preserves_payments
                | apply create_order_items_preserves_payments ] ] ].
Qed.

Lemma payment_shape_in_shop :
  payments_shaped shop_with_payment ∧ payments_shaped shop_confirmed ∧
  payment_shape payment_9_paid.
Proof.
  assert (payments_shaped shop_with_payment) as Hbefore.
  { intros k p H. vm_compute in H. destruct k as [| k | k]; try discriminate H.
    repeat (destruct k as [k | k |]; try discriminate H).
    injection H as <-. vm_compute. done. }
  destruct payment_rows_keep_their_shape as (_ & Hconfirm & _).
  assert (payments_shaped shop_confirmed) as Hafter.
  { apply (Hconfirm 1700000000 [0] "1000000"%string shop_with_payment shop_confirmed Hbefore).
    vm_compute. reflexivity. }
  split_and!; [exact Hbefore | exact Hafter |].
  apply (Hafter 9 payment_9_paid). reflexivity.
Defined.

(** ** Payments: one per order, one identifier per payment *)

Lemma one_payment_per_order_insert (pk : Z) (saved : Payment.t) (db : DB) :
  one_payment_per_order db →
  (∀ pk' p, ORDER_APP_PAYMENT db !! pk' = Some p →
            Payment.order p = Payment.order saved → pk' = pk) →
  one_payment_per_order (set_payments (insert pk saved) db).
Proof.
  intros Hone Hsaved pk1 pk2 p1 p2. cbn [ORDER_APP_PAYMENT set_payments].
  destruct (decide (pk = pk1)) as [<- | Hne1], (decide (pk = pk2)) as [<- | Hne2];
    rewrite ?lookup_insert_eq, ?lookup_insert_ne by done.
  - done.
  - intros [= <-] Hp2 Horder. symmetry. by eapply Hsaved.
  - intros Hp1 [= <-] Horder. by eapply Hsaved.
  - apply Hone.
Qed.

Lemma transaction_ids_unique_insert (pk : Z) (saved : Payment.t) (db : DB) :
  transaction_ids_unique db →
  (∀ pk' p t, ORDER_APP_PAYMENT db !! pk' = Some p →
              Payment.transaction_id saved = Some t → Payment.transaction_id p = Some t →
              pk' = pk) →
  transaction_ids_unique (set_payments (insert pk saved) db).
Proof.
  intros Huniq Hsaved pk1 pk2 p1 p2 t. cbn [ORDER_APP_PAYMENT set_payments].
  destruct (decide (pk = pk1)) as [<- | Hne1], (decide (pk = pk2)) as [<- | Hne2];
    rewrite ?lookup_insert_eq, ?lookup_insert_ne by done.
  - done.
  - intros [= <-] Hp2 Ht1 Ht2. symmetry. by eapply Hsaved.
  - intros Hp1 [= <-] Ht1 Ht2. by eapply Hsaved.
  - apply Huniq.
Qed.

Lemma one_payment_per_order_same (db db' : DB) :
  ORDER_APP_PAYMENT db' = ORDER_APP_PAYMENT db →
  one_payment_per_order db → one_payment_per_order db'.
Proof. unfold one_payment_per_order. by intros ->. Qed.

Lemma transaction_ids_unique_same (db db' : DB) :
  ORDER_APP_PAYMENT db' = ORDER_APP_PAYMENT db →
  transaction_ids_unique db → transaction_ids_unique db'.
Proof. unfold transaction_ids_unique. by intros ->. Qed.

(** The stores [confirm_payment] can leave: the payment table as it was, or
    with the payment of the order rewritten by the assignments of
    [Payment.save]. *)
Lemma confirm_payment_leaves
    (now : Z) (draws : list Z) (order_id : string) (db db' : DB) :
  leaves (PaymentViewSet_confirm_payment now draws order_id db) db' →
  ORDER_APP_PAYMENT db' = ORDER_APP_PAYMENT db ∨
  ∃ payment saved,
    payment_of order_id db = Some payment ∧
    Payment_assign now draws (Payment.set_payment_status "success" payment) db
      = Return saved db ∧
    ORDER_APP_PAYMENT db' = <[Payment.payment_id payment := saved]> (ORDER_APP_PAYMENT db).
Proof.
  unfold PaymentViewSet_confirm_payment, get_Payment_or_404. munfold.
  destruct (payment_of order_id db) as [payment |] eqn:Hpayment; munfold;
    [| cbn [leaves]; intros <-; by left].
  destruct (String.eqb _ "success"); [cbn [leaves]; intros <-; by left |].
  intros Hleaves.
  apply (leaves_bind (Payment_save now draws _)) in Hleaves
    as [[e Hraise] | (saved & db1 & Hsave & Hrest)].
  - assert (leaves (Payment_save now draws (Payment.set_payment_status "success" payment) db)
              db') as Hl by (by rewrite Hraise).
    apply Payment_save_leaves in Hl as [-> | (saved & Hassign & ->)]; [by left |].
    right. by exists payment, saved.
  - assert (leaves (Payment_save now draws (Payment.set_payment_status "success" payment) db)
              db1) as Hl by (by rewrite Hsave).
    assert (ORDER_APP_PAYMENT db' = ORDER_APP_PAYMENT db1) as ->.
    { revert Hrest. generalize db1 db'.
      change (preserves ORDER_APP_PAYMENT
                (order ← Payment_order saved;
                 Order_save (Order.set_status "shipped" order);;
                 OrderStatusHistory_create (Order.set_status "shipped" order) "shipped";;
                 mret (mkResponse (message "Payment confirmed successfully") HTTP_200_OK))).
      unfold Payment_order, OrderStatusHistory_create. frame.
      by apply Order_save_preserves. }
    apply Payment_save_leaves in Hl as [-> | (saved' & Hassign & ->)]; [by left |].
    right. by exists payment, saved'.
Qed.

(** X14.  At most one payment per order: if no two payment rows point to
    the same order before the payment create view or the confirmation view
    (the rows being stored under their own key), none do after, whether the
    view returns or raises.  The create view needs no help from the
    database for it: it looks for a payment of the order first. *)
Theorem one_payment_per_order_is_kept :
  (∀ now draws order_id d,
     keeps one_payment_per_order (PaymentViewSet_create now draws order_id d)) ∧
  (∀ now draws order_id db db',
     keyed_by_payment_id db → one_payment_per_order db →
     leaves (PaymentViewSet_confirm_payment now draws order_id db) db' →
     one_payment_per_order db').
Proof.
  split.
  - intros now draws order_id d db db' Hone.
    unfold PaymentViewSet_create, get_Order_or_404. munfold.
    destruct (option_bind _ _ _ order_id) as [order |]; munfold;
      [| cbn [leaves]; by intros <-].
    destruct (Payment_exists_for order db) eqn:Hexists; [cbn [leaves]; by intros <- |].
    intros Hleaves.
    assert (leaves (Payment_create now draws order d db) db') as Hl.
    { destruct (Payment_create now draws order d db); done. }
    unfold Payment_create in Hl.
    apply Payment_save_force_insert_leaves in Hl as [-> | (saved & Hassign & _ & ->)];
      [done |].
    apply Payment_assign_result in Hassign as (_ & _ & Horder & _).
    apply one_payment_per_order_insert; [done |].
    intros pk' p Hp Hsame. exfalso.
    apply Payment_exists_for_false in Hexists.
    apply (proj1 (payment_of_None _ _) Hexists pk' p Hp). by rewrite Hsame, Horder.
  - intros now draws order_id db db' Hkeyed Hone Hleaves.
    apply confirm_payment_leaves in Hleaves as [Hsame | (payment & saved & Hp & Hassign & Hnew)].
    + by eapply one_payment_per_order_same.
    + apply payment_of_Some in Hp as [_ [pk Hp]].
      pose proof (Hkeyed _ _ Hp) as <-.
      apply Payment_assign_result in Hassign as (_ & _ & Horder & _).
      apply (one_payment_per_order_same
               (set_payments (insert (Payment.payment_id payment) saved) db)); [done |].
      apply one_payment_per_order_insert; [done |].
      intros pk' p' Hp' Hsame. eapply Hone; [done.. |]. by rewrite Hsame, Horder.
Qed.

Lemma one_payment_in_shop :
  PaymentViewSet_create 1700000000 [] (Some "1000000"%string)
    (mkPaymentData 9 "upi" "pending" None None None) shop_with_item
  = Return (mkReply (of_payment payment_9) HTTP_201_CREATED) shop_with_payment ∧
  one_payment_per_order shop_with_payment ∧
  one_payment_per_order shop_confirmed.
Proof.
  assert (PaymentViewSet_create 1700000000 [] (Some "1000000"%string)
            (mkPaymentData 9 "upi" "pending" None None None) shop_with_item
          = Return (mkReply (of_payment payment_9) HTTP_201_CREATED) shop_with_payment)
    as Hrun by (vm_compute; reflexivity).
  destruct one_payment_per_order_is_kept as [Hcreate Hconfirm].
  assert (one_payment_per_order shop_with_item) as Hbefore.
  { intros k1 k2 p1 p2 H. cbv beta iota delta [shop_with_item ORDER_APP_PAYMENT] in H.
    by rewrite lookup_empty in H. }
  assert (one_payment_per_order shop_with_payment) as Hattached.
  { apply (Hcreate 1700000000 [] (Some "1000000"%string)
             (mkPaymentData 9 "upi" "pending" None None None)
             shop_with_item shop_with_payment Hbefore).
    by rewrite Hrun. }
  split_and!; [exact Hrun | exact Hattached |].
  apply (Hconfirm 1700000000 [0] "1000000"%string shop_with_payment shop_confirmed);
    [| exact Hattached | vm_compute; reflexivity].
  intros k p H.
  change (ORDER_APP_PAYMENT shop_with_payment)
    with (<[9 := payment_9]> (∅ : gmap Z Payment.t)) in H.
  apply lookup_insert_Some in H as [[<- <-] | [_ H]]; [reflexivity |].
  by rewrite lookup_empty in H.
Defined.

(** X15.  One identifier per payment: if no two payment rows carry the same
    transaction identifier, none do after [Payment.save] of an instance
    whose own identifier no other row carries, and none do after the
    confirmation view (the rows being stored under their own key), whether
    they return or raise.  The identifier the generator draws is checked
    against the table, and an identifier already assigned is kept. *)
Theorem transaction_ids_stay_unique :
  (∀ now draws self db db',
     transaction_ids_unique db →
     (∀ pk p t, ORDER_APP_PAYMENT db !! pk = Some p →
                Payment.transaction_id self = Some t → Payment.transaction_id p = Some t →
                pk = Payment.payment_id self) →
     leaves (Payment_save now draws self db) db' →
     transaction_ids_unique db') ∧
  (∀ now draws order_id db db',
     keyed_by_payment_id db → transaction_ids_unique db →
     leaves (PaymentViewSet_confirm_payment now draws order_id db) db' →
     transaction_ids_unique db').
Proof.
  assert (∀ now draws self saved db,
            transaction_ids_unique db →
            (∀ pk p t, ORDER_APP_PAYMENT db !! pk = Some p →
                       Payment.transaction_id self = Some t →
                       Payment.transaction_id p = Some t → pk = Payment.payment_id self) →
            Payment_assign now draws self db = Return saved db →
            transaction_ids_unique
              (set_payments (insert (Payment.payment_id self) saved) db)) as Hwrite.
  { intros now draws self saved db Huniq Hown Hassign.
    apply Payment_assign_result in Hassign as (_ & _ & _ & _ & _ & _ & Htx).
    apply transaction_ids_unique_insert; [done |]. intros pk p t Hp Hsaved Hpt.
    destruct Htx as [Hnone | [[Hkept _] | (t' & Hnew & _ & Hfresh & _)]].
    - congruence.
    - eapply Hown; [done | | done]. congruence.
    - exfalso. assert (t' = t) as -> by congruence.
      by eapply (proj1 (transaction_exists_false _ _) Hfresh). }
  split.
  - intros now draws self db db' Huniq Hown Hleaves.
    apply Payment_save_leaves in Hleaves as [-> | (saved & Hassign & ->)]; [done |].
    by eapply Hwrite.
  - intros now draws order_id db db' Hkeyed Huniq Hleaves.
    apply confirm_payment_leaves in Hleaves as [Hsame | (payment & saved & Hp & Hassign & Hnew)].
    + by eapply transaction_ids_unique_same.
    + apply payment_of_Some in Hp as [_ [pk Hp]].
      pose proof (Hkeyed _ _ Hp) as <-.
      apply (transaction_ids_unique_same
               (set_payments (insert (Payment.payment_id payment) saved) db)); [done |].
      apply (Hwrite now draws (Payment.set_payment_status "success" payment)); [done | | done].
      intros pk' p' t Hp' Ht Hpt. cbn. eapply Huniq; [done.. |]. exact Ht.
Qed.

Lemma transaction_ids_in_shop :
  transaction_ids_unique shop_with_payment ∧ transaction_ids_unique shop_confirmed.
Proof.
  destruct transaction_ids_stay_unique as [_ Hconfirm].
  assert (keyed_by_payment_id shop_with_payment ∧ transaction_ids_unique shop_with_payment)
    as [Hkeyed Hbefore].
  { split.
    - intros k p H.
      change (ORDER_APP_PAYMENT shop_with_payment)
        with (<[9 := payment_9]> (∅ : gmap Z Payment.t)) in H.
      apply lookup_insert_Some in H as [[<- <-] | [_ H]]; [reflexivity |].
      by rewrite lookup_empty in H.
    - intros k1 k2 p1 p2 t H.
      change (ORDER_APP_PAYMENT shop_with_payment)
        with (<[9 := payment_9]> (∅ : gmap Z Payment.t)) in H.
      apply lookup_insert_Some in H as [[<- <-] | [_ H]]; [discriminate |].
      by rewrite lookup_empty in H. }
  split; [exact Hbefore |].
  apply (Hconfirm 1700000000 [0] "1000000"%string shop_with_payment shop_confirmed
           Hkeyed Hbefore).
  vm_compute. reflexivity.
Defined.

(** ** After a confirmation *)

(** A confirmation answered 200: what it found and what it left. *)
Lemma confirm_payment_answered_200
    (now : Z) (draws : list Z) (order_id : string) (db : DB) (r : Response) (db' : DB) :
  PaymentViewSet_confirm_payment now draws order_id db = Return r db' →
  status r = HTTP_200_OK →
  ∃ payment t order,
    payment_of order_id db = Some payment ∧
    ORDER_APP_ORDER db !! Payment.order payment = Some order ∧
    Order.customer_id order ∈ CUSTOMERS_CUSTOMER db ∧
    db' = set_status_history
            (λ h, h ++ [OrderStatusHistory.mk (Order.order_id order) "shipped"])
            (set_orders (insert (Order.order_id order) (Order.set_status "shipped" order))
               (set_payments
                  (insert (Payment.payment_id payment)
                     (paid now t order (Payment.set_payment_status "success" payment)))
                  db)).
Proof.
  rewrite PaymentViewSet_confirm_payment_cases.
  destruct (payment_of order_id db) as [payment |] eqn:Hpayment; [| done].
  destruct (String.eqb _ "success"); [by intros [= <- <-] |].
  destruct (if truthy _ then _ else _) as [t |]; [| done].
  destruct (ORDER_APP_ORDER db !! _) as [order |] eqn:Horder; [| done].
  cbv zeta. case_decide; [| done]. intros [= <- <-] _.
  by exists payment, t, order.
Qed.

Lemma payment_of_after_confirmation
    (order_id : string) (db : DB) (payment saved : Payment.t)
    (f : gmap string Order.t → gmap string Order.t)
    (g : list OrderStatusHistory.t → list OrderStatusHistory.t) :
  keyed_by_payment_id db → one_payment_per_order db →
  payment_of order_id db = Some payment →
  Payment.order saved = Payment.order payment →
  payment_of order_id
    (set_status_history g
       (set_orders f (set_payments (insert (Payment.payment_id payment) saved) db)))
  = Some saved.
Proof.
  intros Hkeyed Hone Hpayment Horder.
  apply payment_of_Some in Hpayment as [Hfk [pk Hp]].
  pose proof (Hkeyed _ _ Hp) as <-.
  rewrite <- Hfk, <- Horder.
  apply (payment_of_unique (Payment.payment_id payment)).
  - apply (one_payment_per_order_same
             (set_payments (insert (Payment.payment_id payment) saved) db)); [done |].
    apply one_payment_per_order_insert; [done |].
    intros pk' p' Hp' Hsame. eapply Hone; [done.. |]. by rewrite Hsame.
  - cbn [ORDER_APP_PAYMENT set_status_history set_orders set_payments].
    apply lookup_insert_eq.
Qed.

(** X16.  A confirmation is not repeated: once [confirm_payment] has
    answered 200 for an order, a second call for that order, at any time
    and with any draws, is answered 400 and writes nothing.  The payment
    rows are stored under their own key and no two of them point to the
    same order. *)
Theorem a_second_confirmation_is_refused
    (now now' : Z) (draws draws' : list Z) (order_id : string)
    (db : DB) (r : Response) (db' : DB) :
  keyed_by_payment_id db → one_payment_per_order db →
  PaymentViewSet_confirm_payment now draws order_id db = Return r db' →
  status r = HTTP_200_OK →
  PaymentViewSet_confirm_payment now' draws' order_id db'
    = Return (mkResponse (message "Payment already marked as successful")
                         HTTP_400_BAD_REQUEST) db'.
Proof.
  intros Hkeyed Hone Hrun Hok.
  destruct (confirm_payment_answered_200 _ _ _ _ _ _ Hrun Hok)
    as (payment & t & order & Hpayment & _ & _ & ->).
  rewrite PaymentViewSet_confirm_payment_cases.
  rewrite (payment_of_after_confirmation order_id db payment) by done.
  done.
Qed.

Lemma second_confirmation_in_shop :
  PaymentViewSet_confirm_payment 1700000500 [5] "1000000" shop_confirmed
    = Return (mkResponse (message "Payment already marked as successful")
                         HTTP_400_BAD_REQUEST) shop_confirmed.
Proof.
  apply (a_second_confirmation_is_refused 1700000000 1700000500 [0] [5] "1000000"
           shop_with_payment
           (mkResponse (message "Payment confirmed successfully") HTTP_200_OK)
           shop_confirmed).
  - intros k p H.
    change (ORDER_APP_PAYMENT shop_with_payment)
      with (<[9 := payment_9]> (∅ : gmap Z Payment.t)) in H.
    apply lookup_insert_Some in H as [[<- <-] | [_ H]]; [reflexivity |].
    by rewrite lookup_empty in H.
  - intros k1 k2 p1 p2 H1 H2 _.
    change (ORDER_APP_PAYMENT shop_with_payment)
      with (<[9 := payment_9]> (∅ : gmap Z Payment.t)) in H1, H2.
    apply lookup_insert_Some in H1 as [[<- _] | [_ H1]]; [| by rewrite lookup_empty in H1].
    apply lookup_insert_Some in H2 as [[<- _] | [_ H2]]; [done | by rewrite lookup_empty in H2].
  - vm_compute. reflexivity.
  - reflexivity.
Defined.

(** X17.  Confirmation opens delivery: once [confirm_payment] has answered
    200 for an order, the transition of that order to delivered is answered
    200, the order is stored as delivered and the history gains one row.
    The order and payment rows are stored under their own key and no two
    payments point to the same order. *)
Theorem a_confirmed_order_can_be_delivered
    (now : Z) (draws : list Z) (order_id : string) (db : DB) (r : Response) (db' : DB) :
  keyed_by_order_id db → keyed_by_payment_id db → one_payment_per_order db →
  PaymentViewSet_confirm_payment now draws order_id db = Return r db' →
  status r = HTTP_200_OK →
  ∃ order,
    ORDER_APP_ORDER db !! order_id = Some order ∧
    OrderViewSet_update_status order_id (Some "delivered"%string) db'
      = Return (mkResponse (message ("Order " +:+ order_id +:+ " updated to delivered"))
                           HTTP_200_OK)
          (set_status_history (λ h, h ++ [OrderStatusHistory.mk order_id "delivered"])
             (set_orders (insert order_id (Order.set_status "delivered" order)) db')).
Proof.
  intros Hkeyed_orders Hkeyed Hone Hrun Hok.
  destruct (confirm_payment_answered_200 _ _ _ _ _ _ Hrun Hok)
    as (payment & t & order & Hpayment & Horder & Hcustomer & ->).
  pose proof (payment_of_Some _ _ _ Hpayment) as [Hfk _]. rewrite Hfk in Horder.
  pose proof (Hkeyed_orders _ _ Horder) as Hid. rewrite Hid.
  exists order. split; [done |].
  rewrite OrderViewSet_update_status_delivered.
  cbn [ORDER_APP_ORDER set_status_history set_orders set_payments].
  rewrite lookup_insert_eq. cbn [Order.set_status Order.order_id Order.customer_id].
  rewrite Hid.
  rewrite (payment_of_after_confirmation order_id db payment) by done.
  cbn [paid Payment.set_payment_status Payment.payment_status String.eqb Ascii.eqb
       Bool.eqb andb CUSTOMERS_CUSTOMER set_status_history set_orders set_payments].
  rewrite decide_True by done. reflexivity.
Qed.

Lemma confirmed_then_delivered_in_shop :
  OrderViewSet_update_status "1000000" (Some "delivered"%string) shop_confirmed
    = Return (mkResponse (message "Order 1000000 updated to delivered") HTTP_200_OK)
             shop_delivered.
Proof.
  destruct (a_confirmed_order_can_be_delivered 1700000000 [0] "1000000" shop_with_payment
              (mkResponse (message "Payment confirmed successfully") HTTP_200_OK)
              shop_confirmed) as (order & Horder & Hrun).
  - intros k o H. cbv beta iota delta [shop_with_payment shop_with_item set_payments
      ORDER_APP_ORDER] in H.
    apply lookup_singleton_Some in H as [<- <-]. reflexivity.
  - intros k p H.
    change (ORDER_APP_PAYMENT shop_with_payment)
      with (<[9 := payment_9]> (∅ : gmap Z Payment.t)) in H.
    apply lookup_insert_Some in H as [[<- <-] | [_ H]]; [reflexivity |].
    by rewrite lookup_empty in H.
  - intros k1 k2 p1 p2 H1 H2 _.
    change (ORDER_APP_PAYMENT shop_with_payment)
      with (<[9 := payment_9]> (∅ : gmap Z Payment.t)) in H1, H2.
    apply lookup_insert_Some in H1 as [[<- _] | [_ H1]]; [| by rewrite lookup_empty in H1].
    apply lookup_insert_Some in H2 as [[<- _] | [_ H2]]; [done | by rewrite lookup_empty in H2].
  - vm_compute. reflexivity.
  - reflexivity.
  - rewrite Hrun. vm_compute in Horder. injection Horder as <-. vm_compute. reflexivity.
Defined.

(** ** Attaching a payment *)

Lemma payment_of_insert_first (order_id : string) (pk : Z) (saved : Payment.t) (db : DB) :
  payment_of order_id db = None →
  Payment.order saved = order_id →
  payment_of order_id (set_payments (insert pk saved) db) = Some saved.
Proof.
  intros Hnone Horder.
  destruct (payment_of order_id (set_payments (insert pk saved) db)) as [p |] eqn:Hfind.
  - apply payment_of_Some in Hfind as [Hp [pk' Hlookup]].
    cbn [ORDER_APP_PAYMENT set_payments] in Hlookup.
    apply lookup_insert_Some in Hlookup as [[_ <-] | [_ Hold]]; [done |].
    exfalso. by eapply (proj1 (payment_of_None _ _) Hnone).
  - exfalso. apply (proj1 (payment_of_None _ _) Hfind pk saved); [| done].
    cbn [ORDER_APP_PAYMENT set_payments]. apply lookup_insert_eq.
Qed.

(** X18.  [PaymentViewSet.create] answers 404 for an order that is not in
    the store, and answers 400, writing nothing, for an order that has a
    payment already, whatever the request says. *)
Theorem a_second_payment_is_refused
    (now : Z) (draws : list Z) (order_id : option string) (d : PaymentData) (db : DB) :
  (order_id ≫= (ORDER_APP_ORDER db !!.) = None →
   PaymentViewSet_create now draws order_id d db = Raise Http404 db) ∧
  (∀ order pk p,
     order_id ≫= (ORDER_APP_ORDER db !!.) = Some order →
     ORDER_APP_PAYMENT db !! pk = Some p →
     Payment.order p = Order.order_id order →
     PaymentViewSet_create now draws order_id d db
       = Return (mkReply (of_body (error "Payment for this order already exists"))
                         HTTP_400_BAD_REQUEST) db).
Proof.
  unfold PaymentViewSet_create, get_Order_or_404. munfold. split.
  - by intros ->.
  - intros order pk p -> Hp Horder. munfold.
    assert (Payment_exists_for order db = true) as ->; [| done].
    apply Payment_exists_for_true. by exists pk, p.
Qed.

Lemma second_payment_in_shop :
  PaymentViewSet_create 1700000000 [] None
    (mkPaymentData 10 "card" "pending" None None None) shop_with_payment
  = Raise Http404 shop_with_payment ∧
  PaymentViewSet_create 1700000000 [] (Some "1000000"%string)
    (mkPaymentData 10 "card" "pending" None None None) shop_with_payment
  = Return (mkReply (of_body (error "Payment for this order already exists"))
                    HTTP_400_BAD_REQUEST) shop_with_payment.
Proof.
  destruct (a_second_payment_is_refused 1700000000 [] None
              (mkPaymentData 10 "card" "pending" None None None) shop_with_payment)
    as [Hmissing _].
  destruct (a_second_payment_is_refused 1700000000 [] (Some "1000000"%string)
              (mkPaymentData 10 "card" "pending" None None None) shop_with_payment)
    as [_ Hsecond].
  split.
  - apply Hmissing. reflexivity.
  - apply (Hsecond (Order.set_total_amount 750 order_1) 9 payment_9);
      [reflexivity | reflexivity | reflexivity].
Defined.

(** X19.  Attaching a payment to an order that has none, under a key that
    is free.  With a status other than success the row is stored without
    transaction identifier, date and amount, whatever the request gave for
    them.  With the status success and no identifier in the request, the
    success rules apply at creation: twelve fresh digits, the current time
    and the total of the order.  In both cases the view answers 201 with
    the row, and [order.payment] then finds it. *)
Theorem a_payment_is_attached
    (now : Z) (draws : list Z) (order_id : string) (d : PaymentData) (db : DB)
    (order : Order.t) :
  ORDER_APP_ORDER db !! order_id = Some order →
  Order.order_id order = order_id →
  payment_of order_id db = None →
  ORDER_APP_PAYMENT db !! payment_uuid d = None →
  (data_payment_status d ≠ "success"%string →
   ∃ payment,
     payment = Payment.mk (payment_uuid d) order_id None
                 (data_payment_method d) None None (data_payment_status d) ∧
     PaymentViewSet_create now draws (Some order_id) d db
       = Return (mkReply (of_payment payment) HTTP_201_CREATED)
                (set_payments (insert (payment_uuid d) payment) db) ∧
     payment_of order_id (set_payments (insert (payment_uuid d) payment) db)
       = Some payment) ∧
  (data_payment_status d = "success"%string →
   truthy (data_transaction_id d) = false →
   Exists (λ r, transaction_exists (transaction_candidate r) db = false) draws →
   ∃ t payment,
     Py.numeric_string 12 t ∧ transaction_exists t db = false ∧
     payment = Payment.mk (payment_uuid d) order_id (Some now)
                 (data_payment_method d) (Some t) (Some (Order.total_amount order))
                 "success" ∧
     PaymentViewSet_create now draws (Some order_id) d db
       = Return (mkReply (of_payment payment) HTTP_201_CREATED)
                (set_payments (insert (payment_uuid d) payment) db) ∧
     payment_of order_id (set_payments (insert (payment_uuid d) payment) db)
       = Some payment).
Proof.
  intros Horder Hid Hnone Hfree.
  assert (∀ payment,
            Payment_assign now draws
              (Payment.mk (payment_uuid d) order_id (data_payment_date d)
                 (data_payment_method d) (data_transaction_id d) (data_amount_paid d)
                 (data_payment_status d)) db = Return payment db →
            Payment.payment_id payment = payment_uuid d →
            PaymentViewSet_create now draws (Some order_id) d db
              = Return (mkReply (of_payment payment) HTTP_201_CREATED)
                       (set_payments (insert (payment_uuid d) payment) db)) as Hview.
  { intros payment Hassign Hpk.
    unfold PaymentViewSet_create, get_Order_or_404. munfold. cbn [option_bind].
    rewrite Horder. munfold.
    assert (Payment_exists_for order db = false) as ->
      by (apply Payment_exists_for_false; by rewrite Hid).
    unfold Payment_create.
    rewrite Hid, Payment_save_force_insert_assign, Hassign, Hpk, Hfree.
    rewrite bool_decide_false by (by intros [? ?]). done. }
  split.
  - intros Hstatus. eexists. split; [reflexivity |]. split.
    + apply Hview; [| done]. rewrite Payment_assign_cases. simpl.
      apply String.eqb_neq in Hstatus. by rewrite Hstatus.
    + by apply payment_of_insert_first.
  - intros Hstatus Hfalsy Hdraw.
    destruct (generate_transaction_id_twelve_digits_fresh draws db) as [Hgen Hterm].
    destruct (Hterm Hdraw) as [t Ht]. destruct (Hgen t Ht) as [Hdigits Hfresh].
    exists t. eexists. split_and!; [done | done | reflexivity | |].
    + apply Hview; [| done]. rewrite Payment_assign_cases. simpl.
      rewrite Hstatus, Hfalsy, Ht. simpl. rewrite Horder.
      unfold paid. simpl. reflexivity.
    + by apply payment_of_insert_first.
Qed.

Lemma payment_attached_in_shop :
  PaymentViewSet_create 1700000000 [] (Some "1000000"%string)
    (mkPaymentData 9 "upi" "pending" (Some "123"%string) (Some 5) (Some 99)) shop_with_item
  = Return (mkReply (of_payment payment_9) HTTP_201_CREATED) shop_with_payment ∧
  payment_of "1000000" shop_with_payment = Some payment_9.
Proof.
  destruct (a_payment_is_attached 1700000000 [] "1000000"
              (mkPaymentData 9 "upi" "pending" (Some "123"%string) (Some 5) (Some 99))
              shop_with_item (Order.set_total_amount 750 order_1))
    as [Hpending _]; [reflexivity | reflexivity | vm_compute; reflexivity | reflexivity |].
  destruct Hpending as (payment & -> & Hrun & Hfound); [discriminate |].
  split; [exact Hrun | exact Hfound].
Defined.

(** ** Creating an order *)

Lemma Order_create_cases (order_draws : list Z) (d : OrderData) (db : DB) :
  Order_create order_draws d db =
  match new_order_id order_draws d db with
  | None => Running
  | Some order_id =>
      let order := Order.mk order_id (data_customer_id d) (data_address_id d)
                     (default 0 (data_total_amount d))
                     (default "pending"%string (data_status d)) in
      if decide (data_customer_id d ∈ CUSTOMERS_CUSTOMER db) then
        if Order_exists order_id db then Raise IntegrityError db
        else Return order (set_orders (insert order_id order) db)
      else Raise (ValueError "Invalid customer ID") db
  end.
Proof.
  unfold Order_create, Order_save_force_insert. munfold.
  destruct (new_order_id order_draws d db) as [order_id |]; [| done]. munfold.
  rewrite count_customers_zero. cbn [Order.customer_id Order.order_id].
  case_decide.
  - rewrite bool_decide_false by tauto. by destruct (Order_exists order_id db).
  - by rewrite bool_decide_true.
Qed.

Lemma OrderItem_create_Return
    (order : Order.t) (d : OrderItemData) (db : DB)
    (item : OrderItem.t) (order' : Order.t) (db' : DB) :
  OrderItem_create order d db = Return (item, order') db' →
  ∃ total,
    order' = Order.set_total_amount total order ∧
    Order.total_amount order' = live_total (Order.order_id order) db' ∧
    ORDER_APP_ORDER db' = <[Order.order_id order := order']> (ORDER_APP_ORDER db) ∧
    ORDER_APP_PAYMENT db' = ORDER_APP_PAYMENT db ∧
    ORDER_APP_ORDER_STATUS_HISTORY db' = ORDER_APP_ORDER_STATUS_HISTORY db ∧
    CUSTOMERS_CUSTOMER db' = CUSTOMERS_CUSTOMER db.
Proof.
  unfold OrderItem_create. rewrite OrderItem_save_cases.
  destruct (PRODUCT_APP_PRODUCT db !! _) as [stock |]; [| done].
  destruct (stock <? _); [done |].
  destruct (true && _); [done |].
  case_decide; [| done]. intros [= <- <- <-].
  eexists. split_and!; reflexivity.
Qed.

(** The loop of [OrderSerializer.create] changes the total of the instance
    and nothing else in it; after a first item the row of the order is the
    instance, with the sum over its live items as total. *)
Lemma create_order_items_result (order_items_data : list OrderItemData) :
  ∀ (order : Order.t) (db : DB) (order' : Order.t) (db' : DB),
  create_order_items order order_items_data db = Return order' db' →
  (∃ total, order' = Order.set_total_amount total order) ∧
  (order_items_data = [] → order' = order ∧ db' = db) ∧
  (order_items_data ≠ [] →
     Order.total_amount order' = live_total (Order.order_id order) db') ∧
  (ORDER_APP_ORDER db !! Order.order_id order = Some order →
   ORDER_APP_ORDER db' !! Order.order_id order = Some order') ∧
  (∀ order_id, order_id ≠ Order.order_id order →
               ORDER_APP_ORDER db' !! order_id = ORDER_APP_ORDER db !! order_id) ∧
  ORDER_APP_PAYMENT db' = ORDER_APP_PAYMENT db ∧
  ORDER_APP_ORDER_STATUS_HISTORY db' = ORDER_APP_ORDER_STATUS_HISTORY db ∧
  CUSTOMERS_CUSTOMER db' = CUSTOMERS_CUSTOMER db.
Proof.
  induction order_items_data as [| d rest IH]; intros order db order' db' Hrun.
  - cbn [create_order_items] in Hrun. munfold. injection Hrun as <- <-.
    split_and!; try done. exists (Order.total_amount order). by destruct order.
  - cbn [create_order_items] in Hrun.
    apply bind_Return_inv in Hrun as ([item order1] & db1 & Hone & Hrest).
    apply OrderItem_create_Return in Hone
      as (total1 & -> & Htotal1 & Horders1 & Hpay1 & Hhist1 & Hcust1).
    apply IH in Hrest as ([total ->] & Hnil & Hcons & Hrow & Hothers & Hpay & Hhist & Hcust).
    cbn [Order.set_total_amount Order.order_id] in *.
    split_and!.
    + by exists total.
    + done.
    + intros _. destruct rest as [| d' rest'].
      * destruct Hnil as [Heq ->]; [done |]. by rewrite Heq.
      * by apply Hcons.
    + intros _. apply Hrow. rewrite Horders1. apply lookup_insert_eq.
    + intros order_id Hne. rewrite Hothers, Horders1 by done. by rewrite lookup_insert_ne.
    + congruence.
    + congruence.
    + congruence.
Qed.

(** X20.  [OrderViewSet.create] refuses an order whose customer is not in
    the customer table with the invalid-customer error; and whatever it
    raises, for the order, one of its items or its payment, it leaves the
    store it found: no order row, no item, no stock taken, no history
    row. *)
Theorem an_order_is_created_whole_or_not_at_all
    (now : Z) (order_draws draws : list Z) (d : OrderData) (db : DB) :
  (data_customer_id d ∉ CUSTOMERS_CUSTOMER db →
   is_Some (new_order_id order_draws d db) →
   OrderViewSet_create now order_draws draws d db
     = Raise (ValueError "Invalid customer ID") db) ∧
  (∀ e db', OrderViewSet_create now order_draws draws d db = Raise e db' → db' = db).
Proof.
  split.
  - intros Hcustomer [order_id Hid].
    unfold OrderViewSet_create, OrderSerializer_create, atomic. munfold.
    rewrite Order_create_cases, Hid. cbv zeta. by rewrite decide_False.
  - intros e db'. unfold OrderViewSet_create, atomic.
    match goal with
    | |- match ?o with _ => _ end = _ → _ => destruct o as [r db1 | e1 db1 |]
    end; [done | | done].
    by intros [= _ <-].
Qed.

Lemma order_of_unknown_customer_in_shop :
  OrderViewSet_create 1700000000 [5] []
    (mkOrderData None "c2" 1 None None [mkItemData 7 "p1" 3 250] None) shop
  = Raise (ValueError "Invalid customer ID") shop ∧
  OrderViewSet_create 1700000000 [5] []
    (mkOrderData None "c1" 1 None None [mkItemData 7 "p1" 3 250; mkItemData 8 "p1" 8 100] None)
    shop
  = Raise (ValueError "Insufficient stock for product") shop.
Proof.
  destruct (an_order_is_created_whole_or_not_at_all 1700000000 [5] []
              (mkOrderData None "c2" 1 None None [mkItemData 7 "p1" 3 250] None) shop)
    as [Hunknown _].
  destruct (an_order_is_created_whole_or_not_at_all 1700000000 [5] []
              (mkOrderData None "c1" 1 None None
                 [mkItemData 7 "p1" 3 250; mkItemData 8 "p1" 8 100] None) shop)
    as [_ Hwhole].
  split.
  - apply Hunknown; [vm_compute; by intros [=] | vm_compute; by eexists].
  - destruct (OrderViewSet_create 1700000000 [5] []
                (mkOrderData None "c1" 1 None None
                   [mkItemData 7 "p1" 3 250; mkItemData 8 "p1" 8 100] None) shop)
      as [r db' | e db' |] eqn:Hrun; [vm_compute in Hrun; discriminate Hrun | |
                                      vm_compute in Hrun; discriminate Hrun].
    rewrite (Hwhole e db' eq_refl).
    assert (e = ValueError "Insufficient stock for product") as ->; [| done].
    vm_compute in Hrun. by injection Hrun as <- _.
Defined.

Lemma generate_order_id_digits (draws : list Z) (db : DB) (order_id : string) :
  generate_order_id draws db = Some order_id → Py.numeric_string 7 order_id.
Proof.
  induction draws as [| r draws IH]; cbn [generate_order_id]; [done |].
  destruct (negb (Order_exists _ db)); [| done]. intros [= <-].
  apply str_7_digits, randint_range. lia.
Qed.

Lemma live_total_same_items (order_id : string) (db db' : DB) :
  ORDER_APP_ORDER_ITEM db' = ORDER_APP_ORDER_ITEM db →
  live_total order_id db' = live_total order_id db.
Proof. intros H. unfold live_total, order_items. by rewrite H. Qed.

(** X21.  An order that [OrderViewSet.create] answers 201 for: its
    identifier was free, and is seven digits when the request gave none;
    its customer is in the customer table; its status is the one of the
    request, pending by default; its row is the instance the view answers
    with; its total is the sum over its items when the request has items,
    and the total of the request, 0 by default, when it has none; the
    history has gained exactly one row, for this order, with its status;
    and no other order row has changed. *)
Theorem a_new_order_is_stored_and_logged
    (now : Z) (order_draws draws : list Z) (d : OrderData) (db : DB) (r : Reply) (db' : DB) :
  OrderViewSet_create now order_draws draws d db = Return r db' →
  ∃ order,
    r = mkReply (of_order order) HTTP_201_CREATED ∧
    new_order_id order_draws d db = Some (Order.order_id order) ∧
    (Order.order_id order ∉ dom (ORDER_APP_ORDER db)) ∧
    (data_order_id d = None → Py.numeric_string 7 (Order.order_id order)) ∧
    Order.customer_id order = data_customer_id d ∧
    data_customer_id d ∈ CUSTOMERS_CUSTOMER db ∧
    Order.status order = default "pending"%string (data_status d) ∧
    ORDER_APP_ORDER db' !! Order.order_id order = Some order ∧
    (data_order_items d = [] → Order.total_amount order = default 0 (data_total_amount d)) ∧
    (data_order_items d ≠ [] →
       Order.total_amount order = live_total (Order.order_id order) db') ∧
    ORDER_APP_ORDER_STATUS_HISTORY db'
      = ORDER_APP_ORDER_STATUS_HISTORY db
          ++ [OrderStatusHistory.mk (Order.order_id order) (Order.status order)] ∧
    (∀ order_id, order_id ≠ Order.order_id order →
                 ORDER_APP_ORDER db' !! order_id = ORDER_APP_ORDER db !! order_id).
Proof.
  unfold OrderViewSet_create, atomic.
  match goal with
  | |- match ?o with _ => _ end = _ → _ => destruct o as [r1 db1 | |] eqn:Hbody
  end; [| done..].
  intros [= <- <-].
  apply bind_Return_inv in Hbody as (order & db2 & Hser & Hlog).
  unfold OrderStatusHistory_create in Hlog. munfold. injection Hlog as <- <-.
  unfold OrderSerializer_create in Hser.
  apply bind_Return_inv in Hser as (order0 & db0 & Hcreate & Hser).
  apply bind_Return_inv in Hser as (order1 & db1 & Hitems & Hpay).
  rewrite Order_create_cases in Hcreate.
  destruct (new_order_id order_draws d db) as [order_id |] eqn:Hid; [| done].
  cbv zeta in Hcreate. case_decide as Hcustomer; [| done].
  destruct (Order_exists order_id db) eqn:Hexists; [done |].
  injection Hcreate as <- <-.
  apply create_order_items_result in Hitems
    as ([total ->] & Hnil & Hcons & Hrow & Hothers & _ & Hhist & _).
  cbn [Order.order_id Order.set_total_amount] in *.
  assert (order = Order.mk order_id (data_customer_id d) (data_address_id d) total
                    (default "pending"%string (data_status d)) ∧
          ORDER_APP_ORDER db2 = ORDER_APP_ORDER db1 ∧
          ORDER_APP_ORDER_ITEM db2 = ORDER_APP_ORDER_ITEM db1 ∧
          ORDER_APP_ORDER_STATUS_HISTORY db2 = ORDER_APP_ORDER_STATUS_HISTORY db1)
    as (-> & Horders2 & Hitems2 & Hhist2).
  { destruct (data_payment d) as [pd |].
    - apply bind_Return_inv in Hpay as (p & db3 & Hp & Hret).
      munfold. injection Hret as <- <-.
      assert (∀ T (proj : DB → T),
                (∀ f db, proj (set_payments f db) = proj db) → proj db3 = proj db1)
        as Hframe.
      { intros T proj Hproj.
        eapply (Payment_create_preserves proj _ _ _ _ Hproj db1 db3). by rewrite Hp. }
      split_and!; [done | by apply Hframe..].
    - munfold. by injection Hpay as <- <-. }
  eexists. split; [reflexivity |].
  cbn [Order.order_id Order.customer_id Order.status Order.total_amount
       ORDER_APP_ORDER ORDER_APP_ORDER_STATUS_HISTORY set_status_history].
  split_and!; try done.
  - by apply Order_exists_false.
  - intros Hnone. unfold new_order_id in Hid. rewrite Hnone in Hid.
    by eapply generate_order_id_digits.
  - rewrite Horders2. apply Hrow.
    cbn [ORDER_APP_ORDER set_orders]. apply lookup_insert_eq.
  - intros Hnone. destruct (Hnil Hnone) as [Heq _]. by injection Heq.
  - intros Hsome. transitivity (live_total order_id db1); [exact (Hcons Hsome) |].
    symmetry. by apply live_total_same_items.
  - by rewrite Hhist2, Hhist.
  - intros order_id' Hne. rewrite Horders2, Hothers by done.
    cbn [ORDER_APP_ORDER set_orders]. by rewrite lookup_insert_ne.
Qed.

Lemma new_order_in_shop :
  OrderViewSet_create 1700000000 [0; 5] []
    (mkOrderData None "c1" 2 (Some 999) None [mkItemData 11 "p1" 2 100] None) shop
  = Return (mkReply (of_order order_2) HTTP_201_CREATED) shop_with_second_order ∧
  Py.numeric_string 7 "1000005" ∧
  Order.total_amount order_2 = live_total "1000005" shop_with_second_order ∧
  ORDER_APP_ORDER shop_with_second_order !! "1000000"%string = Some order_1.
Proof.
  assert (OrderViewSet_create 1700000000 [0; 5] []
            (mkOrderData None "c1" 2 (Some 999) None [mkItemData 11 "p1" 2 100] None) shop
          = Return (mkReply (of_order order_2) HTTP_201_CREATED) shop_with_second_order)
    as Hrun by (vm_compute; reflexivity).
  destruct (a_new_order_is_stored_and_logged _ _ _ _ _ _ _ Hrun)
    as (order & Hr & _ & _ & Hdigits & _ & _ & _ & _ & _ & Htotal & _ & Hothers).
  injection Hr as <-.
  split_and!; [exact Hrun | by apply Hdigits | by apply Htotal |].
  rewrite (Hothers "1000000"%string); [reflexivity | discriminate].
Defined.

(** ** Deleting an order *)

Lemma OrderViewSet_destroy_cases (order_id : string) (db : DB) :
  OrderViewSet_destroy order_id db =
  match ORDER_APP_ORDER db !! order_id with
  | None => Raise OrderNotFoundException db
  | Some order =>
      Return (mkResponse (message "Order deleted successfully") HTTP_204_NO_CONTENT)
        (mkDB (CUSTOMERS_CUSTOMER db) (PRODUCT_APP_PRODUCT db)
           (delete (Order.order_id order) (ORDER_APP_ORDER db))
           (filter (λ kv, OrderItem.order kv.2 ≠ Order.order_id order) (ORDER_APP_ORDER_ITEM db))
           (filter (λ kv, Payment.order kv.2 ≠ Order.order_id order) (ORDER_APP_PAYMENT db))
           (filter (λ h, OrderStatusHistory.order h ≠ Order.order_id order)
                   (ORDER_APP_ORDER_STATUS_HISTORY db)))
  end.
Proof.
  unfold OrderViewSet_destroy, OrderViewSet_get_object, Order_delete. munfold.
  by destruct (ORDER_APP_ORDER db !! order_id).
Qed.

(** X22.  [OrderViewSet.destroy] answers not-found for an unknown order.
    For an order of the store it answers 204 and the order row is gone
    together with every item, payment and history row that points to it;
    the rows of the other orders are all there, unchanged; and the product
    table is as it was: the stock the items of the order had taken is not
    given back. *)
Theorem deleting_an_order_takes_its_rows_along (order_id : string) (db : DB) :
  (ORDER_APP_ORDER db !! order_id = None →
   OrderViewSet_destroy order_id db = Raise OrderNotFoundException db) ∧
  (∀ order,
     ORDER_APP_ORDER db !! order_id = Some order →
     Order.order_id order = order_id →
     ∃ db',
       OrderViewSet_destroy order_id db
         = Return (mkResponse (message "Order deleted successfully") HTTP_204_NO_CONTENT) db' ∧
       ORDER_APP_ORDER db' = delete order_id (ORDER_APP_ORDER db) ∧
       (∀ pk item, ORDER_APP_ORDER_ITEM db' !! pk = Some item ↔
                   ORDER_APP_ORDER_ITEM db !! pk = Some item ∧ OrderItem.order item ≠ order_id) ∧
       (∀ pk p, ORDER_APP_PAYMENT db' !! pk = Some p ↔
                ORDER_APP_PAYMENT db !! pk = Some p ∧ Payment.order p ≠ order_id) ∧
       order_items order_id db' = [] ∧
       payment_of order_id db' = None ∧
       Order_status_history order_id db' = [] ∧
       (∀ other, other ≠ order_id →
                 Order_status_history other db' = Order_status_history other db) ∧
       PRODUCT_APP_PRODUCT db' = PRODUCT_APP_PRODUCT db).
Proof.
  rewrite OrderViewSet_destroy_cases. split; [by intros -> |].
  intros order -> <-. eexists. split; [reflexivity |].
  cbn [ORDER_APP_ORDER ORDER_APP_ORDER_ITEM ORDER_APP_PAYMENT PRODUCT_APP_PRODUCT].
  assert (∀ pk item,
            filter (λ kv : Z * OrderItem.t, OrderItem.order kv.2 ≠ Order.order_id order)
              (ORDER_APP_ORDER_ITEM db) !! pk = Some item ↔
            ORDER_APP_ORDER_ITEM db !! pk = Some item ∧
            OrderItem.order item ≠ Order.order_id order) as Hitems
    by (intros pk item; apply map_lookup_filter_Some).
  assert (∀ pk p,
            filter (λ kv : Z * Payment.t, Payment.order kv.2 ≠ Order.order_id order)
              (ORDER_APP_PAYMENT db) !! pk = Some p ↔
            ORDER_APP_PAYMENT db !! pk = Some p ∧
            Payment.order p ≠ Order.order_id order) as Hpayments
    by (intros pk p; apply map_lookup_filter_Some).
  split_and!; [done | done | done | | | | | done].
  - apply elem_of_nil_inv. intros item Hin. unfold order_items in Hin.
    apply list_elem_of_filter in Hin as [Horder Hin].
    apply list_elem_of_fmap in Hin as ([pk item'] & -> & Hin).
    apply elem_of_map_to_list in Hin. cbn [ORDER_APP_ORDER_ITEM] in Hin.
    apply Hitems in Hin as [_ Hne]. done.
  - apply payment_of_None. intros pk p Hp. cbn [ORDER_APP_PAYMENT] in Hp.
    by apply Hpayments in Hp as [_ Hne].
  - unfold Order_status_history. cbn [ORDER_APP_ORDER_STATUS_HISTORY].
    apply elem_of_nil_inv. intros h Hin.
    apply list_elem_of_filter in Hin as [Horder Hin].
    apply list_elem_of_filter in Hin as [Hne _]. done.
  - intros other Hother. unfold Order_status_history. cbn [ORDER_APP_ORDER_STATUS_HISTORY].
    rewrite list_filter_filter. apply list_filter_iff. intros h. split; [tauto |].
    intros Hh. split; [done |]. congruence.
Qed.

Lemma order_deleted_in_shop :
  OrderViewSet_destroy "1000001" shop_confirmed = Raise OrderNotFoundException shop_confirmed ∧
  OrderViewSet_destroy "1000000" shop_confirmed
    = Return (mkResponse (message "Order deleted successfully") HTTP_204_NO_CONTENT)
             (mkDB {[ "c1"%string ]} {[ "p1"%string := 7 ]} ∅ ∅ ∅ []) ∧
  order_items "1000000" (mkDB {[ "c1"%string ]} {[ "p1"%string := 7 ]} ∅ ∅ ∅ []) = [] ∧
  PRODUCT_APP_PRODUCT (mkDB {[ "c1"%string ]} {[ "p1"%string := 7 ]} ∅ ∅ ∅ [])
    = PRODUCT_APP_PRODUCT shop_confirmed.
Proof.
  destruct (deleting_an_order_takes_its_rows_along "1000001" shop_confirmed) as [Hmissing _].
  destruct (deleting_an_order_takes_its_rows_along "1000000" shop_confirmed) as [_ Hdelete].
  destruct (Hdelete (Order.mk "1000000" "c1" 1 750 "shipped") eq_refl eq_refl)
    as (db' & Hrun & _ & _ & _ & Hitems & _ & _ & _ & Hstock).
  assert (db' = mkDB {[ "c1"%string ]} {[ "p1"%string := 7 ]} ∅ ∅ ∅ []) as ->.
  { assert (OrderViewSet_destroy "1000000" shop_confirmed
            = Return (mkResponse (message "Order deleted successfully") HTTP_204_NO_CONTENT)
                     (mkDB {[ "c1"%string ]} {[ "p1"%string := 7 ]} ∅ ∅ ∅ [])) as Hrun'
      by (vm_compute; reflexivity).
    rewrite Hrun in Hrun'. by injection Hrun'. }
  split_and!; [by apply Hmissing | exact Hrun | exact Hitems | exact Hstock].
Defined.

(** X23.  The cascade keeps the references whole: if every item, payment
    and history row points to an order of the store before
    [OrderViewSet.destroy], every row does after, whether the view returns
    or raises.  The order rows are stored under their own identifier. *)
Theorem deleting_an_order_leaves_nothing_dangling (order_id : string) (db db' : DB) :
  keyed_by_order_id db →
  no_dangling db →
  leaves (OrderViewSet_destroy order_id db) db' →
  no_dangling db'.
Proof.
  intros Hkeyed (Hitems & Hpayments & Hhistory). rewrite OrderViewSet_destroy_cases.
  destruct (ORDER_APP_ORDER db !! order_id) as [order |] eqn:Horder;
    cbn [leaves]; intros <-; [| done].
  pose proof (Hkeyed _ _ Horder) as Hid.
  unfold no_dangling.
  cbn [ORDER_APP_ORDER ORDER_APP_ORDER_ITEM ORDER_APP_PAYMENT ORDER_APP_ORDER_STATUS_HISTORY].
  split_and!.
  - intros pk item Hitem. apply map_lookup_filter_Some in Hitem as [Hitem Hne].
    cbn [snd] in Hne. rewrite lookup_delete_ne by done. by eapply Hitems.
  - intros pk p Hp. apply map_lookup_filter_Some in Hp as [Hp Hne].
    cbn [snd] in Hne. rewrite lookup_delete_ne by done. by eapply Hpayments.
  - apply Forall_forall. intros h Hin. apply list_elem_of_filter in Hin as [Hne Hin].
    rewrite lookup_delete_ne by done.
    by apply (proj1 (Forall_forall _ _) Hhistory).
Qed.

Lemma nothing_dangling_in_shop :
  no_dangling shop_with_second_order ∧
  no_dangling (mkDB {[ "c1"%string ]} {[ "p1"%string := 8 ]}
                 {[ "1000000"%string := order_1 ]} ∅ ∅
                 [OrderStatusHistory.mk "1000000" "pending"]).
Proof.
  assert (no_dangling shop_with_second_order) as Hbefore.
  { split_and!.
    - intros pk item H.
      cbv beta iota delta [shop_with_second_order ORDER_APP_ORDER_ITEM] in H.
      apply lookup_singleton_Some in H as [_ <-]. vm_compute. by eexists.
    - intros pk p H. cbv beta iota delta [shop_with_second_order ORDER_APP_PAYMENT] in H.
      by rewrite lookup_empty in H.
    - repeat constructor; vm_compute; by eexists. }
  split; [exact Hbefore |].
  apply (deleting_an_order_leaves_nothing_dangling "1000005" shop_with_second_order);
    [| exact Hbefore | vm_compute; reflexivity].
  intros k o H. cbv beta iota delta [shop_with_second_order ORDER_APP_ORDER] in H.
  apply lookup_insert_Some in H as [[<- <-] | [_ H]]; [reflexivity |].
  apply lookup_singleton_Some in H as [<- <-]. reflexivity.
Defined.

(** ** The totals under every handler *)

Lemma totals_consistent_same (db db' : DB) :
  ORDER_APP_ORDER db' = ORDER_APP_ORDER db →
  ORDER_APP_ORDER_ITEM db' = ORDER_APP_ORDER_ITEM db →
  totals_consistent db → totals_consistent db'.
Proof.
  intros Horders Hitems Hdb order_id order. rewrite Horders.
  intros Horder. rewrite (live_total_same_items _ db db') by done. by apply Hdb.
Qed.

(** Rewriting the row of an order with another status keeps the totals. *)
Lemma totals_consistent_set_status (order_id s : string) (order : Order.t) (db db' : DB) :
  ORDER_APP_ORDER db !! order_id = Some order →
  ORDER_APP_ORDER db' = <[order_id := Order.set_status s order]> (ORDER_APP_ORDER db) →
  ORDER_APP_ORDER_ITEM db' = ORDER_APP_ORDER_ITEM db →
  totals_consistent db → totals_consistent db'.
Proof.
  intros Horder Horders Hitems Hdb other o. rewrite Horders.
  rewrite (live_total_same_items _ db db') by done.
  destruct (decide (order_id = other)) as [<- | Hne].
  - rewrite lookup_insert_eq. intros [= <-]. cbn. by apply Hdb.
  - rewrite lookup_insert_ne by done. apply Hdb.
Qed.

Lemma OrderItem_create_keeps_totals
    (order : Order.t) (d : OrderItemData) (db : DB)
    (item : OrderItem.t) (order' : Order.t) (db' : DB) :
  totals_consistent db →
  OrderItem_create order d db = Return (item, order') db' →
  totals_consistent db'.
Proof.
  intros Hdb Hrun.
  destruct (OrderItem_create_Return _ _ _ _ _ _ Hrun) as (_ & _ & Htotal & Horders & _).
  destruct (OrderItem_create_effects _ _ _ _ _ _ Hrun) as (-> & _ & Hfresh & Hitems & _).
  intros other o. rewrite Horders.
  destruct (decide (Order.order_id order = other)) as [<- | Hne].
  - rewrite lookup_insert_eq. by intros [= <-].
  - rewrite lookup_insert_ne by done. intros Ho. rewrite (Hdb _ _ Ho). symmetry.
    rewrite (live_total_same_items other
               (set_order_items (insert (uuid d) (item_of (Order.order_id order) d)) db) db')
      by done.
    by apply live_total_insert_other.
Qed.

Lemma create_items_keeps_totals (order_items_data : list OrderItemData) :
  ∀ (order : Order.t) (db : DB) (created : list OrderItem.t) (db' : DB),
  totals_consistent db →
  create_items order order_items_data db = Return created db' →
  totals_consistent db'.
Proof.
  induction order_items_data as [| d rest IH]; intros order db created db' Hdb Hrun.
  - cbn [create_items] in Hrun. munfold. by injection Hrun as <- <-.
  - cbn [create_items] in Hrun.
    apply bind_Return_inv in Hrun as ([item order1] & db1 & Hone & Hrun).
    apply bind_Return_inv in Hrun as (created' & db2 & Hrest & Hret).
    munfold. injection Hret as <- <-.
    eapply IH; [| done]. by eapply OrderItem_create_keeps_totals.
Qed.

Lemma order_items_filter_other (order_id other : string) (m : gmap Z OrderItem.t) :
  other ≠ order_id →
  filter (λ i, OrderItem.order i = other)
    (map_to_list (filter (λ kv : Z * OrderItem.t, OrderItem.order kv.2 ≠ order_id) m)).*2
  ≡ₚ filter (λ i, OrderItem.order i = other) (map_to_list m).*2.
Proof.
  intros Hother. induction m as [| pk item m Hfresh IH] using map_ind.
  - by rewrite map_filter_empty.
  - rewrite (map_to_list_insert m) by done. rewrite fmap_cons, filter_cons. cbn [snd].
    destruct (decide (OrderItem.order item = order_id)) as [Hown | Hnot].
    + rewrite map_filter_insert_not'; [| cbn; tauto | intros y Hy; congruence].
      rewrite decide_False by congruence. done.
    + rewrite map_filter_insert_True by done.
      rewrite map_to_list_insert by (by apply map_lookup_filter_None_2; left).
      rewrite fmap_cons, filter_cons. cbn [snd]. case_decide; by rewrite IH.
Qed.

(** X24.  The totals under every handler: if every order of the store has
    the sum over its live items as [total_amount] before the item create
    view, the item destroy view, [update_status], the confirmation view,
    the payment create view or the order destroy view, every order has it
    after, whether the view returns or raises.  The order and item rows are
    stored under their own key. *)
Theorem every_handler_keeps_the_totals :
  (∀ order_id order_items_data,
     keeps totals_consistent (OrderItemViewSet_create order_id order_items_data)) ∧
  (∀ order_id pk db db',
     keyed_by_order_id db → keyed_by_order_item_id db → totals_consistent db →
     leaves (OrderItemViewSet_destroy order_id pk db) db' → totals_consistent db') ∧
  (∀ order_id new_status db db',
     keyed_by_order_id db → totals_consistent db →
     leaves (OrderViewSet_update_status order_id new_status db) db' →
     totals_consistent db') ∧
  (∀ now draws order_id db db',
     keyed_by_order_id db → totals_consistent db →
     leaves (PaymentViewSet_confirm_payment now draws order_id db) db' →
     totals_consistent db') ∧
  (∀ now draws order_id d, keeps totals_consistent (PaymentViewSet_create now draws order_id d)) ∧
  (∀ order_id db db',
     keyed_by_order_id db → totals_consistent db →
     leaves (OrderViewSet_destroy order_id db) db' → totals_consistent db').
Proof.
  split_and!.
  - intros order_id data db db' Hdb.
    unfold OrderItemViewSet_create, get_Order_or_404, atomic. munfold.
    destruct (option_bind _ _ _ order_id) as [order |]; [| cbn [leaves]; by intros <-].
    destruct (create_items order data db) as [created db1 | e db1 |] eqn:Hloop;
      cbn [leaves]; [| by intros <- | done].
    intros <-. by eapply create_items_keeps_totals.
  - intros order_id pk db db' Hkeyed Hkeyed_items Hdb.
    rewrite OrderItemViewSet_destroy_cases.
    destruct (ORDER_APP_ORDER_ITEM db !! pk) as [item |] eqn:Hitem;
      [| cbn [leaves]; by intros <-].
    destruct (truthy order_id && _); [cbn [leaves]; by intros <- |].
    destruct (ORDER_APP_ORDER db !! _) as [order |] eqn:Horder;
      [| cbn [leaves]; by intros <-].
    case_decide; cbn [leaves]; intros <-; [| done].
    pose proof (Hkeyed _ _ Horder) as Hid. pose proof (Hkeyed_items _ _ Hitem) as Hpk.
    intros other o. unfold item_removed. cbn [ORDER_APP_ORDER set_orders set_order_items].
    change (live_total other (set_orders ?f ?d)) with (live_total other d).
    rewrite Hid, Hpk.
    destruct (decide (OrderItem.order item = other)) as [<- | Hne].
    + rewrite lookup_insert_eq. intros [= <-]. cbn. by rewrite Hid.
    + rewrite lookup_insert_ne by done. intros Ho. rewrite (Hdb _ _ Ho). symmetry.
      by apply (live_total_delete_other other pk item db).
  - intros order_id new_status db db' Hkeyed Hdb.
    rewrite OrderViewSet_update_status_cases.
    destruct (ORDER_APP_ORDER db !! order_id) as [order |] eqn:Horder;
      [| cbn [leaves]; by intros <-].
    destruct new_status as [s |]; [| cbn [leaves]; by intros <-].
    destruct (negb (in_STATUS_CHOICES s)); [cbn [leaves]; by intros <- |].
    destruct (if String.eqb s "delivered" then _ else _) as [e | [|]];
      [cbn [leaves]; by intros <- .. |].
    case_decide; cbn [leaves]; intros <-; [| done].
    rewrite (Hkeyed _ _ Horder).
    by apply (totals_consistent_set_status order_id s order db).
  - intros now draws order_id db db' Hkeyed Hdb.
    rewrite PaymentViewSet_confirm_payment_cases.
    destruct (payment_of order_id db) as [payment |]; [| cbn [leaves]; by intros <-].
    destruct (String.eqb _ "success"); [cbn [leaves]; by intros <- |].
    destruct (if truthy _ then _ else _) as [t |]; [| done].
    destruct (ORDER_APP_ORDER db !! _) as [order |] eqn:Horder;
      [| cbn [leaves]; by intros <-].
    cbv zeta. case_decide; cbn [leaves]; intros <-.
    + rewrite (Hkeyed _ _ Horder).
      by apply (totals_consistent_set_status (Payment.order payment) "shipped" order db).
    + by apply (totals_consistent_same db).
  - intros now draws order_id d.
    apply (preserves_keeps _ (λ db, (ORDER_APP_ORDER db, ORDER_APP_ORDER_ITEM db))).
    + intros db db' [= Horders Hitems]. by apply totals_consistent_same.
    + unfold PaymentViewSet_create, get_Order_or_404. frame.
      by apply Payment_create_preserves.
  - intros order_id db db' Hkeyed Hdb. rewrite OrderViewSet_destroy_cases.
    destruct (ORDER_APP_ORDER db !! order_id) as [order |] eqn:Horder;
      cbn [leaves]; intros <-; [| done].
    rewrite (Hkeyed _ _ Horder).
    intros other o. cbn [ORDER_APP_ORDER].
    destruct (decide (order_id = other)) as [<- | Hne].
    + by rewrite lookup_delete_eq.
    + rewrite lookup_delete_ne by done. intros Ho. rewrite (Hdb _ _ Ho).
      unfold live_total. apply foldr_add_Permutation. apply fmap_Permutation.
      unfold order_items. cbn [ORDER_APP_ORDER_ITEM].
      symmetry. by apply order_items_filter_other.
Qed.

Lemma totals_kept_in_shop :
  totals_consistent shop ∧ totals_consistent shop_with_two_items ∧
  Order.total_amount (Order.set_total_amount 1150 order_1)
    = live_total "1000000" shop_with_two_items.
Proof.
  assert (totals_consistent shop) as Hshop.
  { intros k o H. cbv beta iota delta [shop ORDER_APP_ORDER] in H.
    apply lookup_singleton_Some in H as [<- <-]. vm_compute. reflexivity. }
  destruct every_handler_keeps_the_totals as (Hcreate & _).
  assert (totals_consistent shop_with_two_items) as Hafter.
  { apply (Hcreate (Some "1000000"%string)
             [mkItemData 7 "p1" 3 250; mkItemData 8 "p1" 4 100] shop shop_with_two_items Hshop).
    vm_compute. reflexivity. }
  split_and!; [exact Hshop | exact Hafter |].
  apply (Hafter "1000000"%string). reflexivity.
Defined.
